(** * Fixed-width S38 quote extraction: the decoding core of the
      "data cleaning" scripts, embedded in Rocq.

    The three scripts [extract_quotes_byte_level.py],
    [extract_quotes_diagnostic.py] and [extract_stock_for_ml.py] share one
    design: slice a record line at fixed offsets, decode the implied-decimal
    closing price, derive the trade date of the file, and classify every line
    as an accepted row or a diagnostic row.  Each script is embedded in a
    module of its own ([ByteLevel], [Diagnostic], [ForML] and [Filter]); the
    loops of [main] are in [ByteLevelMain] and [FilterMain]; the Python
    primitives they rely on (slices, [strip], [zfill], [int], the codec, the
    regular expressions) are modelled once, before the modules. *)

From Stdlib Require Import Strings.String Strings.Ascii Strings.Byte.
From Stdlib Require Import List ZArith NArith QArith Qround Qabs Qpower Lia Lqa Bool.
From Stdlib Require Import Sorting.Sorted Sorting.Permutation.
Import ListNotations.

Local Open Scope Z_scope.

(** ** Python values *)

(** A [str] is a sequence of Unicode code points, a [bytes] a sequence of
    octets. *)
Definition char := N.
Definition pystr := list char.
Definition bytes := list byte.

(** The exceptions the modelled operations can raise. *)
Inductive exn : Type :=
| UnicodeDecodeError
| ValueError
| OSError.

(** The outcome of an expression: a value, or a raised exception. *)
Inductive result (A : Type) : Type :=
| Ok (a : A)
| Raise (e : exn).
Arguments Ok {A} a.
Arguments Raise {A} e.

Definition rbind {A B} (r : result A) (k : A -> result B) : result B :=
  match r with
  | Ok a => k a
  | Raise e => Raise e
  end.

(** [try: body / except: handler], catching every exception. *)
Definition try_except {A} (body : result A) (handler : exn -> result A) : result A :=
  match body with
  | Ok a => Ok a
  | Raise e => handler e
  end.

Declare Scope result_scope.
Delimit Scope result_scope with result.
Notation "x <- c1 ;; c2" := (rbind c1 (fun x => c2))
  (at level 61, c1 at next level, right associativity) : result_scope.

(** String literals of the scripts, as code points. *)
Fixpoint lit (s : string) : pystr :=
  match s with
  | EmptyString => []
  | String a s' => N_of_ascii a :: lit s'
  end.

Definition bytes_lit (s : string) : bytes := list_byte_of_string s.

Definition len {A} (l : list A) : Z := Z.of_nat (length l).

(** Truthiness of a sequence: [if not s] holds exactly for the empty one. *)
Definition is_empty {A} (l : list A) : bool :=
  match l with
  | [] => true
  | _ :: _ => false
  end.

(** ** Slices

    [l[start:stop]] with either bound optional.  A negative bound counts from
    the end; every bound is clamped into [0, len l], so a slice never raises. *)
Definition clamp_index (n i : Z) : Z :=
  if i <? 0 then Z.max (i + n) 0 else Z.min i n.

Definition py_slice {A} (l : list A) (start stop : option Z) : list A :=
  let n := len l in
  let s := match start with None => 0 | Some i => clamp_index n i end in
  let e := match stop with None => n | Some j => clamp_index n j end in
  firstn (Z.to_nat (e - s)) (skipn (Z.to_nat s) l).

(** ** [strip], [rstrip], [zfill] *)

Fixpoint lstrip_with {A} (p : A -> bool) (l : list A) : list A :=
  match l with
  | [] => []
  | c :: t => if p c then lstrip_with p t else l
  end.

Definition rstrip_with {A} (p : A -> bool) (l : list A) : list A :=
  rev (lstrip_with p (rev l)).

(** The characters [str.strip()] removes: those for which [str.isspace]
    holds. *)
Definition isspace (c : char) : bool :=
  (((9 <=? c) && (c <=? 13)) || ((28 <=? c) && (c <=? 32))
   || (c =? 133) || (c =? 160) || (c =? 5760)
   || ((8192 <=? c) && (c <=? 8202))
   || (c =? 8232) || (c =? 8233) || (c =? 8239) || (c =? 8287)
   || (c =? 12288))%N.

Definition strip (s : pystr) : pystr :=
  rstrip_with isspace (lstrip_with isspace s).

Definition is_crlf_char (c : char) : bool := ((c =? 13) || (c =? 10))%N.
Definition is_crlf_byte (b : byte) : bool :=
  Byte.eqb b x0d || Byte.eqb b x0a.

(** [line.rstrip("\r\n")] and [line_bytes.rstrip(b'\r\n')]. *)
Definition rstrip_crlf (s : pystr) : pystr := rstrip_with is_crlf_char s.
Definition rstrip_crlf_bytes (b : bytes) : bytes := rstrip_with is_crlf_byte b.

Definition char_0 : char := 48%N.
Definition char_plus : char := 43%N.
Definition char_minus : char := 45%N.

Definition zeros (k : nat) : pystr := repeat char_0 k.

(** [s.zfill(width)]: zeros go after a leading sign character. *)
Definition zfill (width : nat) (s : pystr) : pystr :=
  if (width <=? length s)%nat then s
  else
    let pad := zeros (width - length s) in
    match s with
    | c :: t =>
        if ((c =? char_plus) || (c =? char_minus))%N then c :: pad ++ t
        else pad ++ s
    | [] => pad
    end.

(** [line.ljust(width)]. *)
Definition ljust (width : nat) (s : pystr) : pystr :=
  s ++ repeat 32%N (width - length s).

(** ** Digits, [int] and [str] *)

Definition is_ascii_digit (c : char) : bool := ((48 <=? c) && (c <=? 57))%N.

(** [re.sub(r'[^0-9]', '', s)]. *)
Definition re_sub_non_digits (s : pystr) : pystr := filter is_ascii_digit s.

Definition digit_val (c : char) : Z := Z.of_N (c - 48).

Definition digits_value (s : pystr) : Z :=
  fold_left (fun acc c => 10 * acc + digit_val c) s 0.

(** [int(s)] on the strings the scripts pass to it.  The model accepts the
    non-empty strings of ASCII digits and raises [ValueError] on anything
    else (Python also accepts signs, blanks and underscores; no caller here
    passes them, see [split_9digit_ok]). *)
Definition py_int (s : pystr) : result Z :=
  match s with
  | [] => Raise ValueError
  | _ :: _ =>
      if forallb is_ascii_digit s then Ok (digits_value s)
      else Raise ValueError
  end.

(** The [w] low decimal digits of [n], most significant first. *)
Fixpoint fixed_digits (w : nat) (n : N) : pystr :=
  match w with
  | O => []
  | S w' => fixed_digits w' (n / 10)%N ++ [(48 + n mod 10)%N]
  end.

(** A digit string without its leading zeros; "0" if nothing is left. *)
Definition canonical (x : pystr) : pystr :=
  match lstrip_with (N.eqb char_0) x with
  | [] => [char_0]
  | s => s
  end.

(** [str(n)] for a natural number: its decimal digits, no leading zero
    (a number of [b] bits has at most [b] decimal digits). *)
Definition str_of_N (n : N) : pystr :=
  canonical (fixed_digits (S (N.to_nat (N.log2 n))) n).

Definition str_of_int (z : Z) : pystr :=
  if z <? 0 then char_minus :: str_of_N (Z.to_N (- z)) else str_of_N (Z.to_N z).

(** ** Prices

    A price is [whole + frac / 10000.0] for integers [whole] and
    [0 <= frac < 10000].  The scripts hold it in a binary float; the model
    holds the exact rational.  Nothing is lost for the comparisons the
    scripts make: [round(value, 4)] is the float nearest to a number of
    ten-thousandths below 10^5, which determines that number; [MAX_PRICE] is
    the integer 10^6; and [MIN_PRICE] is the float nearest to 1/100, which
    lies above 1/100 with no float in between, so a float is at least
    [MIN_PRICE] exactly when its value is at least 1/100.  What the rational
    does not show is the value of the float itself, which differs from it
    by up to [2^-37]: arithmetic on a decoded price is stated on
    [FloatPrice] below, the decoder in binary64 arithmetic. *)

(** [round(q, ndigits)], ties to even. *)
Definition py_round (q : Q) (ndigits : nat) : Q :=
  let scale := 10 ^ Z.of_nat ndigits in
  let num := Qnum q * scale in
  let den := Zpos (Qden q) in
  let n := num / den in
  let r := num mod den in
  let n' :=
    if 2 * r <? den then n
    else if den <? 2 * r then n + 1
    else if Z.even n then n else n + 1 in
  Qmake n' (Z.to_pos scale).

(** [f"{v:.4f}"]. *)
Definition format_4f (v : Q) : pystr :=
  let n := Qnum (py_round v 4) in
  let body (m : Z) :=
    str_of_int (m / 10000) ++ lit "." ++ zfill 4 (str_of_int (m mod 10000)) in
  if n <? 0 then char_minus :: body (- n) else body n.

(** ** The cp950 codec

    [bytes.decode("cp950", errors=...)].  A byte below 0x80 is the ASCII
    character of that code.  Any other byte is a lead byte and needs a trail
    byte; the pair is looked up in the double-byte table.  A pair outside the
    table is an error one byte long, a lead byte at the end of the input an
    incomplete sequence.  Under [errors='replace'] an error puts U+FFFD in
    the output and decoding goes on after it; under [errors='strict'] it
    raises.  The table itself is a parameter. *)
Class Codec : Type := { cp950_map : byte -> byte -> option char }.

Inductive errors_mode : Type := Strict | Replace.

Definition REPLACEMENT_CHARACTER : char := 65533%N.

Definition cons_ok (c : char) (r : result pystr) : result pystr :=
  match r with
  | Ok s => Ok (c :: s)
  | Raise e => Raise e
  end.

Definition on_undecodable (errors : errors_mode) (rest : result pystr) : result pystr :=
  match errors with
  | Strict => Raise UnicodeDecodeError
  | Replace => cons_ok REPLACEMENT_CHARACTER rest
  end.

Fixpoint py_decode `{Codec} (errors : errors_mode) (bs : bytes) : result pystr :=
  match bs with
  | [] => Ok []
  | c :: rest =>
      if (Byte.to_N c <? 128)%N then cons_ok (Byte.to_N c) (py_decode errors rest)
      else
        match rest with
        | [] => on_undecodable errors (Ok [])
        | c2 :: rest2 =>
            match cp950_map c c2 with
            | Some u => cons_ok u (py_decode errors rest2)
            | None => on_undecodable errors (py_decode errors rest)
            end
        end
  end.

(** ** Files

    A path has a name and, behind it, either the bytes that opening and
    reading it yields or the error that doing so raises. *)
Record Path : Type := { path_name : pystr; stored : result bytes }.

(** Lines with their line ends kept, as [readlines] returns them. *)
Fixpoint split_lines {A} (is_nl : A -> bool) (l : list A) : list (list A) :=
  match l with
  | [] => []
  | b :: rest =>
      if is_nl b then [b] :: split_lines is_nl rest
      else
        match split_lines is_nl rest with
        | [] => [[b]]
        | ln :: lns => (b :: ln) :: lns
        end
  end.

(** Text mode translates "\r\n" and "\r" to "\n" (universal newlines). *)
Fixpoint universal_newlines (s : pystr) : pystr :=
  match s with
  | [] => []
  | c :: rest =>
      if (c =? 13)%N then
        match rest with
        | [] => [10%N]
        | c2 :: rest2 =>
            if (c2 =? 10)%N then 10%N :: universal_newlines rest2
            else 10%N :: universal_newlines rest
        end
      else c :: universal_newlines rest
  end.

(** [path.open('rb')] followed by [f.readlines()]. *)
Definition open_rb_readlines (path : Path) : result (list bytes) :=
  (bs <- stored path ;; Ok (split_lines (Byte.eqb x0a) bs))%result.

(** [path.open('r', encoding=ENCODING, errors='replace')]: the lines a
    sequence of [readline] calls, or [readlines], yields. *)
Definition open_text_lines `{Codec} (path : Path) : result (list pystr) :=
  (bs <- stored path ;;
   s <- py_decode Replace bs ;;
   Ok (split_lines (N.eqb 10) (universal_newlines s)))%result.

(** [f.readline()] on the lines still unread: the next line, or the empty
    string at the end of the file. *)
Definition readline (unread : list pystr) : pystr * list pystr :=
  match unread with
  | [] => ([], [])
  | l :: rest => (l, rest)
  end.

(** ** Regular expressions

    On [str] patterns [\d] is any Unicode decimal digit (category Nd), a
    class that contains the ASCII digits; the class is a parameter. *)
Class UnicodeDB : Type :=
  { isdecimal : char -> bool;
    isdecimal_ascii : forall c, is_ascii_digit c = true -> isdecimal c = true }.

(** [\d{k}] matched at the start of [s]. *)
Definition match_digits `{UnicodeDB} (k : nat) (s : pystr) : option pystr :=
  if ((k <=? length s)%nat && forallb isdecimal (firstn k s))%bool
  then Some (firstn k s) else None.

(** [re.compile(r'(\d{8})').search(s)]: group 1 of the leftmost match. *)
Fixpoint re_search_8digits `{UnicodeDB} (s : pystr) : option pystr :=
  match match_digits 8 s with
  | Some g => Some g
  | None =>
      match s with
      | [] => None
      | _ :: t => re_search_8digits t
      end
  end.

Definition starts_with_char (c : char) (s : pystr) : bool :=
  match s with
  | [] => false
  | d :: _ => (d =? c)%N
  end.

(** [\d{3,8}\)] after the opening parenthesis: the greedy count first, then
    the shorter ones on backtracking. *)
Fixpoint match_tag_counts `{UnicodeDB} (counts : list nat) (t : pystr) : option pystr :=
  match counts with
  | [] => None
  | k :: counts' =>
      match match_digits k t with
      | Some g =>
          if starts_with_char 41%N (skipn k t) then Some g
          else match_tag_counts counts' t
      | None => match_tag_counts counts' t
      end
  end.

Definition match_paren_tag `{UnicodeDB} (s : pystr) : option pystr :=
  match s with
  | [] => None
  | c :: t =>
      if (c =? 40)%N then match_tag_counts [8; 7; 6; 5; 4; 3]%nat t else None
  end.

(** [re.search(r'\((\d{3,8})\)', s)]: group 1 of the leftmost match. *)
Fixpoint re_search_paren_tag `{UnicodeDB} (s : pystr) : option pystr :=
  match match_paren_tag s with
  | Some g => Some g
  | None =>
      match s with
      | [] => None
      | _ :: t => re_search_paren_tag t
      end
  end.

(** [re.match(r'^\d{4}$', s)]: [$] matches at the end of the string and
    also just before a newline that ends it. *)
Definition re_match_4digits `{UnicodeDB} (s : pystr) : bool :=
  match match_digits 4 s with
  | None => false
  | Some _ =>
      match skipn 4 s with
      | [] => true
      | [c] => (c =? 10)%N
      | _ => false
      end
  end.

(** [datetime.strptime(s, '%Y%m%d')] returns for the strings that denote a
    calendar date and raises [ValueError] for the others; which strings do is
    a parameter. *)
Class Calendar : Type := { is_calendar_date : pystr -> bool }.

Definition strptime_Ymd `{Calendar} (s : pystr) : result unit :=
  if is_calendar_date s then Ok tt else Raise ValueError.

(** Truthiness of an optional string: [None] and [""] are false. *)
Definition truthy (o : option pystr) : bool :=
  match o with
  | None => false
  | Some s => negb (is_empty s)
  end.

Definition str_or_empty (o : option pystr) : pystr :=
  match o with
  | None => []
  | Some s => s
  end.

(** ** Records, buffers and the effects of [process_file] *)

(** The keys of the layout dictionaries [BYTE_POS] and [POS]. *)
Inductive field : Type :=
| stock_id
| stock_name
| open_price_raw
| high_price_raw
| low_price_raw
| close_price_raw
| change_flag.

(** The reason of a diagnostic row: a tag, followed in the scripts by ":"
    and the formatted exception or value where there is one. *)
Inductive reason : Type :=
| line_too_short
| padded_short_line
| slice_error (e : exn)
| empty_stock_id
| close_unparseable
| close_out_of_bounds (v : Q)
| file_read_error (e : exn).

(** An accepted row (the dictionary appended to [rows]). *)
Record row : Type :=
  { r_date : pystr;
    r_stock_id : pystr;
    r_closing_price : pystr;
    r_change_flag : pystr;
    r_stock_name : pystr;
    r_source_file : pystr;
    r_line_no : Z }.

(** A diagnostic row (the dictionary appended to [debug_rows]). *)
Record diag : Type :=
  { d_file : pystr;
    d_line_no : Z;
    d_reason : reason;
    d_line_preview : pystr;
    d_close_raw : pystr }.

(** The two lists the caller passes in and [process_file] appends to.
    [sliced] is ghost state: the fields extracted from record lines so far,
    latest last; no script reads it. *)
Record buffers : Type :=
  { rows : list row;
    debug_rows : list diag;
    sliced : list field }.

(** A computation on the buffers that returns or raises. *)
Definition M (A : Type) : Type := buffers -> result A * buffers.

Definition ret {A} (a : A) : M A := fun s => (Ok a, s).

Definition bind {A B} (m : M A) (k : A -> M B) : M B :=
  fun s =>
    match m s with
    | (Ok a, s') => k a s'
    | (Raise e, s') => (Raise e, s')
    end.

Definition lift {A} (r : result A) : M A := fun s => (r, s).

(** [try: body / except Exception as e: handler]: what the body appended
    before it raised stays appended. *)
Definition try_M {A} (body : M A) (handler : exn -> M A) : M A :=
  fun s =>
    match body s with
    | (Ok a, s') => (Ok a, s')
    | (Raise e, s') => handler e s'
    end.

Definition append_row (r : row) : M unit :=
  fun s => (Ok tt, {| rows := rows s ++ [r];
                      debug_rows := debug_rows s;
                      sliced := sliced s |}).

Definition append_debug (d : diag) : M unit :=
  fun s => (Ok tt, {| rows := rows s;
                      debug_rows := debug_rows s ++ [d];
                      sliced := sliced s |}).

Definition note_slice (f : field) : M unit :=
  fun s => (Ok tt, {| rows := rows s;
                      debug_rows := debug_rows s;
                      sliced := sliced s ++ [f] |}).

Declare Scope M_scope.
Delimit Scope M_scope with M.
Notation "x <- c1 ;; c2" := (bind c1 (fun x => c2))
  (at level 61, c1 at next level, right associativity) : M_scope.
Notation "c1 ;;; c2" := (bind c1 (fun _ => c2))
  (at level 61, right associativity) : M_scope.

(** The fields of one record line, as the extraction block binds them. *)
Record decoded_fields : Type :=
  { sid : pystr;
    sname : pystr;
    close_raw : pystr;
    change_sym : pystr }.

(** * extract_quotes_byte_level.py *)
Module ByteLevel.

Definition MIN_PRICE : Q := 1 # 100.
Definition MAX_PRICE : Q := 1000000 # 1.

Definition BYTE_POS (f : field) : Z * Z :=
  match f with
  | stock_id => (0, 6)
  | stock_name => (6, 22)
  | open_price_raw => (22, 31)
  | high_price_raw => (31, 40)
  | low_price_raw => (40, 49)
  | close_price_raw => (49, 58)
  | change_flag => (58, 59)
  end.

(** "Extract bytes from start to end position and decode to string."  The
    bare [except] turns any exception into the empty string. *)
Definition slice_bytes `{Codec} (line_bytes : bytes) (start end_ : Z) : result pystr :=
  try_except
    (s <- py_decode Replace (py_slice line_bytes (Some start) (Some end_)) ;;
     Ok (strip s))%result
    (fun _ => Ok []).

(** "Pad or truncate to 9 digits". *)
Definition pad_or_truncate (digits : pystr) : pystr :=
  if len digits <? 9 then zfill 9 digits
  else py_slice digits (Some (-9)) None.

(** The [try] block of [parse_9digit_price]: [int] of the first five and of
    the last four digits. *)
Definition split_9digit (digits : pystr) : result Q :=
  (whole <- py_int (py_slice digits None (Some (-4))) ;;
   frac <- py_int (py_slice digits (Some (-4)) None) ;;
   let value := (inject_Z whole + inject_Z frac / inject_Z 10000)%Q in
   Ok (py_round value 4))%result.

(** "Parse S38 9-digit price (9(5)V9(4))."  [None] is Python's [None]. *)
Definition parse_9digit_price (raw_str : pystr) : option Q :=
  if is_empty raw_str then None
  else
    let digits := re_sub_non_digits raw_str in
    if is_empty digits then None
    else
      match split_9digit (pad_or_truncate digits) with
      | Ok v => Some v
      | Raise _ => None
      end.

(** [float(v)] of a float is the float, so the [except] branch is dead. *)
Definition sane_price (v : option Q) : bool :=
  match v with
  | None => false
  | Some v => Qle_bool MIN_PRICE v && Qle_bool v MAX_PRICE
  end.

(** The loop over the first three lines of the header. *)
Fixpoint scan_header `{UnicodeDB} (n : nat) (unread : list pystr) : option pystr :=
  match n with
  | O => None
  | S n' =>
      let (line, unread') := readline unread in
      if is_empty line then None
      else
        match re_search_8digits line with
        | Some g => Some g
        | None => scan_header n' unread'
        end
  end.

(** The first [try] block: the date found in the header, if the file can be
    read and has one. *)
Definition header_date `{Codec} `{UnicodeDB} (path : Path) : result (option pystr) :=
  try_except
    (lines <- open_text_lines path ;; Ok (scan_header 3 lines))%result
    (fun _ => Ok None).

Definition derive_date_for_file `{Codec} `{UnicodeDB}
    (path : Path) (year_hint : option pystr) : result pystr :=
  (found <- header_date path ;;
   match found with
   | Some g => Ok g
   | None =>
       let hint_ok := truthy year_hint && re_match_4digits (str_or_empty year_hint) in
       let by_hint :=
         if hint_ok then str_or_empty year_hint ++ lit "0101"
         else lit "19700101" in
       match re_search_paren_tag (path_name path) with
       | Some g =>
           let tag := zfill 4 g in
           if (len tag =? 4) && hint_ok then Ok (str_or_empty year_hint ++ tag)
           else if len tag =? 8 then Ok tag
           else Ok by_hint
       | None => Ok by_hint
       end
   end)%result.

(** ** [process_file] *)

Definition slice_field `{Codec} (f : field) (line_bytes : bytes) : M pystr :=
  (note_slice f ;;;
   lift (slice_bytes line_bytes (fst (BYTE_POS f)) (snd (BYTE_POS f))))%M.

(** [line_bytes[:100].decode(ENCODING, errors='replace')]. *)
Definition line_preview `{Codec} (line_bytes : bytes) : M pystr :=
  lift (py_decode Replace (py_slice line_bytes None (Some 100))).

Definition reject `{Codec} (fname : pystr) (lineno : Z) (why : reason)
    (line_bytes : bytes) (close : pystr) : M unit :=
  (preview <- line_preview line_bytes ;;
   append_debug {| d_file := fname;
                   d_line_no := lineno;
                   d_reason := why;
                   d_line_preview := preview;
                   d_close_raw := close |})%M.

(** "Extract fields using byte positions". *)
Definition extract_fields `{Codec} (line_bytes : bytes) : M decoded_fields :=
  (s <- slice_field stock_id line_bytes ;;
   n <- slice_field stock_name line_bytes ;;
   c <- slice_field close_price_raw line_bytes ;;
   note_slice change_flag ;;;
   f <- lift (py_decode Replace
                (py_slice line_bytes (Some (fst (BYTE_POS change_flag)))
                                     (Some (snd (BYTE_POS change_flag))))) ;;
   ret {| sid := s; sname := n; close_raw := c; change_sym := f |})%M.

(** "Verbose output for first samples": the printing is left out (standard
    output is taken to accept every string), the decoding and slicing that
    go with it are kept. *)
Definition show_sample `{Codec} (verbose : bool) (sample_count : nat)
    (line_bytes : bytes) : M nat :=
  if verbose && (sample_count <? 5)%nat then
    (_ <- lift (py_decode Replace line_bytes) ;;
     _ <- slice_field open_price_raw line_bytes ;;
     _ <- slice_field high_price_raw line_bytes ;;
     _ <- slice_field low_price_raw line_bytes ;;
     ret (S sample_count))%M
  else ret sample_count.

(** "Validation", and the append of a valid row. *)
Definition validate `{Codec} (fname date_tag : pystr) (lineno : Z)
    (line_bytes : bytes) (flds : decoded_fields) (close_val : option Q) : M unit :=
  if is_empty (sid flds) then
    reject fname lineno empty_stock_id line_bytes (close_raw flds)
  else
    match close_val with
    | None => reject fname lineno close_unparseable line_bytes (close_raw flds)
    | Some v =>
        if negb (sane_price close_val) then
          reject fname lineno (close_out_of_bounds v) line_bytes (close_raw flds)
        else
          append_row {| r_date := date_tag;
                        r_stock_id := sid flds;
                        r_closing_price := format_4f v;
                        r_change_flag := strip (change_sym flds);
                        r_stock_name := sname flds;
                        r_source_file := fname;
                        r_line_no := lineno |}
    end.

(** The body of the loop over the lines; it returns [sample_count]. *)
Definition process_line `{Codec} (fname date_tag : pystr) (verbose : bool)
    (lineno : Z) (sample_count : nat) (raw_line : bytes) : M nat :=
  let line_bytes := rstrip_crlf_bytes raw_line in
  if len line_bytes =? 0 then ret sample_count
  else
    let min_len := snd (BYTE_POS change_flag) in
    if len line_bytes <? min_len then
      (reject fname lineno line_too_short line_bytes [] ;;; ret sample_count)%M
    else
      (extracted <- try_M
                      (flds <- extract_fields line_bytes ;; ret (Some flds))
                      (fun e =>
                         reject fname lineno (slice_error e) line_bytes [] ;;;
                         ret None) ;;
       match extracted with
       | None => ret sample_count
       | Some flds =>
           sample_count' <- show_sample verbose sample_count line_bytes ;;
           let close_val := parse_9digit_price (close_raw flds) in
           validate fname date_tag lineno line_bytes flds close_val ;;;
           ret sample_count'
       end)%M.

(** [for lineno, line_bytes in enumerate(lines, start=lineno)]. *)
Fixpoint process_lines `{Codec} (fname date_tag : pystr) (verbose : bool)
    (lineno : Z) (sample_count : nat) (lines : list bytes) : M unit :=
  match lines with
  | [] => ret tt
  | raw_line :: rest =>
      (sample_count' <- process_line fname date_tag verbose lineno sample_count raw_line ;;
       process_lines fname date_tag verbose (lineno + 1) sample_count' rest)%M
  end.

Definition process_file `{Codec} (path : Path) (date_tag : pystr)
    (verbose : bool) : M unit :=
  let fname := path_name path in
  try_M
    (lines_bytes <- lift (open_rb_readlines path) ;;
     process_lines fname date_tag verbose 2 0 (py_slice lines_bytes (Some 1) None))%M
    (fun e =>
       append_debug {| d_file := fname;
                       d_line_no := 0;
                       d_reason := file_read_error e;
                       d_line_preview := [];
                       d_close_raw := [] |}).

End ByteLevel.

(** * extract_quotes_diagnostic.py

    The text-mode variant: the file is decoded as a whole when it is read,
    and a line is sliced by characters.  [derive_date_for_file] and
    [sane_price] are those of the byte-level script, word for word. *)
Module Diagnostic.

Definition MIN_PRICE : Q := 1 # 100.
Definition MAX_PRICE : Q := 1000000 # 1.

Definition POS (f : field) : Z * Z :=
  match f with
  | stock_id => (0, 6)
  | stock_name => (6, 22)
  | open_price_raw => (22, 31)
  | high_price_raw => (31, 40)
  | low_price_raw => (40, 49)
  | close_price_raw => (49, 58)
  | change_flag => (58, 59)
  end.

Definition pad_or_truncate (digits : pystr) : pystr :=
  if len digits <? 9 then zfill 9 digits
  else py_slice digits (Some (-9)) None.

Definition split_9digit (digits : pystr) : result Q :=
  (whole <- py_int (py_slice digits None (Some (-4))) ;;
   frac <- py_int (py_slice digits (Some (-4)) None) ;;
   let value := (inject_Z whole + inject_Z frac / inject_Z 10000)%Q in
   Ok (py_round value 4))%result.

(** [raw_str] may be [None]; [str(raw_str)] of a string is the string. *)
Definition parse_9digit_price (raw_str : option pystr) : option Q :=
  match raw_str with
  | None => None
  | Some s =>
      let digits := re_sub_non_digits s in
      if is_empty digits then None
      else
        match split_9digit (pad_or_truncate digits) with
        | Ok v => Some v
        | Raise _ => None
        end
  end.

Definition sane_price (v : option Q) : bool :=
  match v with
  | None => false
  | Some v => Qle_bool MIN_PRICE v && Qle_bool v MAX_PRICE
  end.

(** [line[POS[f][0]:POS[f][1]]]. *)
Definition slice_field (f : field) (line : pystr) : M pystr :=
  (note_slice f ;;;
   ret (py_slice line (Some (fst (POS f))) (Some (snd (POS f)))))%M.

Definition reject (fname : pystr) (lineno : Z) (why : reason)
    (raw : pystr) (close : pystr) : M unit :=
  append_debug {| d_file := fname;
                  d_line_no := lineno;
                  d_reason := why;
                  d_line_preview := py_slice raw None (Some 200);
                  d_close_raw := close |}.

Definition extract_fields (line : pystr) : M decoded_fields :=
  (s <- slice_field stock_id line ;;
   n <- slice_field stock_name line ;;
   c <- slice_field close_price_raw line ;;
   f <- slice_field change_flag line ;;
   ret {| sid := strip s; sname := strip n; close_raw := c; change_sym := f |})%M.

Definition validate (fname date_tag : pystr) (lineno : Z)
    (raw : pystr) (flds : decoded_fields) (close_val : option Q) : M unit :=
  if is_empty (sid flds) then
    reject fname lineno empty_stock_id raw (close_raw flds)
  else
    match close_val with
    | None => reject fname lineno close_unparseable raw (close_raw flds)
    | Some v =>
        if negb (sane_price close_val) then
          reject fname lineno (close_out_of_bounds v) raw (close_raw flds)
        else
          append_row {| r_date := date_tag;
                        r_stock_id := sid flds;
                        r_closing_price := format_4f v;
                        r_change_flag := strip (change_sym flds);
                        r_stock_name := sname flds;
                        r_source_file := fname;
                        r_line_no := lineno |}
    end.

(** The body of the loop over [data_lines]; the verbose branches only
    print. *)
Definition process_line (fname date_tag : pystr) (lineno : Z) (raw : pystr) : M unit :=
  let line := rstrip_crlf raw in
  if is_empty (strip line) then ret tt
  else
    let min_len := snd (POS change_flag) in
    if len line <? min_len then
      let line := ljust (Z.to_nat min_len) line in
      reject fname lineno padded_short_line raw []
    else
      (extracted <- try_M
                      (flds <- extract_fields line ;; ret (Some flds))
                      (fun e =>
                         reject fname lineno (slice_error e) raw [] ;;;
                         ret None) ;;
       match extracted with
       | None => ret tt
       | Some flds =>
           let close_val := parse_9digit_price (Some (close_raw flds)) in
           validate fname date_tag lineno raw flds close_val
       end)%M.

Fixpoint process_lines (fname date_tag : pystr) (lineno : Z)
    (lines : list pystr) : M unit :=
  match lines with
  | [] => ret tt
  | raw :: rest =>
      (process_line fname date_tag lineno raw ;;;
       process_lines fname date_tag (lineno + 1) rest)%M
  end.

Definition process_file `{Codec} (path : Path) (date_tag : pystr) : M unit :=
  let fname := path_name path in
  try_M
    (lines <- lift (open_text_lines path) ;;
     let data_lines := py_slice lines (Some 1) None in
     process_lines fname date_tag 2 data_lines)%M
    (fun e =>
       append_debug {| d_file := fname;
                       d_line_no := 0;
                       d_reason := file_read_error e;
                       d_line_preview := [];
                       d_close_raw := [] |}).

End Diagnostic.

(** * extract_stock_for_ml.py

    The byte slicer and the date resolver of the filtering variant; its
    resolver also checks that a candidate is a calendar date.  Its parsers,
    its checks and its loops are in [Filter] and [FilterMain] further
    down. *)
Module ForML.

Definition slice_bytes `{Codec} (line_bytes : bytes) (start end_ : Z) : result pystr :=
  try_except
    (s <- py_decode Replace (py_slice line_bytes (Some start) (Some end_)) ;;
     Ok (strip s))%result
    (fun _ => Ok []).

(** [try: datetime.strptime(s, '%Y%m%d'); return s / except: pass]. *)
Definition checked_date `{Calendar} (s : pystr) : option pystr :=
  match strptime_Ymd s with
  | Ok _ => Some s
  | Raise _ => None
  end.

Fixpoint scan_header `{UnicodeDB} `{Calendar} (n : nat) (unread : list pystr)
    : option pystr :=
  match n with
  | O => None
  | S n' =>
      let (line, unread') := readline unread in
      if is_empty line then None
      else
        match re_search_8digits line with
        | Some date_str =>
            match checked_date date_str with
            | Some d => Some d
            | None => scan_header n' unread'
            end
        | None => scan_header n' unread'
        end
  end.

Definition header_date `{Codec} `{UnicodeDB} `{Calendar} (path : Path)
    : result (option pystr) :=
  try_except
    (lines <- open_text_lines path ;; Ok (scan_header 3 lines))%result
    (fun _ => Ok None).

Definition derive_date_for_file `{Codec} `{UnicodeDB} `{Calendar}
    (path : Path) (year_hint : option pystr) : result pystr :=
  (found <- header_date path ;;
   match found with
   | Some d => Ok d
   | None =>
       let by_hint :=
         if truthy year_hint then str_or_empty year_hint ++ lit "0101"
         else lit "19700101" in
       match re_search_paren_tag (path_name path) with
       | Some g =>
           let tag := zfill 4 g in
           if (len tag =? 4) && truthy year_hint then
             match checked_date (str_or_empty year_hint ++ tag) with
             | Some d => Ok d
             | None => Ok by_hint
             end
           else if len tag =? 8 then
             match checked_date tag with
             | Some d => Ok d
             | None => Ok by_hint
             end
           else Ok by_hint
       | None => Ok by_hint
       end
   end)%result.

End ForML.

(** * Binary floating point, and the decoder in it

    The scripts hold a price in a Python [float], an IEEE 754 binary64
    number; the modules above hold the exact rational instead.  This part
    models the arithmetic itself.  A float is modelled by its value, and an
    operation on floats returns the exact result rounded to the nearest
    number with 53 significant bits, ties to the even one.  The numbers the
    decoder forms lie between 10^-4 and 10^9, far from overflow and from the
    subnormal numbers, so the range of the exponent plays no part and is
    left out. *)

(** The integer nearest to [q], ties to the even one: [round(x)]. *)
Definition round_half_even (q : Q) : Z :=
  let num := Qnum q in
  let den := Zpos (Qden q) in
  let n := num / den in
  let r := num mod den in
  if 2 * r <? den then n
  else if den <? 2 * r then n + 1
  else if Z.even n then n else n + 1.

(** The exponent of the leading bit of a positive number: the [k] with
    [2^k <= q < 2^(k+1)]. *)
Definition ilog2 (q : Q) : Z :=
  let k := Z.log2 (Qnum q) - Z.log2 (Zpos (Qden q)) in
  if Qle_bool (2 ^ k) q then k else k - 1.

(** The binary64 number nearest to [q]: [q] in units of the last of its 53
    leading bits, rounded to an integer. *)
Definition binary64 (q : Q) : Q :=
  let q := Qred q in
  if Qnum q =? 0 then 0%Q
  else
    let a := Qabs q in
    let ulp := (2 ^ (ilog2 a - 52))%Q in
    let v := Qred (inject_Z (round_half_even (a / ulp)) * ulp) in
    if Qnum q <? 0 then (- v)%Q else v.

(** [float(z)] as the operators apply it to an [int] operand, and a float
    literal. *)
Definition float_of_int (z : Z) : Q := binary64 (inject_Z z).
Definition float_lit (q : Q) : Q := binary64 q.

Definition float_add (x y : Q) : Q := binary64 (x + y).
Definition float_mul (x y : Q) : Q := binary64 (x * y).
Definition float_div (x y : Q) : Q := binary64 (x / y).

(** [round(x, ndigits)] on a float: the decimal rounding of the exact value
    of [x], ties to even, converted back to the nearest float. *)
Definition float_round (x : Q) (ndigits : nat) : Q := binary64 (py_round x ndigits).

(** [parse_9digit_price] of extract_quotes_byte_level.py once more, with the
    arithmetic of [float] in [whole + frac / 10000.0] and in
    [round(value, 4)]. *)
Module FloatPrice.

Definition split_9digit (digits : pystr) : result Q :=
  (whole <- py_int (py_slice digits None (Some (-4))) ;;
   frac <- py_int (py_slice digits (Some (-4)) None) ;;
   let value :=
     float_add (float_of_int whole)
       (float_div (float_of_int frac) (float_lit (inject_Z 10000))) in
   Ok (float_round value 4))%result.

Definition parse_9digit_price (raw_str : pystr) : option Q :=
  if is_empty raw_str then None
  else
    let digits := re_sub_non_digits raw_str in
    if is_empty digits then None
    else
      match split_9digit (ByteLevel.pad_or_truncate digits) with
      | Ok v => Some v
      | Raise _ => None
      end.

End FloatPrice.

(** * The re-encoding of a decoded price *)

(** Modelled from the spec: no script writes a price back.  The
    specification describes the inverse of the decoder as
    [whole * 10000 + fraction], zero-padded to nine digits, and does not say
    how the two numbers are taken out of the decoded value.
    [reencode_9digit] takes them by truncation: the integer part, and the
    integer part of the rest times 10000.  [reencode_nearest] takes the
    integer nearest to 10000 times the value,
    [str(round(v * 10000)).zfill(9)]. *)
Definition whole_part (v : Q) : Z := Qfloor v.
Definition fraction_part (v : Q) : Z :=
  Qfloor ((v - inject_Z (whole_part v)) * inject_Z 10000).
Definition reencode_9digit (v : Q) : pystr :=
  zfill 9 (str_of_int (whole_part v * 10000 + fraction_part v)).
Definition reencode_nearest (v : Q) : pystr :=
  zfill 9 (str_of_int (round_half_even (float_mul v (float_lit (inject_Z 10000))))).

(** * Dates and year hints *)

(** A string of exactly eight decimal digits. *)
Definition is_date8 `{UnicodeDB} (d : pystr) : Prop :=
  length d = 8%nat /\ forallb isdecimal d = true.

(** A year hint as [main] passes it: absent, or four decimal digits. *)
Definition four_digit_hint `{UnicodeDB} (year_hint : option pystr) : Prop :=
  match year_hint with
  | None => True
  | Some y => length y = 4%nat /\ forallb isdecimal y = true
  end.

(** The last two rules of the resolver: the hint with "0101", else the
    sentinel. *)
Definition date_by_hint (year_hint : option pystr) : pystr :=
  match year_hint with
  | Some y => y ++ lit "0101"
  | None => lit "19700101"
  end.

(** The file-name rule of the byte-level script under a four-digit hint: a
    tag of three or four digits goes after the hint, a tag of eight digits
    is the date, any other tag is passed over. *)
Definition date_by_tag (g : pystr) (year_hint : option pystr) : pystr :=
  match year_hint with
  | Some y =>
      if (length g <=? 4)%nat then y ++ zfill 4 g
      else if (length g =? 8)%nat then g
      else date_by_hint year_hint
  | None =>
      if (length g =? 8)%nat then g else date_by_hint year_hint
  end.

(** The file-name rule of the filtering script: as [date_by_tag], but a
    candidate that is not a calendar date gives way to the last two rules. *)
Definition date_by_tag_checked `{Calendar} (g : pystr) (year_hint : option pystr)
    : pystr :=
  let checked (candidate : pystr) :=
    if is_calendar_date candidate then candidate else date_by_hint year_hint in
  match year_hint with
  | Some y =>
      if (length g <=? 4)%nat then checked (y ++ zfill 4 g)
      else if (length g =? 8)%nat then checked g
      else date_by_hint year_hint
  | None =>
      if (length g =? 8)%nat then checked g else date_by_hint year_hint
  end.

(** * Observations on the buffers

    What a run of [process_line] or [process_file] did to the two lists, read
    off the buffers before ([st]) and after ([st']). *)
Definition appended_row (st st' : buffers) (r : row) : Prop :=
  rows st' = rows st ++ [r] /\ debug_rows st' = debug_rows st.

Definition appended_diag (st st' : buffers) (d : diag) : Prop :=
  rows st' = rows st /\ debug_rows st' = debug_rows st ++ [d].

Definition appended_nothing (st st' : buffers) : Prop :=
  rows st' = rows st /\ debug_rows st' = debug_rows st.

Definition mk_diag (fname : pystr) (lineno : Z) (why : reason)
    (preview close : pystr) : diag :=
  {| d_file := fname; d_line_no := lineno; d_reason := why;
     d_line_preview := preview; d_close_raw := close |}.

(** Accepted count plus rejected count. *)
Definition outcomes (st : buffers) : nat :=
  (length (rows st) + length (debug_rows st))%nat.

Definition count {A} (p : A -> bool) (l : list A) : nat := length (filter p l).

(** A line with something left once its line end is stripped. *)
Definition nonempty_bytes (raw : bytes) : bool :=
  negb (is_empty (rstrip_crlf_bytes raw)).
Definition nonempty_text (raw : pystr) : bool :=
  negb (is_empty (rstrip_crlf raw)).
(** A line with a character that is not white space. *)
Definition nonblank_text (raw : pystr) : bool :=
  negb (is_empty (strip (rstrip_crlf raw))).

(** * Concrete parameters and inputs used by the examples *)

(** A codec whose double-byte table is empty: every byte from 0x80 up is
    undecodable. *)
Definition ascii_only : Codec := {| cp950_map := fun _ _ => None |}.

(** [\d] restricted to the ASCII digits. *)
Definition ascii_digits : UnicodeDB :=
  {| isdecimal := is_ascii_digit; isdecimal_ascii := fun _ h => h |}.

(** A calendar that accepts the strings of eight ASCII digits. *)
Definition eight_digit_calendar : Calendar :=
  {| is_calendar_date := fun s => (length s =? 8)%nat && forallb is_ascii_digit s |}.

(** A file with a header line and one line of three blanks. *)
Definition blank_line_file : Path :=
  {| path_name := lit "STKT2QUOTESN(0420)";
     stored := Ok (bytes_lit "HEADER 20200420" ++ [x0a] ++ bytes_lit "   " ++ [x0a]) |}.

(** A path that cannot be opened. *)
Definition unreadable_file : Path :=
  {| path_name := lit "STKT2QUOTESN(0420)"; stored := Raise OSError |}.

(** A path without a tag in its name that cannot be opened. *)
Definition untagged_file : Path :=
  {| path_name := lit "STKT2QUOTESN"; stored := Raise OSError |}.

(** Record lines of 59 bytes: identifier, name, open, high, low, close and
    change flag. *)
Definition quote_line_1240 : bytes :=
  bytes_lit "001240TESTNAME        000398000000400000000390000000398000+".
Definition quote_line_zero_close : bytes :=
  bytes_lit "001240TESTNAME        000398000000400000000390000000000000+".
Definition quote_line_blank_close : bytes :=
  bytes_lit "001240TESTNAME        000398000000400000000390000         +".
Definition quote_line_all_blank : bytes :=
  bytes_lit "                                                           ".

Definition empty_buffers : buffers :=
  {| rows := []; debug_rows := []; sliced := [] |}.

(** * What a line can leave in the buffers (byte-level script)

    The row, respectively the diagnostic, that the loop body of
    [ByteLevel.process_file] can append for the line [line] (line end
    stripped) at line number [lineno], branch by branch. *)
Definition row_from_line `{Codec} (fname date_tag : pystr) (lineno : Z)
    (line : bytes) (r : row) : Prop :=
  59 <= len line
  /\ r_date r = date_tag
  /\ r_source_file r = fname
  /\ r_line_no r = lineno
  /\ ByteLevel.slice_bytes line 0 6 = Ok (r_stock_id r)
  /\ r_stock_id r <> []
  /\ ByteLevel.slice_bytes line 6 22 = Ok (r_stock_name r)
  /\ (exists flag,
        py_decode Replace (py_slice line (Some 58) (Some 59)) = Ok flag
        /\ r_change_flag r = strip flag)
  /\ exists close v,
       ByteLevel.slice_bytes line 49 58 = Ok close
       /\ ByteLevel.parse_9digit_price close = Some v
       /\ ByteLevel.sane_price (Some v) = true
       /\ r_closing_price r = format_4f v.

Definition diag_from_line `{Codec} (fname : pystr) (lineno : Z)
    (line : bytes) (d : diag) : Prop :=
  line <> []
  /\ d_file d = fname
  /\ d_line_no d = lineno
  /\ py_decode Replace (py_slice line None (Some 100)) = Ok (d_line_preview d)
  /\ ((len line < 59 /\ d_reason d = line_too_short /\ d_close_raw d = [])
      \/ (59 <= len line
          /\ ByteLevel.slice_bytes line 49 58 = Ok (d_close_raw d)
          /\ exists id,
               ByteLevel.slice_bytes line 0 6 = Ok id
               /\ ((id = [] /\ d_reason d = empty_stock_id)
                   \/ (id <> []
                       /\ ByteLevel.parse_9digit_price (d_close_raw d) = None
                       /\ d_reason d = close_unparseable)
                   \/ (id <> []
                       /\ exists v,
                            ByteLevel.parse_9digit_price (d_close_raw d) = Some v
                            /\ ByteLevel.sane_price (Some v) = false
                            /\ d_reason d = close_out_of_bounds v)))).

(** A string with no white space at either end. *)
Definition trimmed (s : pystr) : Prop :=
  (forall c t, s = c :: t -> isspace c = false)
  /\ (forall t c, s = t ++ [c] -> isspace c = false).

(** A readable file of five lines: a header, a record, a line that is too
    short, an empty line and a line of blanks. *)
Definition five_line_file : Path :=
  {| path_name := lit "STKT2QUOTESN(0420)";
     stored := Ok (bytes_lit "HEADER" ++ [x0d; x0a]
                   ++ quote_line_1240 ++ [x0d; x0a]
                   ++ bytes_lit "001240" ++ [x0d; x0a]
                   ++ [x0d; x0a]
                   ++ quote_line_all_blank ++ [x0a]) |}.

(** * Comparing the two quote scripts *)

(** A byte below 0x80, which cp950 decodes to the character of that code. *)
Definition ascii_byte (b : byte) : bool := (Byte.to_N b <? 128)%N.

(** Two diagnostics that tell the same about a line: file, line number and
    reason agree, and the closing-price text agrees once trimmed (the
    byte-level script trims the field, the text-mode script does not). *)
Definition same_verdict (dB dD : diag) : Prop :=
  d_file dB = d_file dD
  /\ d_line_no dB = d_line_no dD
  /\ d_reason dB = d_reason dD
  /\ d_close_raw dB = strip (d_close_raw dD).

(** The same, with the two names the scripts give to a short line. *)
Definition verdict_agrees (dB dD : diag) : Prop :=
  d_file dB = d_file dD
  /\ d_line_no dB = d_line_no dD
  /\ (d_reason dB = d_reason dD
      \/ (d_reason dB = line_too_short /\ d_reason dD = padded_short_line))
  /\ d_close_raw dB = strip (d_close_raw dD).

(** Every carriage return is followed by a line feed: the lines of the file
    end in "\n" or "\r\n", so that binary and text mode split it at the same
    places. *)
Fixpoint crlf_only (bs : bytes) : bool :=
  match bs with
  | [] => true
  | b :: rest =>
      if Byte.eqb b x0d then
        match rest with
        | [] => false
        | c :: _ => Byte.eqb c x0a && crlf_only rest
        end
      else crlf_only rest
  end.

(** A line that is not empty once its line end is stripped, but holds white
    space only: the byte-level script reports it, the text-mode script
    skips it. *)
Definition blank_bytes (raw : bytes) : bool :=
  negb (is_empty (rstrip_crlf_bytes raw))
  && is_empty (strip (map Byte.to_N (rstrip_crlf_bytes raw))).

(** Whether the line with number [k] is such a line, among [lines] numbered
    from [lineno]. *)
Definition blank_at (lineno : Z) (lines : list bytes) (k : Z) : bool :=
  match nth_error lines (Z.to_nat (k - lineno)) with
  | Some raw => blank_bytes raw
  | None => false
  end.

(** * extract_stock_for_ml.py: identifiers, volumes and the filter *)

(** ** [int] on decimal digits

    [int] takes any Unicode decimal digit with its value; the values are a
    parameter next to the class [\d]. *)
Class DigitValues `{UnicodeDB} : Type :=
  { digit_value : char -> Z;
    digit_value_range :
      forall c, isdecimal c = true -> 0 <= digit_value c <= 9;
    digit_value_ascii :
      forall c, is_ascii_digit c = true -> digit_value c = digit_val c }.

Definition decimal_value `{DigitValues} (s : pystr) : Z :=
  fold_left (fun acc c => 10 * acc + digit_value c) s 0.

(** [int(s)] on a string that has passed [^\d+$]: white space at either end
    is dropped, what is left must be decimal digits.  (Signs and underscores
    are not modelled, no such string passes the test; nor is the limit on
    the number of digits, 4300 by default, which the properties below keep
    clear of.) *)
Definition py_int_decimal `{DigitValues} (s : pystr) : result Z :=
  match strip s with
  | [] => Raise ValueError
  | c :: t =>
      if forallb isdecimal (c :: t) then Ok (decimal_value (c :: t))
      else Raise ValueError
  end.

(** [re.match(r'^\d+$', s)]: the longest run of digits must reach the end of
    the string, or the newline that ends it. *)
Definition re_match_digits `{UnicodeDB} (s : pystr) : bool :=
  match s with
  | [] => false
  | c :: _ =>
      isdecimal c
      && match lstrip_with isdecimal s with
         | [] => true
         | [d] => (d =? 10)%N
         | _ => false
         end
  end.

(** [max(iterable)]. *)
Definition py_max (l : list Z) : result Z :=
  match l with
  | [] => Raise ValueError
  | x :: t => Ok (fold_left Z.max t x)
  end.

(** ** A state and error monad, generic in the state *)
Definition St (S A : Type) : Type := S -> result A * S.

Definition st_ret {S A} (a : A) : St S A := fun s => (Ok a, s).

Definition st_bind {S A B} (m : St S A) (k : A -> St S B) : St S B :=
  fun s =>
    match m s with
    | (Ok a, s') => k a s'
    | (Raise e, s') => (Raise e, s')
    end.

Definition st_lift {S A} (r : result A) : St S A := fun s => (r, s).

Definition st_try {S A} (body : St S A) (handler : exn -> St S A) : St S A :=
  fun s =>
    match body s with
    | (Ok a, s') => (Ok a, s')
    | (Raise e, s') => handler e s'
    end.

Declare Scope St_scope.
Delimit Scope St_scope with St.
Notation "x <- c1 ;; c2" := (st_bind c1 (fun x => c2))
  (at level 61, c1 at next level, right associativity) : St_scope.
Notation "c1 ;;; c2" := (st_bind c1 (fun _ => c2))
  (at level 61, right associativity) : St_scope.

Module Filter.

Definition MIN_PRICE : Q := 1 # 100.
Definition MAX_PRICE : Q := 1000000 # 1.
Definition MIN_VOLUME : Z := 100.
Definition MIN_AMOUNT : Z := 1000.
Definition BATCH_SIZE : Z := 50000.

(** The keys of [BYTE_POS], in the order of the dictionary. *)
Inductive field : Type :=
| stock_id
| open_price_raw
| high_price_raw
| low_price_raw
| close_price_raw
| change_flag
| change_amount_raw
| volume_raw
| amount_raw.

Definition BYTE_POS (f : field) : Z * Z :=
  match f with
  | stock_id => (0, 6)
  | open_price_raw => (22, 31)
  | high_price_raw => (31, 40)
  | low_price_raw => (40, 49)
  | close_price_raw => (49, 58)
  | change_flag => (58, 59)
  | change_amount_raw => (59, 68)
  | volume_raw => (77, 86)
  | amount_raw => (95, 107)
  end.

Definition BYTE_POS_keys : list field :=
  [stock_id; open_price_raw; high_price_raw; low_price_raw; close_price_raw;
   change_flag; change_amount_raw; volume_raw; amount_raw].

(** [BYTE_POS.values()]. *)
Definition BYTE_POS_values : list (Z * Z) := map BYTE_POS BYTE_POS_keys.

Definition pad_or_truncate (digits : pystr) : pystr :=
  if len digits <? 9 then zfill 9 digits
  else py_slice digits (Some (-9)) None.

Definition split_9digit (digits : pystr) : result Q :=
  (whole <- py_int (py_slice digits None (Some (-4))) ;;
   frac <- py_int (py_slice digits (Some (-4)) None) ;;
   Ok (py_round (inject_Z whole + inject_Z frac / inject_Z 10000)%Q 4))%result.

(** "Parse S38 9-digit price." *)
Definition parse_9digit_price (raw_str : pystr) : option Q :=
  if is_empty raw_str then None
  else
    let digits := re_sub_non_digits raw_str in
    if is_empty digits then None
    else
      match split_9digit (pad_or_truncate digits) with
      | Ok v => Some v
      | Raise _ => None
      end.

(** "Parse volume (in thousands)." *)
Definition parse_volume (raw_str : pystr) : option Z :=
  if is_empty raw_str then None
  else
    let digits := re_sub_non_digits raw_str in
    if is_empty digits then None
    else
      match py_int digits with
      | Ok n => Some n
      | Raise _ => None
      end.

(** Keeps the listed common stocks (1000-9999); warrants and ETFs go. *)
Definition is_valid_stock_id `{DigitValues} (stock_id : pystr) : bool :=
  if is_empty stock_id then false
  else
    let sid := strip stock_id in
    if negb (re_match_digits sid) then false
    else
      match py_int_decimal sid with
      | Raise _ => false
      | Ok sid_int =>
          if (sid_int <? 1000) || (700000 <=? sid_int) then false
          else (1000 <=? sid_int) && (sid_int <=? 9999)
      end.

(** The reason of a diagnostic row; the scripts format the value after the
    colon. *)
Inductive reason : Type :=
| line_too_short
| extraction_error (e : exn)
| invalid_stock_id
| invalid_close (close_price : option Q)
| low_volume (volume : option Z)
| low_amount (amount : option Z)
| file_error (e : exn).

(** The dictionary appended to [rows]. *)
Record row : Type :=
  { r_date : pystr;
    r_stock_id : pystr;
    r_open_price : option Q;
    r_high_price : option Q;
    r_low_price : option Q;
    r_closing_price : option Q;
    r_change_flag : pystr;
    r_change_amount : option Q;
    r_volume : option Z;
    r_amount : option Z }.

(** The dictionary appended to [debug_rows]. *)
Record diag : Type :=
  { d_file : pystr;
    d_line_no : Z;
    d_reason : reason;
    d_preview : pystr }.

Record buffers : Type :=
  { rows : list row;
    debug_rows : list diag }.

Definition append_row (r : row) : St buffers unit :=
  fun s => (Ok tt, {| rows := rows s ++ [r]; debug_rows := debug_rows s |}).

Definition append_debug (d : diag) : St buffers unit :=
  fun s => (Ok tt, {| rows := rows s; debug_rows := debug_rows s ++ [d] |}).

(** The nine values the extraction block binds. *)
Record extracted : Type :=
  { sid : pystr;
    open_raw : pystr;
    high_raw : pystr;
    low_raw : pystr;
    close_raw : pystr;
    flag : pystr;
    change_amt_raw : pystr;
    volume_raw_text : pystr;
    amount_raw_text : pystr }.

(** [slice_bytes(line_bytes, *BYTE_POS[f])]. *)
Definition slice_field `{Codec} (f : field) (line_bytes : bytes) : result pystr :=
  ForML.slice_bytes line_bytes (fst (BYTE_POS f)) (snd (BYTE_POS f)).

Definition extract_fields `{Codec} (line_bytes : bytes) : result extracted :=
  (s <- slice_field stock_id line_bytes ;;
   o <- slice_field open_price_raw line_bytes ;;
   h <- slice_field high_price_raw line_bytes ;;
   l <- slice_field low_price_raw line_bytes ;;
   c <- slice_field close_price_raw line_bytes ;;
   f <- slice_field change_flag line_bytes ;;
   a <- slice_field change_amount_raw line_bytes ;;
   v <- slice_field volume_raw line_bytes ;;
   m <- slice_field amount_raw line_bytes ;;
   Ok {| sid := s; open_raw := o; high_raw := h; low_raw := l; close_raw := c;
         flag := f; change_amt_raw := a; volume_raw_text := v;
         amount_raw_text := m |})%result.

(** A diagnostic whose preview is the start of the line. *)
Definition reject_line `{Codec} (fname : pystr) (lineno : Z) (why : reason)
    (line_bytes : bytes) : St buffers unit :=
  (preview <- st_lift (py_decode Replace (py_slice line_bytes None (Some 80))) ;;
   append_debug {| d_file := fname; d_line_no := lineno; d_reason := why;
                   d_preview := preview |})%St.

(** A diagnostic whose preview is [f"stock_id={sid}"]. *)
Definition reject_id (fname : pystr) (lineno : Z) (why : reason)
    (sid : pystr) : St buffers unit :=
  append_debug {| d_file := fname; d_line_no := lineno; d_reason := why;
                  d_preview := lit "stock_id=" ++ sid |}.

(** [not close_price or not (MIN_PRICE <= close_price <= MAX_PRICE)]: [None]
    and zero are false values, and for [None] the comparison is not
    evaluated. *)
Definition close_rejected (close_price : option Q) : bool :=
  match close_price with
  | None => true
  | Some v =>
      Qeq_bool v 0 || negb (Qle_bool MIN_PRICE v && Qle_bool v MAX_PRICE)
  end.

(** [not n or n < bound]. *)
Definition too_low (n : option Z) (bound : Z) : bool :=
  match n with
  | None => true
  | Some k => (k =? 0) || (k <? bound)
  end.

(** [p if p and p >= MIN_PRICE else None]. *)
Definition price_or_none (p : option Q) : option Q :=
  match p with
  | None => None
  | Some v => if negb (Qeq_bool v 0) && Qle_bool MIN_PRICE v then Some v else None
  end.

(** [sid.lstrip('0') or '0']. *)
Definition normalize_id (sid : pystr) : pystr :=
  match lstrip_with (N.eqb char_0) sid with
  | [] => lit "0"
  | s => s
  end.

(** The checks on an extracted line, and the append of a valid row. *)
Definition validate `{DigitValues} (fname date_tag : pystr) (lineno : Z)
    (x : extracted) : St buffers unit :=
  if negb (is_valid_stock_id (sid x)) then
    reject_id fname lineno invalid_stock_id (sid x)
  else
    let open_price := parse_9digit_price (open_raw x) in
    let high_price := parse_9digit_price (high_raw x) in
    let low_price := parse_9digit_price (low_raw x) in
    let close_price := parse_9digit_price (close_raw x) in
    let change_amount := parse_9digit_price (change_amt_raw x) in
    let volume := parse_volume (volume_raw_text x) in
    let amount := parse_volume (amount_raw_text x) in
    if close_rejected close_price then
      reject_id fname lineno (invalid_close close_price) (sid x)
    else if too_low volume MIN_VOLUME then
      reject_id fname lineno (low_volume volume) (sid x)
    else if too_low amount MIN_AMOUNT then
      reject_id fname lineno (low_amount amount) (sid x)
    else
      let sid_normalized := normalize_id (sid x) in
      append_row {| r_date := date_tag;
                    r_stock_id := sid_normalized;
                    r_open_price := price_or_none open_price;
                    r_high_price := price_or_none high_price;
                    r_low_price := price_or_none low_price;
                    r_closing_price := close_price;
                    r_change_flag := flag x;
                    r_change_amount := change_amount;
                    r_volume := volume;
                    r_amount := amount |}.

(** The body of the loop over the lines. *)
Definition process_line `{Codec} `{DigitValues} (fname date_tag : pystr)
    (lineno : Z) (raw_line : bytes) : St buffers unit :=
  let line_bytes := rstrip_crlf_bytes raw_line in
  if len line_bytes =? 0 then st_ret tt
  else
    (required_len <- st_lift (py_max (map snd BYTE_POS_values)) ;;
     if len line_bytes <? required_len then
       reject_line fname lineno line_too_short line_bytes
     else
       extracted <- st_try
                      (x <- st_lift (extract_fields line_bytes) ;; st_ret (Some x))
                      (fun e =>
                         reject_line fname lineno (extraction_error e) line_bytes ;;;
                         st_ret None) ;;
       match extracted with
       | None => st_ret tt
       | Some x => validate fname date_tag lineno x
       end)%St.

Fixpoint process_lines `{Codec} `{DigitValues} (fname date_tag : pystr)
    (lineno : Z) (lines : list bytes) : St buffers unit :=
  match lines with
  | [] => st_ret tt
  | raw_line :: rest =>
      (process_line fname date_tag lineno raw_line ;;;
       process_lines fname date_tag (lineno + 1) rest)%St
  end.

Definition process_file `{Codec} `{DigitValues} (path : Path) (date_tag : pystr)
    : St buffers unit :=
  let fname := path_name path in
  st_try
    (lines_bytes <- st_lift (open_rb_readlines path) ;;
     process_lines fname date_tag 2 (py_slice lines_bytes (Some 1) None))%St
    (fun e =>
       append_debug {| d_file := fname; d_line_no := 0;
                       d_reason := file_error e; d_preview := [] |}).

End Filter.

(** The ASCII digits with their values. *)
Definition ascii_digit_values : @DigitValues ascii_digits.
Proof.
  refine {| digit_value := digit_val |}.
  - intros c Hc. cbn [isdecimal ascii_digits] in Hc. unfold is_ascii_digit in Hc.
    apply andb_prop in Hc as [H1 H2].
    apply N.leb_le in H1. apply N.leb_le in H2. unfold digit_val. lia.
  - reflexivity.
Defined.

(** * What a line can leave in the buffers (filter script) *)

(** The row that the loop body of [Filter.process_file] appends for the line
    [line] (line end stripped): the line has all nine fields, and what was
    read off it passes the four checks. *)
Definition kept_row `{Codec} `{DigitValues} (date_tag : pystr)
    (line : bytes) (r : Filter.row) : Prop :=
  107 <= len line
  /\ exists x,
       Filter.extract_fields line = Ok x
       /\ Filter.is_valid_stock_id (Filter.sid x) = true
       /\ Filter.close_rejected (Filter.parse_9digit_price (Filter.close_raw x)) = false
       /\ Filter.too_low (Filter.parse_volume (Filter.volume_raw_text x))
            Filter.MIN_VOLUME = false
       /\ Filter.too_low (Filter.parse_volume (Filter.amount_raw_text x))
            Filter.MIN_AMOUNT = false
       /\ r = {| Filter.r_date := date_tag;
                 Filter.r_stock_id := Filter.normalize_id (Filter.sid x);
                 Filter.r_open_price :=
                   Filter.price_or_none (Filter.parse_9digit_price (Filter.open_raw x));
                 Filter.r_high_price :=
                   Filter.price_or_none (Filter.parse_9digit_price (Filter.high_raw x));
                 Filter.r_low_price :=
                   Filter.price_or_none (Filter.parse_9digit_price (Filter.low_raw x));
                 Filter.r_closing_price := Filter.parse_9digit_price (Filter.close_raw x);
                 Filter.r_change_flag := Filter.flag x;
                 Filter.r_change_amount :=
                   Filter.parse_9digit_price (Filter.change_amt_raw x);
                 Filter.r_volume := Filter.parse_volume (Filter.volume_raw_text x);
                 Filter.r_amount := Filter.parse_volume (Filter.amount_raw_text x) |}.

(** The diagnostic that the loop body appends for the line [line] at line
    number [lineno], check by check in the order of the script. *)
Definition dropped_line `{Codec} `{DigitValues} (fname : pystr) (lineno : Z)
    (line : bytes) (d : Filter.diag) : Prop :=
  line <> []
  /\ Filter.d_file d = fname
  /\ Filter.d_line_no d = lineno
  /\ ((len line < 107
       /\ Filter.d_reason d = Filter.line_too_short
       /\ py_decode Replace (py_slice line None (Some 80)) = Ok (Filter.d_preview d))
      \/ (107 <= len line
          /\ exists x,
               Filter.extract_fields line = Ok x
               /\ Filter.d_preview d = lit "stock_id=" ++ Filter.sid x
               /\ let close := Filter.parse_9digit_price (Filter.close_raw x) in
                  let volume := Filter.parse_volume (Filter.volume_raw_text x) in
                  let amount := Filter.parse_volume (Filter.amount_raw_text x) in
                  (Filter.is_valid_stock_id (Filter.sid x) = false
                   /\ Filter.d_reason d = Filter.invalid_stock_id)
                  \/ (Filter.is_valid_stock_id (Filter.sid x) = true
                      /\ Filter.close_rejected close = true
                      /\ Filter.d_reason d = Filter.invalid_close close)
                  \/ (Filter.is_valid_stock_id (Filter.sid x) = true
                      /\ Filter.close_rejected close = false
                      /\ Filter.too_low volume Filter.MIN_VOLUME = true
                      /\ Filter.d_reason d = Filter.low_volume volume)
                  \/ (Filter.is_valid_stock_id (Filter.sid x) = true
                      /\ Filter.close_rejected close = false
                      /\ Filter.too_low volume Filter.MIN_VOLUME = false
                      /\ Filter.too_low amount Filter.MIN_AMOUNT = true
                      /\ Filter.d_reason d = Filter.low_amount amount))).

(** The buffers after one more row, respectively one more diagnostic. *)
Definition with_row (st : Filter.buffers) (r : Filter.row) : Filter.buffers :=
  {| Filter.rows := Filter.rows st ++ [r]; Filter.debug_rows := Filter.debug_rows st |}.

Definition with_diag (st : Filter.buffers) (d : Filter.diag) : Filter.buffers :=
  {| Filter.rows := Filter.rows st; Filter.debug_rows := Filter.debug_rows st ++ [d] |}.

Definition filter_outcomes (st : Filter.buffers) : nat :=
  (length (Filter.rows st) + length (Filter.debug_rows st))%nat.

(** A record line of 107 bytes: the 59 bytes of [quote_line_1240], the
    change amount, a count of trades, the volume, a filler and the amount. *)
Definition ml_line_1240 : bytes :=
  quote_line_1240
  ++ bytes_lit "000002000000000123000004567000000000000000181739".

(** The same with a volume of 99. *)
Definition ml_line_low_volume : bytes :=
  quote_line_1240
  ++ bytes_lit "000002000000000123000000099000000000000000003940".

(** A readable file for the filter: a header, a record, a record with a low
    volume, a line of 59 bytes and an empty line. *)
Definition ml_file : Path :=
  {| path_name := lit "STKT2QUOTESN(0420)";
     stored := Ok (bytes_lit "HEADER" ++ [x0d; x0a]
                   ++ ml_line_1240 ++ [x0d; x0a]
                   ++ ml_line_low_volume ++ [x0d; x0a]
                   ++ quote_line_1240 ++ [x0d; x0a]
                   ++ [x0d; x0a]) |}.

Definition empty_filter_buffers : Filter.buffers :=
  {| Filter.rows := []; Filter.debug_rows := [] |}.

(** * Folders, and the loops of [main]

    What [iterdir] yields: a file, a folder with what it holds, or something
    that is neither (for which [is_dir] and [is_file] are both false).
    Folders are taken to be listable. *)
#[warnings="-register-all"]
Inductive entry : Type :=
| FileEntry (p : Path)
| DirEntry (name : pystr) (children : list entry)
| OtherEntry (name : pystr).

Definition entry_name (e : entry) : pystr :=
  match e with
  | FileEntry p => path_name p
  | DirEntry name _ => name
  | OtherEntry name => name
  end.

Definition is_dir (e : entry) : bool :=
  match e with DirEntry _ _ => true | _ => false end.

Definition is_file (e : entry) : bool :=
  match e with FileEntry _ => true | _ => false end.

(** What a folder holds. *)
Definition dir_entries (e : entry) : list entry :=
  match e with DirEntry _ children => children | _ => [] end.

(** [e.iterdir()]: on anything but a folder it raises
    [NotADirectoryError], an [OSError]. *)
Definition iterdir (e : entry) : result (list entry) :=
  match e with
  | DirEntry _ children => Ok children
  | _ => Raise OSError
  end.

(** The path as [open] sees it; opening anything but a file raises. *)
Definition as_path (e : entry) : Path :=
  match e with
  | FileEntry p => p
  | DirEntry name _ => {| path_name := name; stored := Raise OSError |}
  | OtherEntry name => {| path_name := name; stored := Raise OSError |}
  end.

(** The order [sorted] puts paths in is the platform's, the upper case of a
    character is Unicode's: both are parameters. *)
Class Platform : Type :=
  { sorted : list entry -> list entry;
    sorted_permutation : forall l, Permutation (sorted l) l;
    upper : pystr -> pystr }.

(** [s.startswith(prefix)]. *)
Fixpoint startswith (s prefix : pystr) : bool :=
  match prefix, s with
  | [], _ => true
  | _ :: _, [] => false
  | a :: prefix', b :: s' => (a =? b)%N && startswith s' prefix'
  end.

(** [s == t] on strings. *)
Fixpoint str_eqb (s t : pystr) : bool :=
  match s, t with
  | [], [] => true
  | a :: s', b :: t' => (a =? b)%N && str_eqb s' t'
  | _, _ => false
  end.

(** The test of the list comprehension over a year folder. *)
Definition is_quote_file `{Platform} (p : entry) : bool :=
  is_file p
  && (startswith (upper (entry_name p)) (lit "STKT2QUOTESN")
      || startswith (upper (entry_name p)) (lit "STKWQUOTES")).

(** ** [main] of extract_quotes_byte_level.py, up to the writing of the
    two CSV files *)
Module ByteLevelMain.

Definition MAX_FILES_PER_YEAR : Z := 20.
Definition YEAR_ONLY : pystr := lit "2020".

(** [for i, f in enumerate(files)]; returns [files_found]. *)
Fixpoint process_files `{Codec} `{UnicodeDB} (year_hint : option pystr) (i : nat)
    (files : list entry) (files_found : Z) : M Z :=
  match files with
  | [] => ret files_found
  | f :: rest =>
      let files_found := files_found + 1 in
      (date_tag <- lift (ByteLevel.derive_date_for_file (as_path f) year_hint) ;;
       let verbose := (i <? 2)%nat in
       ByteLevel.process_file (as_path f) date_tag verbose ;;;
       process_files year_hint (S i) rest files_found)%M
  end.

(** The body of the loop over the entries of the base folder. *)
Definition visit `{Codec} `{UnicodeDB} `{Platform} (sub : entry) (files_found : Z)
    : M Z :=
  if negb (is_empty YEAR_ONLY) && is_dir sub
     && negb (str_eqb (entry_name sub) YEAR_ONLY)
  then ret files_found
  else if is_dir sub then
    let year_hint :=
      if re_match_4digits (entry_name sub) then Some (entry_name sub) else None in
    (children <- lift (iterdir sub) ;;
     let files := sorted (filter is_quote_file children) in
     let files :=
       if MAX_FILES_PER_YEAR =? 0 then files
       else py_slice files None (Some MAX_FILES_PER_YEAR) in
     process_files year_hint 0 files files_found)%M
  else ret files_found.

Fixpoint visit_all `{Codec} `{UnicodeDB} `{Platform} (subs : list entry)
    (files_found : Z) : M Z :=
  match subs with
  | [] => ret files_found
  | sub :: rest =>
      (files_found' <- visit sub files_found ;; visit_all rest files_found')%M
  end.

(** [for sub in sorted(root.iterdir())], from [files_found = 0].  [main]
    has tested that the base folder exists, not that it is a folder. *)
Definition main_loop `{Codec} `{UnicodeDB} `{Platform} (root : entry) : M Z :=
  (subs <- lift (iterdir root) ;; visit_all (sorted subs) 0)%M.

End ByteLevelMain.

(** ** [main] of extract_stock_for_ml.py, up to the last batch written *)
Module FilterMain.

(** The output file holds a header line or the record of a row per line. *)
Inductive csv_line : Type :=
| Header
| Record (r : Filter.row).

Inductive mode : Type := mode_w | mode_a.

(** [pd.DataFrame(rows).to_csv(output_path, mode=mode, header=header,
    index=False)] on a file that is absent ([None]) or holds some lines. *)
Definition to_csv (rows : list Filter.row) (m : mode) (header : bool)
    (file : option (list csv_line)) : option (list csv_line) :=
  let text := (if header then [Header] else []) ++ map Record rows in
  match m, file with
  | mode_a, Some old => Some (old ++ text)
  | _, _ => Some text
  end.

Definition write_batch_to_csv (rows : list Filter.row) (m : mode) (header : bool)
    (file : option (list csv_line)) : option (list csv_line) :=
  if is_empty rows then file else to_csv rows m header file.

(** The variables of [main] and the output file. *)
Record state : Type :=
  { batch_rows : list Filter.row;
    debug_rows : list Filter.diag;
    files_processed : Z;
    total_records : Z;
    first_batch : bool;
    out_file : option (list csv_line) }.

(** The state at the loop: the output file has been removed if it was
    there. *)
Definition initial : state :=
  {| batch_rows := []; debug_rows := []; files_processed := 0;
     total_records := 0; first_batch := true; out_file := None |}.

(** The body of the loop over the files of a year folder. *)
Definition process_one `{Codec} `{DigitValues} `{Calendar} (year_hint : option pystr)
    (f : entry) (s : state) : result state :=
  let files_processed := files_processed s + 1 in
  (date_tag <- ForML.derive_date_for_file (as_path f) year_hint ;;
   let (r, b) := Filter.process_file (as_path f) date_tag
                   {| Filter.rows := batch_rows s;
                      Filter.debug_rows := debug_rows s |} in
   _ <- r ;;
   if Filter.BATCH_SIZE <=? len (Filter.rows b) then
     Ok {| batch_rows := [];
           debug_rows := Filter.debug_rows b;
           files_processed := files_processed;
           total_records := total_records s + len (Filter.rows b);
           first_batch := false;
           out_file := write_batch_to_csv (Filter.rows b)
                         (if first_batch s then mode_w else mode_a)
                         (first_batch s) (out_file s) |}
   else
     Ok {| batch_rows := Filter.rows b;
           debug_rows := Filter.debug_rows b;
           files_processed := files_processed;
           total_records := total_records s;
           first_batch := first_batch s;
           out_file := out_file s |})%result.

Fixpoint process_all `{Codec} `{DigitValues} `{Calendar} (year_hint : option pystr)
    (files : list entry) (s : state) : result state :=
  match files with
  | [] => Ok s
  | f :: rest =>
      (s' <- process_one year_hint f s ;; process_all year_hint rest s')%result
  end.

(** The body of the loop over the entries of the base folder. *)
Definition visit `{Codec} `{DigitValues} `{Calendar} `{Platform} (sub : entry)
    (s : state) : result state :=
  if negb (is_dir sub) then Ok s
  else
    let year_hint :=
      if re_match_4digits (entry_name sub) then Some (entry_name sub) else None in
    if negb (truthy year_hint) then Ok s
    else
      (children <- iterdir sub ;;
       let files := sorted (filter is_quote_file children) in
       if is_empty files then Ok s
       else process_all year_hint files s)%result.

Fixpoint visit_all `{Codec} `{DigitValues} `{Calendar} `{Platform}
    (subs : list entry) (s : state) : result state :=
  match subs with
  | [] => Ok s
  | sub :: rest => (s' <- visit sub s ;; visit_all rest s')%result
  end.

(** "Write the last batch". *)
Definition write_last (s : state) : state :=
  if is_empty (batch_rows s) then s
  else
    {| batch_rows := batch_rows s;
       debug_rows := debug_rows s;
       files_processed := files_processed s;
       total_records := total_records s + len (batch_rows s);
       first_batch := first_batch s;
       out_file := write_batch_to_csv (batch_rows s)
                     (if first_batch s then mode_w else mode_a)
                     (first_batch s) (out_file s) |}.

Definition main_loop `{Codec} `{DigitValues} `{Calendar} `{Platform} (root : entry)
    : result state :=
  (subs <- iterdir root ;;
   s <- visit_all (sorted subs) initial ;;
   Ok (write_last s))%result.

End FilterMain.

(** ** What the loops of [main] go through *)




(** The files the filter script processes, in order, each with the name of
    its year folder. *)
Definition selected `{UnicodeDB} `{Platform} (root : entry) : list (entry * pystr) :=
  flat_map
    (fun sub =>
       if is_dir sub && re_match_4digits (entry_name sub)
       then map (fun f => (f, entry_name sub))
              (sorted (filter is_quote_file (dir_entries sub)))
       else [])
    (sorted (dir_entries root)).

(** What [process_file] appends for one of them, starting from empty
    lists. *)
Definition yield `{Codec} `{DigitValues} `{Calendar} (fy : entry * pystr)
    : Filter.buffers :=
  match ForML.derive_date_for_file (as_path (fst fy)) (Some (snd fy)) with
  | Ok date_tag =>
      snd (Filter.process_file (as_path (fst fy)) date_tag empty_filter_buffers)
  | Raise _ => empty_filter_buffers
  end.

Definition buffers_app (a b : Filter.buffers) : Filter.buffers :=
  {| Filter.rows := Filter.rows a ++ Filter.rows b;
     Filter.debug_rows := Filter.debug_rows a ++ Filter.debug_rows b |}.

(** A platform that leaves lists in the order given and upper-cases
    nothing. *)
Definition plain_platform : Platform :=
  {| sorted := fun l => l;
     sorted_permutation := fun l => Permutation_refl l;
     upper := fun s => s |}.

(** A quote file whose header line holds its date. *)
Definition dated_file : Path :=
  {| path_name := lit "STKT2QUOTESN(0420)";
     stored := Ok (bytes_lit "S38 20200420" ++ [x0d; x0a]
                   ++ ml_line_1240 ++ [x0d; x0a]
                   ++ ml_line_low_volume ++ [x0d; x0a]
                   ++ quote_line_1240 ++ [x0d; x0a]) |}.

(** A base folder with a loose file, a folder "2020" holding [dated_file]
    and a file of another kind, and a folder "notes". *)
Definition base_folder : entry :=
  DirEntry (lit "StockInfo")
    [FileEntry {| path_name := lit "README"; stored := Ok [] |};
     DirEntry (lit "2020")
       [FileEntry dated_file;
        FileEntry {| path_name := lit "index.txt"; stored := Ok [] |}];
     DirEntry (lit "notes") [FileEntry dated_file]].

(** The state of the filter's [main] between two files, given the rows
    [done] collected so far: they are the rows written followed by the
    batch in memory, [total_records] counts the rows written, and the output
    file is absent before the first write and holds the header followed by
    the rows written after it. *)
Definition batch_invariant (s : FilterMain.state) (done : list Filter.row) : Prop :=
  exists written,
    done = written ++ FilterMain.batch_rows s
    /\ FilterMain.total_records s = len written
    /\ if FilterMain.first_batch s
       then written = [] /\ FilterMain.out_file s = None
       else written <> []
            /\ FilterMain.out_file s
               = Some (FilterMain.Header :: map FilterMain.Record written).

(** * Proof automation *)

(** Closes a case of the validation block once the new buffers are known:
    the run, the ghost log, the preview [Ep] and the appended element. *)
Ltac close_case Ep :=
  split; [reflexivity
         |split; [reflexivity
                 |split; [exact Ep | split; reflexivity]]].

(** * Facts about the Python primitives *)

Section ListFacts.
Context {A : Type}.

Lemma len_nonneg (l : list A) : 0 <= len l.
Proof. unfold len; lia. Qed.

Lemma is_empty_true (l : list A) : is_empty l = true <-> l = [].
Proof. destruct l; simpl; split; congruence. Qed.

Lemma is_empty_false (l : list A) : is_empty l = false <-> l <> [].
Proof. destruct l; simpl; split; congruence. Qed.

Lemma len_zero (l : list A) : (len l =? 0) = is_empty l.
Proof. destruct l; reflexivity. Qed.

(** A slice with two non-negative bounds: the elements at the positions
    [start <= i < min stop (len l)]. *)
Lemma py_slice_nonneg (l : list A) (start stop : Z) :
  0 <= start -> 0 <= stop ->
  py_slice l (Some start) (Some stop)
  = firstn (Z.to_nat stop - Z.to_nat start) (skipn (Z.to_nat start) l).
Proof.
  intros Hs He. unfold py_slice, clamp_index, len.
  destruct (Z.ltb_spec start 0); [lia|].
  destruct (Z.ltb_spec stop 0); [lia|].
  destruct (Z.le_gt_cases start (Z.of_nat (length l))) as [Hle|Hgt].
  - rewrite (Z.min_l start) by lia.
    destruct (Z.le_gt_cases stop (Z.of_nat (length l))).
    + rewrite Z.min_l by lia. f_equal. lia.
    + rewrite Z.min_r by lia.
      rewrite (firstn_all2 (n := (Z.to_nat stop - Z.to_nat start)%nat))
        by (rewrite length_skipn; lia).
      apply firstn_all2. rewrite length_skipn. lia.
  - rewrite (Z.min_r start) by lia.
    rewrite !skipn_all2 by lia. now rewrite !firstn_nil.
Qed.

Lemma py_slice_to (l : list A) (stop : Z) :
  0 <= stop -> py_slice l None (Some stop) = firstn (Z.to_nat stop) l.
Proof.
  intros He. unfold py_slice, clamp_index, len.
  destruct (Z.ltb_spec stop 0); [lia|]. simpl skipn. rewrite Z.sub_0_r.
  destruct (Z.le_gt_cases stop (Z.of_nat (length l))).
  - now rewrite Z.min_l by lia.
  - rewrite Z.min_r by lia. rewrite Nat2Z.id.
    rewrite firstn_all. symmetry. apply firstn_all2. lia.
Qed.

(** [l[1:]] drops the first element. *)
Lemma py_slice_from_1 (l : list A) : py_slice l (Some 1) None = tl l.
Proof.
  unfold py_slice, clamp_index, len. change (1 <? 0) with false. cbv iota.
  destruct l as [|a t]; [reflexivity|].
  rewrite Z.min_l by (cbn [length]; lia).
  change (Z.to_nat 1) with 1%nat. cbn [skipn tl].
  apply firstn_all2. cbn [length]. lia.
Qed.

(** [l[-k:]] keeps the last [k] elements, [l[:-k]] drops them. *)
Lemma py_slice_last (l : list A) (k : nat) :
  (0 < k <= length l)%nat ->
  py_slice l (Some (- Z.of_nat k)) None = skipn (length l - k) l.
Proof.
  intros Hk. unfold py_slice, clamp_index, len.
  destruct (Z.ltb_spec (- Z.of_nat k) 0); [|lia].
  rewrite Z.max_l by lia.
  replace (Z.to_nat (- Z.of_nat k + Z.of_nat (length l))) with (length l - k)%nat by lia.
  apply firstn_all2. rewrite length_skipn. lia.
Qed.

Lemma py_slice_but_last (l : list A) (k : nat) :
  (0 < k <= length l)%nat ->
  py_slice l None (Some (- Z.of_nat k)) = firstn (length l - k) l.
Proof.
  intros Hk. unfold py_slice, clamp_index, len.
  destruct (Z.ltb_spec (- Z.of_nat k) 0); [|lia].
  rewrite Z.max_l by lia. simpl skipn. f_equal. lia.
Qed.

Lemma lstrip_with_all (p : A -> bool) (l : list A) :
  forallb p l = true -> lstrip_with p l = [].
Proof.
  induction l as [|a l IH]; simpl; [reflexivity|].
  intros H. apply andb_prop in H as [Ha Hl]. rewrite Ha. auto.
Qed.

(** What [lstrip_with] removes is a run of [p]-elements. *)
Lemma lstrip_with_split (p : A -> bool) (l : list A) :
  exists pre, l = pre ++ lstrip_with p l /\ forallb p pre = true.
Proof.
  induction l as [|a l [pre [Hl Hp]]]; simpl.
  - exists []. auto.
  - destruct (p a) eqn:Ha.
    + exists (a :: pre). simpl. rewrite Ha, Hp.
      split; [f_equal; exact Hl | reflexivity].
    + exists []. auto.
Qed.

Lemma lstrip_with_head (p : A -> bool) (l : list A) (a : A) (t : list A) :
  lstrip_with p l = a :: t -> p a = false.
Proof.
  induction l as [|b l IH]; simpl; [discriminate|].
  destruct (p b) eqn:Hb; [assumption|]. intros H. congruence.
Qed.
End ListFacts.

(** ** Digits *)

Lemma is_ascii_digit_spec (c : char) :
  is_ascii_digit c = true <-> (48 <= c <= 57)%N.
Proof.
  unfold is_ascii_digit. rewrite andb_true_iff, !N.leb_le. tauto.
Qed.

Lemma re_sub_non_digits_all (s : pystr) :
  forallb is_ascii_digit (re_sub_non_digits s) = true.
Proof.
  unfold re_sub_non_digits. apply forallb_forall. intros c Hc.
  apply filter_In in Hc. tauto.
Qed.

Lemma digits_value_snoc (s : pystr) (c : char) :
  digits_value (s ++ [c]) = 10 * digits_value s + digit_val c.
Proof. unfold digits_value. now rewrite fold_left_app. Qed.

Lemma digit_val_range (c : char) :
  is_ascii_digit c = true -> 0 <= digit_val c <= 9.
Proof. rewrite is_ascii_digit_spec. unfold digit_val. lia. Qed.

Lemma digits_value_range (s : pystr) :
  forallb is_ascii_digit s = true -> 0 <= digits_value s < 10 ^ len s.
Proof.
  induction s as [|c s IH] using rev_ind; intros H.
  - cbn. lia.
  - rewrite forallb_app in H. apply andb_prop in H as [Hs Hc].
    simpl in Hc. rewrite andb_true_r in Hc.
    specialize (IH Hs). apply digit_val_range in Hc.
    rewrite digits_value_snoc. unfold len in *.
    rewrite length_app. simpl length.
    replace (Z.of_nat (length s + 1)) with (Z.succ (Z.of_nat (length s))) by lia.
    rewrite Z.pow_succ_r by lia. lia.
Qed.

Lemma digits_value_app (a b : pystr) :
  digits_value (a ++ b) = digits_value a * 10 ^ len b + digits_value b.
Proof.
  induction b as [|c b IH] using rev_ind.
  - rewrite app_nil_r. cbn. lia.
  - rewrite app_assoc, !digits_value_snoc, IH. unfold len.
    rewrite length_app. simpl length.
    replace (Z.of_nat (length b + 1)) with (Z.succ (Z.of_nat (length b))) by lia.
    rewrite Z.pow_succ_r by lia. ring.
Qed.

Lemma fixed_digits_length (w : nat) (n : N) : length (fixed_digits w n) = w.
Proof.
  revert n. induction w as [|w IH]; intros n; simpl; [reflexivity|].
  rewrite length_app, IH. simpl. lia.
Qed.

Lemma fixed_digits_all (w : nat) (n : N) :
  forallb is_ascii_digit (fixed_digits w n) = true.
Proof.
  revert n. induction w as [|w IH]; intros n; cbn [fixed_digits]; [reflexivity|].
  rewrite forallb_app, IH. cbn [forallb andb]. rewrite andb_true_r.
  apply is_ascii_digit_spec.
  assert (Hm : (n mod 10 < 10)%N) by (apply N.mod_upper_bound; discriminate).
  revert Hm. generalize (n mod 10)%N. intros m Hm. lia.
Qed.

(** Printing the value of a digit string at the width of the string gives
    the string back. *)
Lemma fixed_digits_value (s : pystr) :
  forallb is_ascii_digit s = true ->
  fixed_digits (length s) (Z.to_N (digits_value s)) = s.
Proof.
  induction s as [|c s IH] using rev_ind; intros H; [reflexivity|].
  rewrite forallb_app in H. apply andb_prop in H as [Hs Hc].
  simpl in Hc. rewrite andb_true_r in Hc.
  pose proof (digits_value_range s Hs) as Hr.
  pose proof (digit_val_range c Hc) as Hd.
  apply is_ascii_digit_spec in Hc.
  rewrite length_app, Nat.add_1_r, digits_value_snoc. cbn [length fixed_digits].
  assert (E : Z.to_N (10 * digits_value s + digit_val c)
              = (10 * Z.to_N (digits_value s) + (c - 48))%N)
    by (unfold digit_val; lia).
  rewrite E. clear E.
  replace ((10 * Z.to_N (digits_value s) + (c - 48)) / 10)%N
    with (Z.to_N (digits_value s)).
  2:{ symmetry. rewrite N.mul_comm, N.div_add_l by lia.
      rewrite N.div_small by lia. lia. }
  replace ((10 * Z.to_N (digits_value s) + (c - 48)) mod 10)%N with (c - 48)%N.
  2:{ symmetry. rewrite N.add_comm, N.mul_comm, N.Div0.mod_add.
      apply N.mod_small. lia. }
  rewrite (IH Hs). f_equal. f_equal. lia.
Qed.

Lemma fixed_digits_zero (w : nat) : fixed_digits w 0 = zeros w.
Proof.
  induction w as [|w IH]; [reflexivity|].
  cbn [fixed_digits]. change (0 / 10)%N with 0%N. rewrite IH.
  change [(48 + 0 mod 10)%N] with [char_0]. unfold zeros.
  change [char_0] with (repeat char_0 1). rewrite <- repeat_app.
  now rewrite Nat.add_1_r.
Qed.

(** Widening the field puts zeros in front. *)
Lemma fixed_digits_widen (w k : nat) (n : N) :
  (n < 10 ^ N.of_nat w)%N ->
  fixed_digits (k + w) n = zeros k ++ fixed_digits w n.
Proof.
  revert n. induction w as [|w IH]; intros n Hn.
  - assert (n = 0%N) by (cbn in Hn; lia). subst n.
    rewrite Nat.add_0_r, fixed_digits_zero. cbn [fixed_digits].
    now rewrite app_nil_r.
  - rewrite Nat.add_succ_r. cbn [fixed_digits].
    rewrite IH, app_assoc; [reflexivity|].
    rewrite Nat2N.inj_succ, N.pow_succ_r' in Hn.
    apply N.Div0.div_lt_upper_bound. exact Hn.
Qed.

Lemma lstrip_zeros (k : nat) (x : pystr) :
  lstrip_with (N.eqb char_0) (zeros k ++ x) = lstrip_with (N.eqb char_0) x.
Proof. induction k as [|k IH]; [reflexivity|]. cbn. exact IH. Qed.

Lemma all_zero_is_zeros (p : pystr) :
  forallb (N.eqb char_0) p = true -> p = zeros (length p).
Proof.
  induction p as [|c p IH]; [reflexivity|].
  cbn [forallb length]. intros H. apply andb_prop in H as [Hc Hp].
  apply N.eqb_eq in Hc. subst c. unfold zeros. cbn [repeat].
  f_equal. exact (IH Hp).
Qed.

Lemma zeros_snoc (k : nat) : zeros k ++ [char_0] = zeros (S k).
Proof.
  unfold zeros. change [char_0] with (repeat char_0 1).
  rewrite <- repeat_app. now rewrite Nat.add_1_r.
Qed.

(** Zero-filling the canonical form of a digit string to the width of the
    string restores the string. *)
Lemma zfill_canonical (x : pystr) :
  x <> [] -> forallb is_ascii_digit x = true ->
  zfill (length x) (canonical x) = x.
Proof.
  intros Hne Hd.
  destruct (lstrip_with_split (N.eqb char_0) x) as [pre [Hx Hpre]].
  apply all_zero_is_zeros in Hpre.
  unfold canonical.
  destruct (lstrip_with (N.eqb char_0) x) as [|c t] eqn:Hs.
  - rewrite app_nil_r in Hx. rewrite <- Hx in Hpre.
    destruct x as [|a x']; [congruence|].
    unfold zfill. cbn [length].
    destruct x' as [|b x'']; [cbn in *; congruence|].
    cbn [length Nat.leb]. change (char_0 =? char_plus)%N with false.
    change (char_0 =? char_minus)%N with false. cbn [orb].
    replace (S (S (length x'')) - 1)%nat with (S (length x'')) by lia.
    rewrite zeros_snoc. symmetry. exact Hpre.
  - assert (Hc : is_ascii_digit c = true).
    { rewrite Hx, forallb_app in Hd. apply andb_prop in Hd as [_ Hd].
      cbn in Hd. now apply andb_prop in Hd as [Hd _]. }
    apply is_ascii_digit_spec in Hc.
    assert (Hlen : length x = (length pre + length (c :: t))%nat)
      by (rewrite Hx at 1; apply length_app).
    unfold zfill. rewrite Hlen. unfold pystr, char in *.
    destruct (_ <=? _)%nat eqn:Hcmp.
    + apply Nat.leb_le in Hcmp. assert (length pre = 0%nat) by lia.
      destruct pre; [|discriminate]. symmetry. exact Hx.
    + apply Nat.leb_gt in Hcmp. replace (length pre + length (c :: t) - length (c :: t))%nat
        with (length pre) by lia.
      replace ((c =? char_plus) || (c =? char_minus))%N with false.
      * rewrite <- Hpre. symmetry. exact Hx.
      * symmetry. apply orb_false_iff. unfold char_plus, char_minus.
        split; apply N.eqb_neq; lia.
Qed.

Lemma N_lt_pow_log2 (n : N) : (n < 10 ^ N.of_nat (S (N.to_nat (N.log2 n))))%N.
Proof.
  rewrite Nat2N.inj_succ, N2Nat.id.
  destruct (N.eq_dec n 0) as [->|Hn]; [reflexivity|].
  destruct (N.log2_spec n) as [_ H]; [lia|].
  eapply N.lt_le_trans; [exact H|].
  apply N.pow_le_mono_l. lia.
Qed.

Lemma canonical_fixed_digits (w1 w2 : nat) (n : N) :
  (n < 10 ^ N.of_nat w1)%N -> (n < 10 ^ N.of_nat w2)%N ->
  canonical (fixed_digits w1 n) = canonical (fixed_digits w2 n).
Proof.
  assert (G : forall a b, (a <= b)%nat -> (n < 10 ^ N.of_nat a)%N ->
              canonical (fixed_digits b n) = canonical (fixed_digits a n)).
  { intros a b Hab Ha. replace b with ((b - a) + a)%nat by lia.
    rewrite fixed_digits_widen by exact Ha.
    unfold canonical. now rewrite lstrip_zeros. }
  intros H1 H2. destruct (Nat.le_ge_cases w1 w2).
  - symmetry. now apply G.
  - now apply G.
Qed.

(** [str(n).zfill(w)] is the [w]-digit rendering of [n] when [n] fits. *)
Lemma zfill_str_of_N (w : nat) (n : N) :
  (0 < w)%nat -> (n < 10 ^ N.of_nat w)%N ->
  zfill w (str_of_N n) = fixed_digits w n.
Proof.
  intros Hw Hn.
  unfold str_of_N.
  rewrite (canonical_fixed_digits _ w n (N_lt_pow_log2 n) Hn).
  rewrite <- (fixed_digits_length w n) at 1.
  apply zfill_canonical.
  - intros E. apply (f_equal (@length _)) in E.
    rewrite fixed_digits_length in E. cbn in E. lia.
  - apply fixed_digits_all.
Qed.

(** * Facts about [parse_9digit_price] *)

Lemma py_int_digits (s : pystr) :
  s <> [] -> forallb is_ascii_digit s = true -> py_int s = Ok (digits_value s).
Proof.
  intros Hne Hd. unfold py_int. destruct s; [congruence|]. now rewrite Hd.
Qed.

Lemma zfill_digits (w : nat) (s : pystr) :
  s <> [] -> forallb is_ascii_digit s = true -> (length s < w)%nat ->
  zfill w s = zeros (w - length s) ++ s.
Proof.
  intros Hne Hd Hlt. unfold zfill.
  destruct (Nat.leb_spec w (length s)); [lia|].
  destruct s as [|c t]; [congruence|].
  cbn [forallb] in Hd. apply andb_prop in Hd as [Hc _].
  apply is_ascii_digit_spec in Hc.
  replace ((c =? char_plus) || (c =? char_minus))%N with false; [reflexivity|].
  symmetry. apply orb_false_iff. unfold char_plus, char_minus.
  split; apply N.eqb_neq; lia.
Qed.

Lemma zeros_all_digits (k : nat) : forallb is_ascii_digit (zeros k) = true.
Proof. induction k; [reflexivity|]. cbn. assumption. Qed.

Lemma forallb_skipn {A} (p : A -> bool) (n : nat) (l : list A) :
  forallb p l = true -> forallb p (skipn n l) = true.
Proof.
  intros H. rewrite <- (firstn_skipn n l), forallb_app in H.
  now apply andb_prop in H.
Qed.

Lemma forallb_firstn {A} (p : A -> bool) (n : nat) (l : list A) :
  forallb p l = true -> forallb p (firstn n l) = true.
Proof.
  intros H. rewrite <- (firstn_skipn n l), forallb_app in H.
  now apply andb_prop in H.
Qed.

(** The two branches of "pad or truncate". *)
Lemma pad_or_truncate_short (d : pystr) :
  d <> [] -> forallb is_ascii_digit d = true -> (length d < 9)%nat ->
  ByteLevel.pad_or_truncate d = zeros (9 - length d) ++ d.
Proof.
  intros Hne Hd Hlt. unfold ByteLevel.pad_or_truncate, len.
  destruct (Z.ltb_spec (Z.of_nat (length d)) 9); [|lia].
  now apply zfill_digits.
Qed.

Lemma pad_or_truncate_long (d : pystr) :
  (9 <= length d)%nat ->
  ByteLevel.pad_or_truncate d = skipn (length d - 9) d.
Proof.
  intros Hge. unfold ByteLevel.pad_or_truncate, len.
  destruct (Z.ltb_spec (Z.of_nat (length d)) 9); [lia|].
  change (-9) with (- Z.of_nat 9). apply py_slice_last. lia.
Qed.

Lemma pad_or_truncate_shape (d : pystr) :
  d <> [] -> forallb is_ascii_digit d = true ->
  length (ByteLevel.pad_or_truncate d) = 9%nat
  /\ forallb is_ascii_digit (ByteLevel.pad_or_truncate d) = true.
Proof.
  intros Hne Hd. destruct (Nat.lt_ge_cases (length d) 9) as [Hlt|Hge].
  - rewrite pad_or_truncate_short by assumption. split.
    + unfold zeros. rewrite length_app, repeat_length. lia.
    + now rewrite forallb_app, zeros_all_digits.
  - rewrite pad_or_truncate_long by assumption. split.
    + rewrite length_skipn. lia.
    + now apply forallb_skipn.
Qed.

(** On a value with four decimals [round(value, 4)] changes nothing. *)
Lemma py_round_grid (w f : Z) :
  py_round (inject_Z w + inject_Z f / inject_Z 10000) 4 = (w * 10000 + f) # 10000.
Proof.
  unfold py_round, Qplus, Qdiv, Qmult, Qinv, inject_Z.
  cbn [Qnum Qden Z.of_nat Pos.of_succ_nat Pos.succ].
  change (10 ^ 4) with 10000.
  change (Z.pos (1 * (1 * 10000))) with 10000.
  change (Z.to_pos 10000) with 10000%positive.
  change (Qnum (1 # 10000)) with 1. change (Z.pos (Qden (1 # 10000))) with 10000.
  cbn [Qnum Qden].
  change (Z.pos (1 * 10000)) with 10000.
  rewrite Z.div_mul, Z.mod_mul by lia.
  cbn [Z.mul Z.ltb Z.compare]. f_equal. ring.
Qed.

(** The price a nine-digit string denotes. *)
Lemma split_9digit_ok (d : pystr) :
  length d = 9%nat -> forallb is_ascii_digit d = true ->
  ByteLevel.split_9digit d = Ok (digits_value d # 10000).
Proof.
  intros Hlen Hd. unfold ByteLevel.split_9digit.
  change (-4) with (- Z.of_nat 4).
  rewrite py_slice_but_last, py_slice_last by lia. rewrite Hlen.
  change (9 - 4)%nat with 5%nat.
  assert (H5 : length (firstn 5 d) = 5%nat) by (rewrite length_firstn; lia).
  assert (H4 : length (skipn 5 d) = 4%nat) by (rewrite length_skipn; lia).
  rewrite (py_int_digits (firstn 5 d)).
  2:{ intros E. rewrite E in H5. discriminate. }
  2:{ now apply forallb_firstn. }
  rewrite (py_int_digits (skipn 5 d)).
  2:{ intros E. rewrite E in H4. discriminate. }
  2:{ now apply forallb_skipn. }
  cbn [rbind]. rewrite py_round_grid. do 2 f_equal.
  rewrite <- (firstn_skipn 5 d) at 3. rewrite digits_value_app.
  unfold len. rewrite H4. reflexivity.
Qed.

Lemma parse_9digit_price_no_digit (raw : pystr) :
  re_sub_non_digits raw = [] -> ByteLevel.parse_9digit_price raw = None.
Proof.
  intros H. unfold ByteLevel.parse_9digit_price. rewrite H.
  now destruct (is_empty raw).
Qed.

Lemma parse_9digit_price_digits (raw : pystr) :
  re_sub_non_digits raw <> [] ->
  ByteLevel.parse_9digit_price raw
  = Some (digits_value (ByteLevel.pad_or_truncate (re_sub_non_digits raw)) # 10000).
Proof.
  intros H. unfold ByteLevel.parse_9digit_price.
  destruct raw as [|c raw]; [now elim H|]. cbn [is_empty].
  apply is_empty_false in H as H'. rewrite H'.
  destruct (pad_or_truncate_shape _ H (re_sub_non_digits_all (c :: raw))) as [Hl Hd].
  now rewrite split_9digit_ok.
Qed.

(** The text-mode script decodes a price exactly as the byte-level one. *)
Lemma Diagnostic_parse_9digit_price_eq (raw : pystr) :
  Diagnostic.parse_9digit_price (Some raw) = ByteLevel.parse_9digit_price raw.
Proof.
  unfold Diagnostic.parse_9digit_price, ByteLevel.parse_9digit_price.
  destruct raw; reflexivity.
Qed.

Lemma no_digit_iff (raw : pystr) :
  re_sub_non_digits raw = [] <-> (forall c, In c raw -> is_ascii_digit c = false).
Proof.
  unfold re_sub_non_digits. split.
  - intros H c Hc. destruct (is_ascii_digit c) eqn:E; [|reflexivity].
    assert (Hin : In c (filter is_ascii_digit raw)) by (apply filter_In; auto).
    rewrite H in Hin. destruct Hin.
  - intros H. induction raw as [|c raw IH]; [reflexivity|].
    cbn [filter]. rewrite (H c) by (left; reflexivity).
    apply IH. intros c' Hc'. apply H. now right.
Qed.

(** Every decoded price is a number of ten-thousandths below 10^9. *)
Lemma parse_9digit_price_grid (raw : pystr) (v : Q) :
  ByteLevel.parse_9digit_price raw = Some v ->
  exists n : Z, v = n # 10000 /\ 0 <= n < 10 ^ 9.
Proof.
  intros H.
  destruct (re_sub_non_digits raw) as [|c d] eqn:E.
  - rewrite parse_9digit_price_no_digit in H by exact E. discriminate.
  - assert (Hne : re_sub_non_digits raw <> []) by (rewrite E; discriminate).
    rewrite (parse_9digit_price_digits raw Hne) in H. injection H as <-.
    destruct (pad_or_truncate_shape _ Hne (re_sub_non_digits_all raw)) as [Hl Hd].
    eexists. split; [reflexivity|].
    pose proof (digits_value_range _ Hd) as R. unfold len in R.
    rewrite Hl in R. exact R.
Qed.

(** C9: [parse_9digit_price] returns [None] exactly when its input has no
    ASCII digit, in the byte-level and in the diagnostic script alike; as
    soon as the input has a digit, the [try] block that splits the nine
    digits returns a value, so its [except] branch is never taken. *)
Theorem parse_9digit_price_none_iff_no_digit (raw : pystr) :
  (ByteLevel.parse_9digit_price raw = None
   <-> forall c, In c raw -> is_ascii_digit c = false)
  /\ (Diagnostic.parse_9digit_price (Some raw) = None
      <-> forall c, In c raw -> is_ascii_digit c = false)
  /\ ((exists c, In c raw /\ is_ascii_digit c = true) ->
      exists v,
        ByteLevel.split_9digit (ByteLevel.pad_or_truncate (re_sub_non_digits raw)) = Ok v
        /\ Diagnostic.split_9digit (Diagnostic.pad_or_truncate (re_sub_non_digits raw)) = Ok v
        /\ ByteLevel.parse_9digit_price raw = Some v
        /\ Diagnostic.parse_9digit_price (Some raw) = Some v).
Proof.
  assert (B : ByteLevel.parse_9digit_price raw = None
              <-> forall c, In c raw -> is_ascii_digit c = false).
  { rewrite <- no_digit_iff. split.
    - intros H. destruct (re_sub_non_digits raw) eqn:E; [reflexivity|].
      rewrite parse_9digit_price_digits in H by (rewrite E; discriminate).
      discriminate.
    - apply parse_9digit_price_no_digit. }
  split; [exact B|]. split.
  - rewrite Diagnostic_parse_9digit_price_eq. exact B.
  - intros [c [Hin Hc]].
    assert (Hne : re_sub_non_digits raw <> []).
    { intros E. rewrite no_digit_iff in E. rewrite (E c Hin) in Hc. discriminate. }
    destruct (pad_or_truncate_shape _ Hne (re_sub_non_digits_all raw)) as [Hl Hd].
    eexists. split; [apply split_9digit_ok; assumption|].
    split; [apply split_9digit_ok; assumption|].
    rewrite Diagnostic_parse_9digit_price_eq.
    split; apply parse_9digit_price_digits; exact Hne.
Qed.

Lemma parse_9digit_price_none_iff_no_digit_witness :
  (exists c, In c (lit "12.5") /\ is_ascii_digit c = true)
  /\ exists v, ByteLevel.parse_9digit_price (lit "12.5") = Some v
               /\ Diagnostic.parse_9digit_price (Some (lit "12.5")) = Some v.
Proof.
  assert (H : exists c, In c (lit "12.5") /\ is_ascii_digit c = true).
  { exists 49%N. split; [left; reflexivity | reflexivity]. }
  split; [exact H|].
  destruct (proj2 (proj2 (parse_9digit_price_none_iff_no_digit (lit "12.5"))) H)
    as [v [_ [_ [Hb Hd]]]].
  exists v. split; assumption.
Defined.

(** C5: when at least nine digits remain after the non-digits are removed,
    the decoded value is that of the rightmost nine: two inputs whose digit
    sequences end in the same nine digits decode to the same value. *)
Theorem parse_9digit_price_rightmost_9
    (raw1 raw2 : pystr)
    (H1 : (9 <= length (re_sub_non_digits raw1))%nat)
    (H2 : (9 <= length (re_sub_non_digits raw2))%nat)
    (Hsame : skipn (length (re_sub_non_digits raw1) - 9) (re_sub_non_digits raw1)
             = skipn (length (re_sub_non_digits raw2) - 9) (re_sub_non_digits raw2)) :
  ByteLevel.parse_9digit_price raw1 = ByteLevel.parse_9digit_price raw2
  /\ ByteLevel.parse_9digit_price raw1
     = Some (digits_value
               (skipn (length (re_sub_non_digits raw1) - 9) (re_sub_non_digits raw1))
             # 10000).
Proof.
  assert (N1 : re_sub_non_digits raw1 <> [])
    by (intros E; rewrite E in H1; cbn in H1; lia).
  assert (N2 : re_sub_non_digits raw2 <> [])
    by (intros E; rewrite E in H2; cbn in H2; lia).
  rewrite (parse_9digit_price_digits raw1 N1), (parse_9digit_price_digits raw2 N2).
  rewrite !pad_or_truncate_long by assumption.
  rewrite Hsame. split; reflexivity.
Qed.

Lemma parse_9digit_price_rightmost_9_witness :
  ByteLevel.parse_9digit_price (lit "000000398000")
  = ByteLevel.parse_9digit_price (lit "77 000398000")
  /\ ByteLevel.parse_9digit_price (lit "000000398000") = Some (398000 # 10000).
Proof.
  destruct (parse_9digit_price_rightmost_9
              (lit "000000398000") (lit "77 000398000")) as [E V].
  - vm_compute. lia.
  - vm_compute. lia.
  - reflexivity.
  - split; [exact E|]. rewrite V. reflexivity.
Defined.

Lemma whole_part_grid (n : Z) : whole_part (n # 10000) = n / 10000.
Proof. reflexivity. Qed.

Lemma fraction_part_grid (n : Z) : fraction_part (n # 10000) = n mod 10000.
Proof.
  unfold fraction_part. rewrite whole_part_grid.
  unfold Qminus, Qplus, Qopp, Qmult, inject_Z, Qfloor. cbn [Qnum Qden].
  change (Z.pos (10000 * 1 * 1)) with 10000.
  change (Z.pos 1) with 1. change (Z.pos 10000) with 10000.
  rewrite Z.div_mul by lia.
  rewrite (Z.div_mod n 10000) at 1 by lia. ring.
Qed.

Lemma str_of_int_zfill (w : nat) (n : Z) :
  (0 < w)%nat -> 0 <= n < 10 ^ Z.of_nat w ->
  zfill w (str_of_int n) = fixed_digits w (Z.to_N n).
Proof.
  intros Hw Hn. unfold str_of_int.
  destruct (Z.ltb_spec n 0); [lia|].
  apply zfill_str_of_N; [exact Hw|].
  apply N2Z.inj_lt. rewrite Z2N.id, N2Z.inj_pow, nat_N_Z by lia.
  exact (proj2 Hn).
Qed.

(** * Facts about the codec and the byte slicer *)

Section CodecFacts.
Context `{Codec}.

Lemma py_decode_replace_bounded (n : nat) (bs : bytes) :
  (length bs <= n)%nat -> exists s, py_decode Replace bs = Ok s.
Proof.
  revert bs. induction n as [|n IH]; intros bs Hn.
  - destruct bs; [|cbn in Hn; lia]. exists []. reflexivity.
  - destruct bs as [|c rest]; [exists []; reflexivity|].
    cbn [length] in Hn. cbn [py_decode].
    destruct (IH rest ltac:(lia)) as [s1 E1].
    destruct (Byte.to_N c <? 128)%N.
    + rewrite E1. eexists. reflexivity.
    + destruct rest as [|c2 rest2]; [eexists; reflexivity|].
      cbn [length] in Hn.
      destruct (IH rest2 ltac:(lia)) as [s2 E2].
      destruct (cp950_map c c2).
      * rewrite E2. eexists. reflexivity.
      * cbn [on_undecodable]. rewrite E1. eexists. reflexivity.
Qed.

(** With [errors='replace'] decoding never raises. *)
Lemma py_decode_replace_total (bs : bytes) :
  exists s, py_decode Replace bs = Ok s.
Proof. exact (py_decode_replace_bounded (length bs) bs (le_n _)). Qed.

Lemma py_decode_nil (errors : errors_mode) : py_decode errors [] = Ok [].
Proof. reflexivity. Qed.

Lemma slice_bytes_decoded (line_bytes : bytes) (start stop : Z) (text : pystr) :
  py_decode Replace (py_slice line_bytes (Some start) (Some stop)) = Ok text ->
  ByteLevel.slice_bytes line_bytes start stop = Ok (strip text).
Proof. intros E. unfold ByteLevel.slice_bytes. now rewrite E. Qed.

Lemma slice_bytes_total (line_bytes : bytes) (start stop : Z) :
  exists s, ByteLevel.slice_bytes line_bytes start stop = Ok s.
Proof.
  destruct (py_decode_replace_total (py_slice line_bytes (Some start) (Some stop)))
    as [text E].
  exists (strip text). now apply slice_bytes_decoded.
Qed.
End CodecFacts.

(** C8: [slice_bytes] never raises.  For non-negative offsets it returns the
    stripped text of the bytes at the positions [start <= i < stop] that the
    line has (none at all when [start] is past the end, and then the empty
    string); a byte pair outside the code table, or a lead byte that ends
    the input, becomes U+FFFD and decoding goes on.  The slicer of the
    filtering script is the same function. *)
Theorem slice_bytes_never_raises `{Codec}
    (line_bytes : bytes) (start stop : Z)
    (Hstart : 0 <= start) (Hstop : 0 <= stop) :
  (exists text,
     py_decode Replace
       (firstn (Z.to_nat stop - Z.to_nat start) (skipn (Z.to_nat start) line_bytes))
     = Ok text
     /\ ByteLevel.slice_bytes line_bytes start stop = Ok (strip text)
     /\ ForML.slice_bytes line_bytes start stop = Ok (strip text))
  /\ (len line_bytes <= start -> ByteLevel.slice_bytes line_bytes start stop = Ok [])
  /\ (forall c c2 rest,
        (128 <= Byte.to_N c)%N -> cp950_map c c2 = None ->
        exists t, py_decode Replace (c2 :: rest) = Ok t
                  /\ py_decode Replace (c :: c2 :: rest)
                     = Ok (REPLACEMENT_CHARACTER :: t))
  /\ (forall c, (128 <= Byte.to_N c)%N ->
        py_decode Replace [c] = Ok [REPLACEMENT_CHARACTER]).
Proof.
  split; [|split; [|split]].
  - destruct (py_decode_replace_total
                (firstn (Z.to_nat stop - Z.to_nat start)
                        (skipn (Z.to_nat start) line_bytes))) as [text E].
    exists text. split; [exact E|].
    rewrite <- py_slice_nonneg in E by assumption.
    split; [now apply slice_bytes_decoded|].
    unfold ForML.slice_bytes. now rewrite E.
  - intros Hpast. unfold ByteLevel.slice_bytes.
    rewrite py_slice_nonneg by assumption.
    rewrite skipn_all2 by (unfold len in Hpast; lia).
    rewrite firstn_nil. reflexivity.
  - intros c c2 rest Hc Hmap.
    destruct (py_decode_replace_total (c2 :: rest)) as [t E].
    exists t. split; [exact E|].
    change (py_decode Replace (c :: c2 :: rest))
      with (if (Byte.to_N c <? 128)%N
            then cons_ok (Byte.to_N c) (py_decode Replace (c2 :: rest))
            else match cp950_map c c2 with
                 | Some u => cons_ok u (py_decode Replace rest)
                 | None => on_undecodable Replace (py_decode Replace (c2 :: rest))
                 end).
    destruct (N.ltb_spec (Byte.to_N c) 128); [lia|].
    rewrite Hmap. cbn [on_undecodable]. rewrite E. reflexivity.
  - intros c Hc. cbn [py_decode].
    destruct (N.ltb_spec (Byte.to_N c) 128); [lia|]. reflexivity.
Qed.

Lemma slice_bytes_never_raises_witness :
  @ByteLevel.slice_bytes ascii_only [x41; x42; xff; x20; x20] 0 10
  = Ok [65%N; 66%N; REPLACEMENT_CHARACTER]
  /\ @ByteLevel.slice_bytes ascii_only [x41; x42; xff; x20; x20] 7 10 = Ok [].
Proof.
  pose proof (@slice_bytes_never_raises ascii_only [x41; x42; xff; x20; x20] 0 10
                ltac:(lia) ltac:(lia)) as [[text [E [HB _]]] _].
  pose proof (@slice_bytes_never_raises ascii_only [x41; x42; xff; x20; x20] 7 10
                ltac:(lia) ltac:(lia)) as [_ [Hpast _]].
  split.
  - rewrite HB. vm_compute in E. injection E as <-. reflexivity.
  - apply Hpast. vm_compute. discriminate.
Defined.

(** * Facts about [process_file], byte-level script *)

Section ByteLevelFacts.
Context `{Codec}.

Lemma BL_reject_eq fname lineno why line close st :
  exists preview,
    py_decode Replace (py_slice line None (Some 100)) = Ok preview
    /\ ByteLevel.reject fname lineno why line close st
       = (Ok tt, {| rows := rows st;
                    debug_rows := debug_rows st
                                  ++ [mk_diag fname lineno why preview close];
                    sliced := sliced st |}).
Proof.
  destruct (py_decode_replace_total (py_slice line None (Some 100))) as [p E].
  exists p. split; [exact E|].
  unfold ByteLevel.reject, ByteLevel.line_preview, bind, lift, append_debug.
  rewrite E. reflexivity.
Qed.

Lemma BL_slice_field_eq f line st :
  exists s,
    ByteLevel.slice_bytes line (fst (ByteLevel.BYTE_POS f)) (snd (ByteLevel.BYTE_POS f))
    = Ok s
    /\ ByteLevel.slice_field f line st
       = (Ok s, {| rows := rows st; debug_rows := debug_rows st;
                   sliced := sliced st ++ [f] |}).
Proof.
  destruct (slice_bytes_total line (fst (ByteLevel.BYTE_POS f))
              (snd (ByteLevel.BYTE_POS f))) as [s E].
  exists s. split; [exact E|].
  unfold ByteLevel.slice_field, bind, lift, note_slice. rewrite E. reflexivity.
Qed.

Lemma BL_extract_fields_eq line st :
  exists flds,
    ByteLevel.extract_fields line st
    = (Ok flds, {| rows := rows st; debug_rows := debug_rows st;
                   sliced := sliced st
                             ++ [stock_id; stock_name; close_price_raw; change_flag] |})
    /\ ByteLevel.slice_bytes line 0 6 = Ok (sid flds)
    /\ ByteLevel.slice_bytes line 6 22 = Ok (sname flds)
    /\ ByteLevel.slice_bytes line 49 58 = Ok (close_raw flds)
    /\ py_decode Replace (py_slice line (Some 58) (Some 59)) = Ok (change_sym flds).
Proof.
  destruct (slice_bytes_total line 0 6) as [s Es].
  destruct (slice_bytes_total line 6 22) as [n En].
  destruct (slice_bytes_total line 49 58) as [c Ec].
  destruct (py_decode_replace_total (py_slice line (Some 58) (Some 59))) as [f Ef].
  exists {| sid := s; sname := n; close_raw := c; change_sym := f |}.
  cbn [sid sname close_raw change_sym]. repeat split; try assumption.
  unfold ByteLevel.extract_fields, ByteLevel.slice_field, bind, lift, note_slice, ret.
  cbn [ByteLevel.BYTE_POS fst snd rows debug_rows sliced].
  rewrite Es, En, Ec, Ef. rewrite <- !app_assoc. reflexivity.
Qed.

Lemma BL_show_sample_eq verbose sc line st :
  exists sc' extra,
    ByteLevel.show_sample verbose sc line st
    = (Ok sc', {| rows := rows st; debug_rows := debug_rows st;
                  sliced := sliced st ++ extra |}).
Proof.
  unfold ByteLevel.show_sample.
  destruct (verbose && (sc <? 5)%nat).
  - destruct (py_decode_replace_total line) as [t Et].
    destruct (slice_bytes_total line 22 31) as [o Eo].
    destruct (slice_bytes_total line 31 40) as [h Eh].
    destruct (slice_bytes_total line 40 49) as [l El].
    exists (S sc), [open_price_raw; high_price_raw; low_price_raw].
    unfold ByteLevel.slice_field, bind, lift, note_slice, ret.
    cbn [ByteLevel.BYTE_POS fst snd rows debug_rows sliced].
    rewrite Et, Eo, Eh, El. rewrite <- !app_assoc. reflexivity.
  - exists sc, []. unfold ret. rewrite app_nil_r. now destruct st.
Qed.

(** The outcome of the validation block, case by case. *)
Lemma BL_validate_cases fname date_tag lineno line flds cv st :
  exists st' preview,
    ByteLevel.validate fname date_tag lineno line flds cv st = (Ok tt, st')
    /\ sliced st' = sliced st
    /\ py_decode Replace (py_slice line None (Some 100)) = Ok preview
    /\ match sid flds, cv with
       | [], _ =>
           appended_diag st st'
             (mk_diag fname lineno empty_stock_id preview (close_raw flds))
       | _ :: _, None =>
           appended_diag st st'
             (mk_diag fname lineno close_unparseable preview (close_raw flds))
       | _ :: _, Some v =>
           if ByteLevel.sane_price (Some v) then
             appended_row st st'
               {| r_date := date_tag; r_stock_id := sid flds;
                  r_closing_price := format_4f v;
                  r_change_flag := strip (change_sym flds);
                  r_stock_name := sname flds;
                  r_source_file := fname; r_line_no := lineno |}
           else
             appended_diag st st'
               (mk_diag fname lineno (close_out_of_bounds v) preview (close_raw flds))
       end.
Proof.
  unfold ByteLevel.validate.
  destruct (py_decode_replace_total (py_slice line None (Some 100))) as [p Ep].
  destruct (sid flds) as [|c0 s0] eqn:Es; cbn [is_empty].
  - destruct (BL_reject_eq fname lineno empty_stock_id line (close_raw flds) st)
      as [p' [Ep' ->]].
    assert (p' = p) by congruence. subst p'.
    eexists _, p. close_case Ep.
  - destruct cv as [v|].
    + destruct (ByteLevel.sane_price (Some v)) eqn:Hs; cbn [negb].
      * eexists _, p. unfold append_row. close_case Ep.
      * destruct (BL_reject_eq fname lineno (close_out_of_bounds v) line
                    (close_raw flds) st) as [p' [Ep' ->]].
        assert (p' = p) by congruence. subst p'.
        eexists _, p. close_case Ep.
    + destruct (BL_reject_eq fname lineno close_unparseable line (close_raw flds) st)
        as [p' [Ep' ->]].
      assert (p' = p) by congruence. subst p'.
      eexists _, p. close_case Ep.
Qed.
End ByteLevelFacts.

Section ByteLevelLines.
Context `{Codec}.

(** What the loop body does with one line of the file. *)
Lemma BL_process_line_cases fname date_tag verbose lineno sc raw st :
  exists sc' st',
    ByteLevel.process_line fname date_tag verbose lineno sc raw st = (Ok sc', st')
    /\ let line := rstrip_crlf_bytes raw in
       if is_empty line then st' = st
       else if len line <? 59 then
         sliced st' = sliced st
         /\ exists preview,
             py_decode Replace (py_slice line None (Some 100)) = Ok preview
             /\ appended_diag st st' (mk_diag fname lineno line_too_short preview [])
       else
         exists flds st1 st2,
           ByteLevel.extract_fields line st = (Ok flds, st1)
           /\ appended_nothing st st2
           /\ (exists extra, sliced st2 = sliced st1 ++ extra)
           /\ ByteLevel.validate fname date_tag lineno line flds
                (ByteLevel.parse_9digit_price (close_raw flds)) st2
              = (Ok tt, st').
Proof.
  unfold ByteLevel.process_line. cbv zeta.
  rewrite len_zero.
  destruct (is_empty (rstrip_crlf_bytes raw)) eqn:Hemp.
  - exists sc, st. split; reflexivity.
  - change (snd (ByteLevel.BYTE_POS change_flag)) with 59.
    destruct (len (rstrip_crlf_bytes raw) <? 59) eqn:Hshort.
    + destruct (BL_reject_eq fname lineno line_too_short (rstrip_crlf_bytes raw) [] st)
        as [p [Ep Er]].
      unfold bind. rewrite Er. eexists _, _. split; [reflexivity|].
      split; [reflexivity|]. exists p. split; [exact Ep|]. split; reflexivity.
    + destruct (BL_extract_fields_eq (rstrip_crlf_bytes raw) st) as [flds [Ex _]].
      unfold bind at 1. unfold try_M. unfold bind at 1. rewrite Ex.
      unfold ret at 1.
      match goal with
      | |- context [ByteLevel.show_sample ?v ?c ?l] =>
          destruct (BL_show_sample_eq v c l
                      {| rows := rows st; debug_rows := debug_rows st;
                         sliced := sliced st
                                   ++ [stock_id; stock_name; close_price_raw;
                                       change_flag] |})
            as [sc' [extra Es]]
      end.
      unfold bind at 1. rewrite Es.
      match goal with
      | |- context [ByteLevel.validate ?a ?b ?c ?d ?e ?f] =>
          destruct (BL_validate_cases a b c d e f
                      {| rows := rows st; debug_rows := debug_rows st;
                         sliced := (sliced st
                                    ++ [stock_id; stock_name; close_price_raw;
                                        change_flag]) ++ extra |})
            as [st' [p [Ev _]]]
      end.
      cbn [rows debug_rows sliced] in *.
      unfold bind. rewrite Ev. unfold ret.
      exists sc', st'. split; [reflexivity|].
      exists flds,
        {| rows := rows st; debug_rows := debug_rows st;
           sliced := sliced st
                     ++ [stock_id; stock_name; close_price_raw; change_flag] |},
        {| rows := rows st; debug_rows := debug_rows st;
           sliced := (sliced st
                      ++ [stock_id; stock_name; close_price_raw; change_flag])
                     ++ extra |}.
      split; [reflexivity|].
      split; [split; reflexivity|]. split; [exists extra; reflexivity|].
      exact Ev.
Qed.

(** One line moves the outcome count by one, or by nothing when the line
    is empty; it never raises. *)
Lemma BL_process_line_outcomes fname date_tag verbose lineno sc raw st :
  exists sc' st',
    ByteLevel.process_line fname date_tag verbose lineno sc raw st = (Ok sc', st')
    /\ outcomes st' = (outcomes st + (if nonempty_bytes raw then 1 else 0))%nat.
Proof.
  destruct (BL_process_line_cases fname date_tag verbose lineno sc raw st)
    as [sc' [st' [E C]]].
  exists sc', st'. split; [exact E|]. cbv zeta in C.
  unfold nonempty_bytes, outcomes.
  destruct (is_empty (rstrip_crlf_bytes raw)); cbn [negb].
  - subst st'. lia.
  - destruct (len (rstrip_crlf_bytes raw) <? 59).
    + destruct C as [_ [p [_ [Hr Hd]]]]. rewrite Hr, Hd, length_app. cbn. lia.
    + destruct C as [flds [st1 [st2 [_ [[Hr2 Hd2] [_ Ev]]]]]].
      destruct (BL_validate_cases fname date_tag lineno (rstrip_crlf_bytes raw) flds
                  (ByteLevel.parse_9digit_price (close_raw flds)) st2)
        as [st'' [p [Ev' [_ [_ Hc]]]]].
      rewrite Ev in Ev'. injection Ev' as <-.
      rewrite <- Hr2, <- Hd2.
      destruct (sid flds); [destruct Hc as [-> ->]; rewrite length_app; cbn; lia|].
      destruct (ByteLevel.parse_9digit_price (close_raw flds)) as [v|];
        [|destruct Hc as [-> ->]; rewrite length_app; cbn; lia].
      destruct (ByteLevel.sane_price (Some v));
        destruct Hc as [-> ->]; rewrite length_app; cbn; lia.
Qed.

Lemma BL_process_lines_outcomes fname date_tag verbose lines :
  forall lineno sc st,
  exists st',
    ByteLevel.process_lines fname date_tag verbose lineno sc lines st = (Ok tt, st')
    /\ outcomes st' = (outcomes st + count nonempty_bytes lines)%nat.
Proof.
  induction lines as [|raw rest IH]; intros lineno sc st.
  - exists st. split; [reflexivity|]. unfold count. cbn. lia.
  - destruct (BL_process_line_outcomes fname date_tag verbose lineno sc raw st)
      as [sc' [st1 [E1 O1]]].
    destruct (IH (lineno + 1) sc' st1) as [st' [E2 O2]].
    exists st'. cbn [ByteLevel.process_lines]. unfold bind. rewrite E1.
    split; [exact E2|]. rewrite O2, O1. unfold count. cbn [filter].
    destruct (nonempty_bytes raw); cbn [length]; lia.
Qed.
End ByteLevelLines.

(** * Facts about [process_file], diagnostic script *)

Lemma DG_extract_fields_eq line st :
  exists flds,
    Diagnostic.extract_fields line st
    = (Ok flds, {| rows := rows st; debug_rows := debug_rows st;
                   sliced := sliced st
                             ++ [stock_id; stock_name; close_price_raw; change_flag] |})
    /\ sid flds = strip (py_slice line (Some 0) (Some 6))
    /\ close_raw flds = py_slice line (Some 49) (Some 58).
Proof.
  eexists. split.
  - unfold Diagnostic.extract_fields, Diagnostic.slice_field, bind, ret, note_slice.
    cbn [rows debug_rows sliced Diagnostic.POS fst snd].
    rewrite <- !app_assoc. reflexivity.
  - split; reflexivity.
Qed.

Lemma DG_validate_cases fname date_tag lineno raw flds cv st :
  exists st',
    Diagnostic.validate fname date_tag lineno raw flds cv st = (Ok tt, st')
    /\ sliced st' = sliced st
    /\ match sid flds, cv with
       | [], _ =>
           appended_diag st st'
             (mk_diag fname lineno empty_stock_id
                (py_slice raw None (Some 200)) (close_raw flds))
       | _ :: _, None =>
           appended_diag st st'
             (mk_diag fname lineno close_unparseable
                (py_slice raw None (Some 200)) (close_raw flds))
       | _ :: _, Some v =>
           if Diagnostic.sane_price (Some v) then
             appended_row st st'
               {| r_date := date_tag; r_stock_id := sid flds;
                  r_closing_price := format_4f v;
                  r_change_flag := strip (change_sym flds);
                  r_stock_name := sname flds;
                  r_source_file := fname; r_line_no := lineno |}
           else
             appended_diag st st'
               (mk_diag fname lineno (close_out_of_bounds v)
                  (py_slice raw None (Some 200)) (close_raw flds))
       end.
Proof.
  unfold Diagnostic.validate, Diagnostic.reject, append_debug, append_row.
  destruct (sid flds) as [|c0 s0]; cbn [is_empty].
  - eexists. split; [reflexivity|]. split; [reflexivity|]. split; reflexivity.
  - destruct cv as [v|].
    + destruct (Diagnostic.sane_price (Some v)); cbn [negb];
        (eexists; split; [reflexivity|]; split; [reflexivity|]; split; reflexivity).
    + eexists. split; [reflexivity|]. split; [reflexivity|]. split; reflexivity.
Qed.

Lemma DG_process_line_cases fname date_tag lineno raw st :
  exists st',
    Diagnostic.process_line fname date_tag lineno raw st = (Ok tt, st')
    /\ let line := rstrip_crlf raw in
       if is_empty (strip line) then st' = st
       else if len line <? 59 then
         sliced st' = sliced st
         /\ appended_diag st st'
              (mk_diag fname lineno padded_short_line (py_slice raw None (Some 200)) [])
       else
         exists flds st1,
           Diagnostic.extract_fields line st = (Ok flds, st1)
           /\ appended_nothing st st1
           /\ Diagnostic.validate fname date_tag lineno raw flds
                (Diagnostic.parse_9digit_price (Some (close_raw flds))) st1
              = (Ok tt, st').
Proof.
  unfold Diagnostic.process_line. cbv zeta.
  destruct (is_empty (strip (rstrip_crlf raw))).
  - exists st. split; reflexivity.
  - change (snd (Diagnostic.POS change_flag)) with 59.
    destruct (len (rstrip_crlf raw) <? 59).
    + eexists. split; [reflexivity|]. split; [reflexivity|]. split; reflexivity.
    + destruct (DG_extract_fields_eq (rstrip_crlf raw) st) as [flds [Ex _]].
      unfold bind at 1. unfold try_M. unfold bind at 1. rewrite Ex. unfold ret at 1.
      match goal with
      | |- context [Diagnostic.validate ?a ?b ?c ?d ?e ?f ?s] =>
          destruct (DG_validate_cases a b c d e f s) as [st' [Ev _]]
      end.
      exists st'. split; [exact Ev|].
      eexists flds, _. split; [reflexivity|].
      split; [split; reflexivity|]. exact Ev.
Qed.

Lemma DG_process_line_outcomes fname date_tag lineno raw st :
  exists st',
    Diagnostic.process_line fname date_tag lineno raw st = (Ok tt, st')
    /\ outcomes st' = (outcomes st + (if nonblank_text raw then 1 else 0))%nat.
Proof.
  destruct (DG_process_line_cases fname date_tag lineno raw st) as [st' [E C]].
  exists st'. split; [exact E|]. cbv zeta in C.
  unfold nonblank_text, outcomes.
  destruct (is_empty (strip (rstrip_crlf raw))); cbn [negb].
  - subst st'. lia.
  - destruct (len (rstrip_crlf raw) <? 59).
    + destruct C as [_ [Hr Hd]]. rewrite Hr, Hd, length_app. cbn. lia.
    + destruct C as [flds [st1 [_ [[Hr1 Hd1] Ev]]]].
      destruct (DG_validate_cases fname date_tag lineno raw flds
                  (Diagnostic.parse_9digit_price (Some (close_raw flds))) st1)
        as [st'' [Ev' [_ Hc]]].
      rewrite Ev in Ev'. injection Ev' as <-.
      rewrite <- Hr1, <- Hd1.
      destruct (sid flds); [destruct Hc as [-> ->]; rewrite length_app; cbn; lia|].
      destruct (Diagnostic.parse_9digit_price (Some (close_raw flds))) as [v|];
        [|destruct Hc as [-> ->]; rewrite length_app; cbn; lia].
      destruct (Diagnostic.sane_price (Some v));
        destruct Hc as [-> ->]; rewrite length_app; cbn; lia.
Qed.

Lemma DG_process_lines_outcomes fname date_tag lines :
  forall lineno st,
  exists st',
    Diagnostic.process_lines fname date_tag lineno lines st = (Ok tt, st')
    /\ outcomes st' = (outcomes st + count nonblank_text lines)%nat.
Proof.
  induction lines as [|raw rest IH]; intros lineno st.
  - exists st. split; [reflexivity|]. unfold count. cbn. lia.
  - destruct (DG_process_line_outcomes fname date_tag lineno raw st) as [st1 [E1 O1]].
    destruct (IH (lineno + 1) st1) as [st' [E2 O2]].
    exists st'. cbn [Diagnostic.process_lines]. unfold bind. rewrite E1.
    split; [exact E2|]. rewrite O2, O1. unfold count. cbn [filter].
    destruct (nonblank_text raw); cbn [length]; lia.
Qed.

(** * The count of outcomes (C1) *)

(** A non-empty line gets one outcome, a row or a diagnostic and not both;
    an empty line gets none. *)
Lemma BL_process_line_one_outcome `{Codec} fname date_tag verbose lineno sc raw st :
  exists sc' st',
    ByteLevel.process_line fname date_tag verbose lineno sc raw st = (Ok sc', st')
    /\ if nonempty_bytes raw
       then (exists r, appended_row st st' r) \/ (exists d, appended_diag st st' d)
       else appended_nothing st st'.
Proof.
  destruct (BL_process_line_cases fname date_tag verbose lineno sc raw st)
    as [sc' [st' [E C]]].
  exists sc', st'. split; [exact E|]. cbv zeta in C. unfold nonempty_bytes.
  destruct (is_empty (rstrip_crlf_bytes raw)); cbn [negb].
  - subst st'. split; reflexivity.
  - destruct (len (rstrip_crlf_bytes raw) <? 59).
    + destruct C as [_ [p [_ Hd]]]. right. eexists. exact Hd.
    + destruct C as [flds [st1 [st2 [_ [[Hr2 Hd2] [_ Ev]]]]]].
      destruct (BL_validate_cases fname date_tag lineno (rstrip_crlf_bytes raw) flds
                  (ByteLevel.parse_9digit_price (close_raw flds)) st2)
        as [st'' [p [Ev' [_ [_ Hc]]]]].
      rewrite Ev in Ev'. injection Ev' as <-.
      unfold appended_row, appended_diag in *. rewrite <- Hr2, <- Hd2.
      destruct (sid flds); [right; eexists; exact Hc|].
      destruct (ByteLevel.parse_9digit_price (close_raw flds)) as [v|];
        [|right; eexists; exact Hc].
      destruct (ByteLevel.sane_price (Some v));
        [left | right]; eexists; exact Hc.
Qed.

Lemma DG_process_line_one_outcome fname date_tag lineno raw st :
  exists st',
    Diagnostic.process_line fname date_tag lineno raw st = (Ok tt, st')
    /\ if nonblank_text raw
       then (exists r, appended_row st st' r) \/ (exists d, appended_diag st st' d)
       else appended_nothing st st'.
Proof.
  destruct (DG_process_line_cases fname date_tag lineno raw st) as [st' [E C]].
  exists st'. split; [exact E|]. cbv zeta in C. unfold nonblank_text.
  destruct (is_empty (strip (rstrip_crlf raw))); cbn [negb].
  - subst st'. split; reflexivity.
  - destruct (len (rstrip_crlf raw) <? 59).
    + destruct C as [_ Hd]. right. eexists. exact Hd.
    + destruct C as [flds [st1 [_ [[Hr1 Hd1] Ev]]]].
      destruct (DG_validate_cases fname date_tag lineno raw flds
                  (Diagnostic.parse_9digit_price (Some (close_raw flds))) st1)
        as [st'' [Ev' [_ Hc]]].
      rewrite Ev in Ev'. injection Ev' as <-.
      unfold appended_row, appended_diag in *. rewrite <- Hr1, <- Hd1.
      destruct (sid flds); [right; eexists; exact Hc|].
      destruct (Diagnostic.parse_9digit_price (Some (close_raw flds))) as [v|];
        [|right; eexists; exact Hc].
      destruct (Diagnostic.sane_price (Some v));
        [left | right]; eexists; exact Hc.
Qed.

Lemma appended_row_not_diag (st st' : buffers) (r : row) (d : diag) :
  appended_row st st' r -> appended_diag st st' d -> False.
Proof.
  intros [Hr _] [Hr' _]. rewrite Hr' in Hr.
  apply (f_equal (@length _)) in Hr. rewrite length_app in Hr. cbn in Hr. lia.
Qed.

(** C1, as the scripts have it: when the file can be read, the number of
    rows plus the number of diagnostics that [process_file] appends is the
    number of lines after the first that are non-empty once their line end
    is stripped (byte-level script), respectively that hold a character
    other than white space (diagnostic script, which skips blank lines
    without a diagnostic); every such line gets exactly one outcome.  When
    the file cannot be read, one file-level diagnostic with line number 0 is
    appended and nothing else. *)
Theorem process_file_outcome_count `{Codec}
    (path : Path) (date_tag : pystr) (verbose : bool) (st : buffers) :
  match stored path with
  | Ok data =>
      (exists st',
         ByteLevel.process_file path date_tag verbose st = (Ok tt, st')
         /\ outcomes st'
            = (outcomes st
               + count nonempty_bytes (tl (split_lines (Byte.eqb x0a) data)))%nat)
      /\ (exists text st',
            py_decode Replace data = Ok text
            /\ Diagnostic.process_file path date_tag st = (Ok tt, st')
            /\ outcomes st'
               = (outcomes st
                  + count nonblank_text
                      (tl (split_lines (N.eqb 10) (universal_newlines text))))%nat)
  | Raise e =>
      (exists st',
         ByteLevel.process_file path date_tag verbose st = (Ok tt, st')
         /\ appended_diag st st'
              (mk_diag (path_name path) 0 (file_read_error e) [] []))
      /\ (exists st',
            Diagnostic.process_file path date_tag st = (Ok tt, st')
            /\ appended_diag st st'
                 (mk_diag (path_name path) 0 (file_read_error e) [] []))
  end
  /\ (forall lineno sc raw st0,
        exists sc' st',
          ByteLevel.process_line (path_name path) date_tag verbose lineno sc raw st0
          = (Ok sc', st')
          /\ if nonempty_bytes raw
             then (exists r, appended_row st0 st' r /\ forall d, ~ appended_diag st0 st' d)
                  \/ (exists d, appended_diag st0 st' d /\ forall r, ~ appended_row st0 st' r)
             else appended_nothing st0 st')
  /\ (forall lineno raw st0,
        exists st',
          Diagnostic.process_line (path_name path) date_tag lineno raw st0
          = (Ok tt, st')
          /\ if nonblank_text raw
             then (exists r, appended_row st0 st' r /\ forall d, ~ appended_diag st0 st' d)
                  \/ (exists d, appended_diag st0 st' d /\ forall r, ~ appended_row st0 st' r)
             else appended_nothing st0 st').
Proof.
  split; [|split].
  - unfold ByteLevel.process_file, Diagnostic.process_file, try_M, bind, lift.
    unfold open_rb_readlines, open_text_lines.
    destruct (stored path) as [data|e]; cbn [rbind].
    + split.
      * rewrite py_slice_from_1.
        destruct (BL_process_lines_outcomes (path_name path) date_tag verbose
                    (tl (split_lines (Byte.eqb x0a) data)) 2 0%nat st)
          as [st' [E O]].
        exists st'. unfold bytes in *. rewrite E. split; [reflexivity | exact O].
      * destruct (py_decode_replace_total data) as [text Et].
        rewrite Et. cbn [rbind]. rewrite py_slice_from_1.
        destruct (DG_process_lines_outcomes (path_name path) date_tag
                    (tl (split_lines (N.eqb 10) (universal_newlines text))) 2 st)
          as [st' [E O]].
        exists text, st'. unfold pystr, char in *. rewrite E.
        split; [reflexivity|]. split; [reflexivity | exact O].
    + split; (eexists; split; [reflexivity | split; reflexivity]).
  - intros lineno sc raw st0.
    destruct (BL_process_line_one_outcome (path_name path) date_tag verbose
                lineno sc raw st0) as [sc' [st' [E C]]].
    exists sc', st'. split; [exact E|].
    destruct (nonempty_bytes raw); [|exact C].
    destruct C as [[r Hr]|[d Hd]].
    + left. exists r. split; [exact Hr|].
      intros d Hd. exact (appended_row_not_diag _ _ _ _ Hr Hd).
    + right. exists d. split; [exact Hd|].
      intros r Hr. exact (appended_row_not_diag _ _ _ _ Hr Hd).
  - intros lineno raw st0.
    destruct (DG_process_line_one_outcome (path_name path) date_tag lineno raw st0)
      as [st' [E C]].
    exists st'. split; [exact E|].
    destruct (nonblank_text raw); [|exact C].
    destruct C as [[r Hr]|[d Hd]].
    + left. exists r. split; [exact Hr|].
      intros d Hd. exact (appended_row_not_diag _ _ _ _ Hr Hd).
    + right. exists d. split; [exact Hd|].
      intros r Hr. exact (appended_row_not_diag _ _ _ _ Hr Hd).
Qed.

(** C1 as stated fails: in the diagnostic script a line of blanks is a
    non-empty line that gets no outcome, and for a file that cannot be read
    a diagnostic is appended though no line was read. *)
Lemma process_file_outcome_count_counterexample :
  (exists lines st',
     @open_text_lines ascii_only blank_line_file = Ok lines
     /\ @Diagnostic.process_file ascii_only blank_line_file (lit "20200420") empty_buffers
        = (Ok tt, st')
     /\ count nonempty_text (tl lines) = 1%nat
     /\ outcomes st' = 0%nat
     /\ outcomes st' <> (outcomes empty_buffers + count nonempty_text (tl lines))%nat)
  /\ (exists st',
        stored unreadable_file = Raise OSError
        /\ @ByteLevel.process_file ascii_only unreadable_file (lit "20200420") false
             empty_buffers
           = (Ok tt, st')
        /\ outcomes st' = 1%nat).
Proof.
  split.
  - eexists _, _. split; [vm_compute; reflexivity|].
    split; [vm_compute; reflexivity|].
    split; [reflexivity|]. split; [reflexivity|]. vm_compute. discriminate.
  - eexists. split; [reflexivity|]. split; [vm_compute; reflexivity|]. reflexivity.
Qed.

(** * Short lines (C2) *)

(** C2, as the scripts have it: a line that is non-empty but shorter than
    the largest field end, 59, is rejected at once, with one diagnostic and
    without any field being sliced.  The byte-level script counts bytes and
    gives the reason [line_too_short]; the diagnostic script counts
    characters, skips a line of white space before the check, and gives the
    reason [padded_short_line]. *)
Theorem short_line_rejected `{Codec}
    (fname date_tag : pystr) (verbose : bool) (lineno : Z) (sample_count : nat)
    (raw : bytes) (raw_text : pystr) (st : buffers)
    (Hnonempty : rstrip_crlf_bytes raw <> [])
    (Hshort : len (rstrip_crlf_bytes raw) < 59)
    (Hnonblank : strip (rstrip_crlf raw_text) <> [])
    (Hshort_text : len (rstrip_crlf raw_text) < 59) :
  (exists sc' st' preview,
     ByteLevel.process_line fname date_tag verbose lineno sample_count raw st
     = (Ok sc', st')
     /\ sliced st' = sliced st
     /\ appended_diag st st' (mk_diag fname lineno line_too_short preview []))
  /\ (exists st',
        Diagnostic.process_line fname date_tag lineno raw_text st = (Ok tt, st')
        /\ sliced st' = sliced st
        /\ appended_diag st st'
             (mk_diag fname lineno padded_short_line
                (py_slice raw_text None (Some 200)) []))
  /\ (forall f, snd (ByteLevel.BYTE_POS f) <= 59 /\ snd (Diagnostic.POS f) <= 59)
  /\ snd (ByteLevel.BYTE_POS change_flag) = 59.
Proof.
  split; [|split; [|split; [intros []; cbn; lia | reflexivity]]].
  - destruct (BL_process_line_cases fname date_tag verbose lineno sample_count raw st)
      as [sc' [st' [E C]]].
    cbv zeta in C.
    apply is_empty_false in Hnonempty. rewrite Hnonempty in C.
    apply Z.ltb_lt in Hshort. rewrite Hshort in C.
    destruct C as [Hs [p [_ Hd]]].
    exists sc', st', p. repeat split; try assumption; apply Hd.
  - destruct (DG_process_line_cases fname date_tag lineno raw_text st) as [st' [E C]].
    cbv zeta in C.
    apply is_empty_false in Hnonblank. rewrite Hnonblank in C.
    apply Z.ltb_lt in Hshort_text. rewrite Hshort_text in C.
    destruct C as [Hs Hd].
    exists st'. repeat split; try assumption; apply Hd.
Qed.

Lemma short_line_rejected_witness :
  (exists sc' st' preview,
     @ByteLevel.process_line ascii_only (lit "f") (lit "20200420") true 2 0
       (bytes_lit "001240" ++ [x0d; x0a]) empty_buffers
     = (Ok sc', st')
     /\ sliced st' = []
     /\ debug_rows st' = [mk_diag (lit "f") 2 line_too_short preview []])
  /\ exists st',
       Diagnostic.process_line (lit "f") (lit "20200420") 2
         (lit "001240" ++ [10%N]) empty_buffers
       = (Ok tt, st')
       /\ sliced st' = []
       /\ debug_rows st'
          = [mk_diag (lit "f") 2 padded_short_line (lit "001240" ++ [10%N]) []].
Proof.
  destruct (@short_line_rejected ascii_only (lit "f") (lit "20200420") true 2 0%nat
              (bytes_lit "001240" ++ [x0d; x0a]) (lit "001240" ++ [10%N])
              empty_buffers)
    as [[sc' [st' [p [E [Hs [_ Hd]]]]]] [[st'' [E' [Hs' [_ Hd']]]] _]].
  - vm_compute. discriminate.
  - vm_compute. reflexivity.
  - vm_compute. discriminate.
  - vm_compute. reflexivity.
  - split.
    + exists sc', st', p. repeat split; assumption.
    + exists st''. repeat split; assumption.
Defined.

(** C2 as stated fails on the diagnostic script: its reason for a short
    line is [padded_short_line], not [line_too_short]. *)
Lemma short_line_rejected_counterexample :
  exists st' d,
    Diagnostic.process_line (lit "f") (lit "20200420") 2
      (lit "001240" ++ [10%N]) empty_buffers
    = (Ok tt, st')
    /\ len (rstrip_crlf (lit "001240" ++ [10%N])) = 6
    /\ debug_rows st' = [d]
    /\ d_reason d = padded_short_line
    /\ d_reason d <> line_too_short.
Proof.
  eexists _, _. split; [vm_compute; reflexivity|].
  split; [reflexivity|]. split; [reflexivity|]. split; [reflexivity|].
  discriminate.
Qed.

(** * The validation block (C3, C6, C10) *)

Lemma sane_price_true_iff (v : Q) :
  ByteLevel.sane_price (Some v) = true
  <-> (ByteLevel.MIN_PRICE <= v /\ v <= ByteLevel.MAX_PRICE)%Q.
Proof.
  unfold ByteLevel.sane_price. rewrite andb_true_iff, !Qle_bool_iff. tauto.
Qed.

Lemma sane_price_false_iff (v : Q) :
  ByteLevel.sane_price (Some v) = false
  <-> (v < ByteLevel.MIN_PRICE \/ ByteLevel.MAX_PRICE < v)%Q.
Proof.
  rewrite <- not_true_iff_false, sane_price_true_iff. split.
  - intros Hn. destruct (Qlt_le_dec v ByteLevel.MIN_PRICE) as [Hl|Hl]; [now left|].
    destruct (Qlt_le_dec ByteLevel.MAX_PRICE v) as [Hh|Hh]; [now right|].
    elim Hn. split; assumption.
  - intros [Hl|Hh] [H1 H2].
    + exact (Qlt_not_le _ _ Hl H1).
    + exact (Qlt_not_le _ _ Hh H2).
Qed.

Lemma appended_row_after (st st2 st' : buffers) (r : row) :
  appended_nothing st st2 -> appended_row st2 st' r -> appended_row st st' r.
Proof. intros [Hr Hd] [Hr' Hd']. split; congruence. Qed.

Lemma appended_diag_after (st st2 st' : buffers) (d : diag) :
  appended_nothing st st2 -> appended_diag st2 st' d -> appended_diag st st' d.
Proof. intros [Hr Hd] [Hr' Hd']. split; congruence. Qed.

Lemma appended_diag_unique (st st' : buffers) (d1 d2 : diag) :
  appended_diag st st' d1 -> appended_diag st st' d2 -> d1 = d2.
Proof.
  intros [_ H1] [_ H2]. rewrite H1 in H2. apply app_inv_head in H2. congruence.
Qed.

(** A line of at least 59 bytes reaches the validation block with the
    fields that [extract_fields] returns. *)
Lemma BL_process_line_long `{Codec} fname date_tag verbose lineno sc raw st flds st1 :
  59 <= len (rstrip_crlf_bytes raw) ->
  ByteLevel.extract_fields (rstrip_crlf_bytes raw) st = (Ok flds, st1) ->
  exists sc' st2 st' preview,
    ByteLevel.process_line fname date_tag verbose lineno sc raw st = (Ok sc', st')
    /\ appended_nothing st st2
    /\ py_decode Replace (py_slice (rstrip_crlf_bytes raw) None (Some 100)) = Ok preview
    /\ match sid flds, ByteLevel.parse_9digit_price (close_raw flds) with
       | [], _ =>
           appended_diag st2 st'
             (mk_diag fname lineno empty_stock_id preview (close_raw flds))
       | _ :: _, None =>
           appended_diag st2 st'
             (mk_diag fname lineno close_unparseable preview (close_raw flds))
       | _ :: _, Some v =>
           if ByteLevel.sane_price (Some v) then
             appended_row st2 st'
               {| r_date := date_tag; r_stock_id := sid flds;
                  r_closing_price := format_4f v;
                  r_change_flag := strip (change_sym flds);
                  r_stock_name := sname flds;
                  r_source_file := fname; r_line_no := lineno |}
           else
             appended_diag st2 st'
               (mk_diag fname lineno (close_out_of_bounds v) preview (close_raw flds))
       end.
Proof.
  intros Hlen Hex.
  destruct (BL_process_line_cases fname date_tag verbose lineno sc raw st)
    as [sc' [st' [E C]]].
  cbv zeta in C.
  assert (Hne : is_empty (rstrip_crlf_bytes raw) = false).
  { destruct (rstrip_crlf_bytes raw); [cbn in Hlen; lia | reflexivity]. }
  rewrite Hne in C.
  destruct (Z.ltb_spec (len (rstrip_crlf_bytes raw)) 59); [lia|].
  destruct C as [flds' [st1' [st2 [Hex' [Hn [_ Ev]]]]]].
  rewrite Hex in Hex'. injection Hex' as <- <-.
  destruct (BL_validate_cases fname date_tag lineno (rstrip_crlf_bytes raw) flds
              (ByteLevel.parse_9digit_price (close_raw flds)) st2)
    as [st'' [p [Ev' [_ [Ep Hc]]]]].
  rewrite Ev in Ev'. injection Ev' as <-.
  exists sc', st2, st', p. repeat split; try assumption; apply Hn.
Qed.

(** C3: with a non-empty identifier and a closing price [v], the validation
    block appends the row when [MIN_PRICE <= v <= MAX_PRICE], both ends
    included, and appends a diagnostic with reason [close_out_of_bounds v]
    when [v < MIN_PRICE] or [MAX_PRICE < v].  The same holds for
    [process_line] on a line of at least 59 bytes whose identifier is
    non-empty and whose closing price parses to [v]. *)
Theorem close_price_bounds `{Codec}
    (fname date_tag : pystr) (verbose : bool) (lineno : Z) (sample_count : nat)
    (raw : bytes) (flds : decoded_fields) (v : Q) (st st1 : buffers)
    (Hlen : 59 <= len (rstrip_crlf_bytes raw))
    (Hextract : ByteLevel.extract_fields (rstrip_crlf_bytes raw) st = (Ok flds, st1))
    (Hsid : sid flds <> [])
    (Hparse : ByteLevel.parse_9digit_price (close_raw flds) = Some v) :
  let accepted (w : Q) :=
    {| r_date := date_tag; r_stock_id := sid flds;
       r_closing_price := format_4f w;
       r_change_flag := strip (change_sym flds);
       r_stock_name := sname flds;
       r_source_file := fname; r_line_no := lineno |} in
  (exists sc' st' preview,
     ByteLevel.process_line fname date_tag verbose lineno sample_count raw st
     = (Ok sc', st')
     /\ ((ByteLevel.MIN_PRICE <= v /\ v <= ByteLevel.MAX_PRICE)%Q ->
         appended_row st st' (accepted v))
     /\ ((v < ByteLevel.MIN_PRICE \/ ByteLevel.MAX_PRICE < v)%Q ->
         appended_diag st st'
           (mk_diag fname lineno (close_out_of_bounds v) preview (close_raw flds))))
  /\ (forall (w : Q) (st0 : buffers),
        exists st' preview,
          ByteLevel.validate fname date_tag lineno (rstrip_crlf_bytes raw) flds
            (Some w) st0
          = (Ok tt, st')
          /\ ((ByteLevel.MIN_PRICE <= w /\ w <= ByteLevel.MAX_PRICE)%Q ->
              appended_row st0 st' (accepted w))
          /\ ((w < ByteLevel.MIN_PRICE \/ ByteLevel.MAX_PRICE < w)%Q ->
              appended_diag st0 st'
                (mk_diag fname lineno (close_out_of_bounds w) preview (close_raw flds))))
  /\ ByteLevel.sane_price (Some ByteLevel.MIN_PRICE) = true
  /\ ByteLevel.sane_price (Some ByteLevel.MAX_PRICE) = true.
Proof.
  cbv zeta. split; [|split; [|split; reflexivity]].
  - destruct (BL_process_line_long fname date_tag verbose lineno sample_count raw st
                flds st1 Hlen Hextract) as [sc' [st2 [st' [p [E [Hn [_ Hc]]]]]]].
    rewrite Hparse in Hc.
    destruct (sid flds) as [|c0 s0] eqn:Es; [congruence|].
    exists sc', st', p. split; [exact E|]. split.
    + intros Hin. apply sane_price_true_iff in Hin. rewrite Hin in Hc.
      exact (appended_row_after _ _ _ _ Hn Hc).
    + intros Hout. apply sane_price_false_iff in Hout. rewrite Hout in Hc.
      exact (appended_diag_after _ _ _ _ Hn Hc).
  - intros w st0.
    destruct (BL_validate_cases fname date_tag lineno (rstrip_crlf_bytes raw) flds
                (Some w) st0) as [st' [p [E [_ [_ Hc]]]]].
    destruct (sid flds) as [|c0 s0] eqn:Es; [congruence|].
    exists st', p. split; [exact E|]. split.
    + intros Hin. apply sane_price_true_iff in Hin. now rewrite Hin in Hc.
    + intros Hout. apply sane_price_false_iff in Hout. now rewrite Hout in Hc.
Qed.

Lemma close_price_bounds_witness :
  exists sc' st',
    @ByteLevel.process_line ascii_only (lit "f") (lit "20200420") false 2 0
      (quote_line_1240 ++ [x0d; x0a]) empty_buffers
    = (Ok sc', st')
    /\ rows st'
       = [{| r_date := lit "20200420"; r_stock_id := lit "001240";
             r_closing_price := lit "39.8000"; r_change_flag := lit "+";
             r_stock_name := lit "TESTNAME"; r_source_file := lit "f";
             r_line_no := 2 |}]
    /\ exists st'' preview,
         @ByteLevel.validate ascii_only (lit "f") (lit "20200420") 2 quote_line_1240
           {| sid := lit "001240"; sname := lit "TESTNAME";
              close_raw := lit "000398000"; change_sym := lit "+" |}
           (Some (2000000 # 1)) empty_buffers
         = (Ok tt, st'')
         /\ debug_rows st''
            = [mk_diag (lit "f") 2 (close_out_of_bounds (2000000 # 1)) preview
                 (lit "000398000")].
Proof.
  destruct (@close_price_bounds ascii_only (lit "f") (lit "20200420") false 2 0%nat
              (quote_line_1240 ++ [x0d; x0a])
              {| sid := lit "001240"; sname := lit "TESTNAME";
                 close_raw := lit "000398000"; change_sym := lit "+" |}
              (398000 # 10000) empty_buffers
              {| rows := []; debug_rows := [];
                 sliced := [stock_id; stock_name; close_price_raw; change_flag] |})
    as [[sc' [st' [p [E [Hin _]]]]] [Hval _]].
  - vm_compute. discriminate.
  - vm_compute. reflexivity.
  - discriminate.
  - vm_compute. reflexivity.
  - destruct (Hval (2000000 # 1) empty_buffers) as [st'' [p' [E' [_ Hout]]]].
    exists sc', st'. split; [exact E|]. split.
    + destruct Hin as [Hr _]; [split; vm_compute; discriminate|]. exact Hr.
    + exists st'', p'. split; [exact E'|].
      destruct Hout as [_ Hd]; [right; vm_compute; reflexivity|]. exact Hd.
Defined.

(** C6, as the script has it: a string without a decimal digit (the empty
    string and the strings of blanks among them) decodes to [None], not to
    zero.  A line of at least 59 bytes whose closing-price field is such a
    string is never accepted and never reported as out of bounds: it gets
    one diagnostic, with reason [close_unparseable] when its identifier is
    non-empty, and with reason [empty_stock_id], the check made first, when
    its identifier is empty. *)
Theorem no_digit_close_unparseable `{Codec}
    (fname date_tag : pystr) (verbose : bool) (lineno : Z) (sample_count : nat)
    (raw : bytes) (flds : decoded_fields) (st st1 : buffers)
    (Hlen : 59 <= len (rstrip_crlf_bytes raw))
    (Hextract : ByteLevel.extract_fields (rstrip_crlf_bytes raw) st = (Ok flds, st1))
    (Hnodigit : forall c, In c (close_raw flds) -> is_ascii_digit c = false) :
  (forall s : pystr,
     (forall c, In c s -> is_ascii_digit c = false) ->
     ByteLevel.parse_9digit_price s = None)
  /\ ByteLevel.parse_9digit_price [] = None
  /\ (forall k, ByteLevel.parse_9digit_price (repeat 32%N k) = None)
  /\ ByteLevel.parse_9digit_price (close_raw flds) = None
  /\ exists sc' st' preview,
       ByteLevel.process_line fname date_tag verbose lineno sample_count raw st
       = (Ok sc', st')
       /\ appended_diag st st'
            (mk_diag fname lineno
               (if is_empty (sid flds) then empty_stock_id else close_unparseable)
               preview (close_raw flds)).
Proof.
  assert (P : forall s : pystr,
             (forall c, In c s -> is_ascii_digit c = false) ->
             ByteLevel.parse_9digit_price s = None).
  { intros s Hs. apply parse_9digit_price_no_digit. now apply no_digit_iff. }
  split; [exact P|]. split; [reflexivity|]. split.
  { intros k. apply P. intros c Hc. apply repeat_spec in Hc. now subst c. }
  split; [exact (P _ Hnodigit)|].
  destruct (BL_process_line_long fname date_tag verbose lineno sample_count raw st
              flds st1 Hlen Hextract) as [sc' [st2 [st' [p [E [Hn [_ Hc]]]]]]].
  rewrite (P _ Hnodigit) in Hc.
  exists sc', st', p. split; [exact E|].
  destruct (sid flds); cbn [is_empty]; exact (appended_diag_after _ _ _ _ Hn Hc).
Qed.

Lemma no_digit_close_unparseable_witness :
  exists sc' st' preview,
    @ByteLevel.process_line ascii_only (lit "f") (lit "20200420") false 2 0
      (quote_line_blank_close ++ [x0d; x0a]) empty_buffers
    = (Ok sc', st')
    /\ rows st' = []
    /\ debug_rows st' = [mk_diag (lit "f") 2 close_unparseable preview []].
Proof.
  destruct (@no_digit_close_unparseable ascii_only (lit "f") (lit "20200420") false 2
              0%nat (quote_line_blank_close ++ [x0d; x0a])
              {| sid := lit "001240"; sname := lit "TESTNAME";
                 close_raw := []; change_sym := lit "+" |}
              empty_buffers
              {| rows := []; debug_rows := [];
                 sliced := [stock_id; stock_name; close_price_raw; change_flag] |})
    as [_ [_ [_ [_ [sc' [st' [p [E [Hr Hd]]]]]]]]].
  - vm_compute. discriminate.
  - vm_compute. reflexivity.
  - intros c [].
  - exists sc', st', p. split; [exact E|]. split; [exact Hr | exact Hd].
Defined.

(** C6 as stated fails: a line whose closing-price field has no digit and
    whose identifier is empty is rejected as [empty_stock_id], not as
    [close_unparseable]. *)
Lemma no_digit_close_unparseable_counterexample :
  exists sc' st' d,
    @ByteLevel.slice_bytes ascii_only quote_line_all_blank 49 58 = Ok []
    /\ ByteLevel.parse_9digit_price [] = None
    /\ @ByteLevel.process_line ascii_only (lit "f") (lit "20200420") false 2 0
         (quote_line_all_blank ++ [x0d; x0a]) empty_buffers
       = (Ok sc', st')
    /\ debug_rows st' = [d]
    /\ d_reason d = empty_stock_id
    /\ d_reason d <> close_unparseable.
Proof.
  eexists _, _, _. split; [vm_compute; reflexivity|]. split; [reflexivity|].
  split; [vm_compute; reflexivity|]. split; [reflexivity|].
  split; [reflexivity | discriminate].
Qed.

(** C10: a decoded price lies between 0 and 99999.9999, with a whole part
    of at most 99999 and a fraction below 1; so it never exceeds
    [MAX_PRICE], [sane_price] rejects it only when it is below [MIN_PRICE],
    and every [close_out_of_bounds] diagnostic that [process_line] appends
    carries a value below [MIN_PRICE]. *)
Theorem parsed_price_range `{Codec}
    (raw_str : pystr) (v : Q)
    (Hparse : ByteLevel.parse_9digit_price raw_str = Some v) :
  (0 <= v /\ v <= 999999999 # 10000)%Q
  /\ 0 <= whole_part v <= 99999
  /\ (0 <= v - inject_Z (whole_part v) /\ v - inject_Z (whole_part v) < 1)%Q
  /\ 0 <= fraction_part v < 10000
  /\ (v <= ByteLevel.MAX_PRICE)%Q
  /\ (ByteLevel.sane_price (Some v) = false -> (v < ByteLevel.MIN_PRICE)%Q)
  /\ (forall fname date_tag verbose lineno sc raw st sc' st' d w,
        ByteLevel.process_line fname date_tag verbose lineno sc raw st = (Ok sc', st') ->
        appended_diag st st' d ->
        d_reason d = close_out_of_bounds w ->
        (w < ByteLevel.MIN_PRICE)%Q).
Proof.
  assert (R : forall s w, ByteLevel.parse_9digit_price s = Some w ->
              (0 <= w /\ w <= 999999999 # 10000)%Q
              /\ 0 <= whole_part w <= 99999
              /\ (0 <= w - inject_Z (whole_part w)
                  /\ w - inject_Z (whole_part w) < 1)%Q
              /\ 0 <= fraction_part w < 10000
              /\ (w <= ByteLevel.MAX_PRICE)%Q
              /\ (ByteLevel.sane_price (Some w) = false -> (w < ByteLevel.MIN_PRICE)%Q)).
  { intros s w Hs. destruct (parse_9digit_price_grid s w Hs) as [n [-> Hn]].
    change (10 ^ 9) with 1000000000 in Hn.
    assert (Hmax : (n # 10000 <= ByteLevel.MAX_PRICE)%Q)
      by (unfold Qle, ByteLevel.MAX_PRICE; cbn [Qnum Qden]; lia).
    split; [split; unfold Qle; cbn [Qnum Qden]; lia|].
    split.
    { rewrite whole_part_grid. split.
      - apply Z.div_pos; lia.
      - apply Z.lt_succ_r. apply Z.div_lt_upper_bound; lia. }
    split.
    { rewrite whole_part_grid.
      unfold Qle, Qlt, Qminus, Qplus, Qopp, inject_Z. cbn [Qnum Qden].
      pose proof (Z.div_mod n 10000 ltac:(lia)) as Hdm.
      pose proof (Z.mod_pos_bound n 10000 ltac:(lia)) as Hmb.
      change (Z.pos (10000 * 1)) with 10000. lia. }
    split; [rewrite fraction_part_grid; apply Z.mod_pos_bound; lia|].
    split; [exact Hmax|].
    intros Hf. apply sane_price_false_iff in Hf as [Hl|Hh]; [exact Hl|].
    elim (Qlt_not_le _ _ Hh Hmax). }
  destruct (R raw_str v Hparse) as [R1 [R2 [R3 [R4 [R5 R6]]]]].
  repeat (split; [assumption|]).
  intros fname date_tag verbose lineno sc raw st sc' st' d w E Hd Hw.
  destruct (BL_process_line_cases fname date_tag verbose lineno sc raw st)
    as [sc0 [st0 [E0 C]]].
  rewrite E in E0. injection E0 as <- <-. cbv zeta in C.
  destruct (is_empty (rstrip_crlf_bytes raw)) eqn:Hemp.
  - subst st'. destruct Hd as [_ Hd]. apply (f_equal (@length _)) in Hd.
    rewrite length_app in Hd. cbn in Hd. lia.
  - destruct (Z.ltb_spec (len (rstrip_crlf_bytes raw)) 59) as [Hlt|Hge].
    + destruct C as [_ [p [_ Hd']]].
      rewrite (appended_diag_unique _ _ _ _ Hd Hd') in Hw. discriminate.
    + destruct C as [flds [st1 [_ [Hex _]]]].
      destruct (BL_process_line_long fname date_tag verbose lineno sc raw st
                  flds st1 Hge Hex) as [sc1 [st2 [st1' [p [E1 [Hn [_ Hc]]]]]]].
      rewrite E in E1. injection E1 as <- <-.
      destruct (sid flds).
      { apply (appended_diag_after _ _ _ _ Hn) in Hc.
        rewrite (appended_diag_unique _ _ _ _ Hd Hc) in Hw. discriminate. }
      destruct (ByteLevel.parse_9digit_price (close_raw flds)) as [u|] eqn:Hu.
      2:{ apply (appended_diag_after _ _ _ _ Hn) in Hc.
          rewrite (appended_diag_unique _ _ _ _ Hd Hc) in Hw. discriminate. }
      destruct (ByteLevel.sane_price (Some u)) eqn:Hsane.
      { apply (appended_row_after _ _ _ _ Hn) in Hc.
        elim (appended_row_not_diag _ _ _ _ Hc Hd). }
      apply (appended_diag_after _ _ _ _ Hn) in Hc.
      rewrite (appended_diag_unique _ _ _ _ Hd Hc) in Hw.
      cbn in Hw. injection Hw as <-.
      destruct (R _ _ Hu) as [_ [_ [_ [_ [_ Hlow]]]]]. exact (Hlow Hsane).
Qed.

Lemma parsed_price_range_witness :
  ByteLevel.parse_9digit_price (lit "000000000") = Some (0 # 10000)
  /\ (0 # 10000 < ByteLevel.MIN_PRICE)%Q
  /\ (0 # 10000 <= ByteLevel.MAX_PRICE)%Q.
Proof.
  destruct (@parsed_price_range ascii_only (lit "000000000") (0 # 10000) eq_refl)
    as [_ [_ [_ [_ [Hmax [Hlow _]]]]]].
  split; [reflexivity|]. split; [apply Hlow; reflexivity | exact Hmax].
Defined.

(** * Facts about the date resolver (C7) *)

Section DateFacts.
Context `{Codec} `{UnicodeDB} `{Calendar}.

Lemma match_digits_spec (k : nat) (s g : pystr) :
  match_digits k s = Some g ->
  g = firstn k s /\ length g = k /\ forallb isdecimal g = true.
Proof.
  unfold match_digits.
  destruct (Nat.leb_spec k (length s)) as [Hk|Hk]; cbn [andb]; [|discriminate].
  destruct (forallb isdecimal (firstn k s)) eqn:Hd; [|discriminate].
  intros E. injection E as <-. repeat split; [|exact Hd].
  rewrite length_firstn. lia.
Qed.

(** A match of the header pattern is a run of eight digits of the line. *)
Lemma re_search_8digits_spec (s g : pystr) :
  re_search_8digits s = Some g ->
  is_date8 g /\ exists pre post, s = pre ++ g ++ post.
Proof.
  induction s as [|c s IH]; cbn [re_search_8digits].
  - unfold match_digits. cbn. discriminate.
  - destruct (match_digits 8 (c :: s)) as [g0|] eqn:E.
    + intros Hg. injection Hg as <-.
      apply match_digits_spec in E as [Eg [El Ed]].
      split; [split; assumption|].
      exists [], (skipn 8 (c :: s)). rewrite Eg. cbn [app].
      symmetry. apply firstn_skipn.
    + intros Hg. destruct (IH Hg) as [Hd [pre [post Es]]].
      split; [exact Hd|]. exists (c :: pre), post. rewrite Es. reflexivity.
Qed.

(** The match is the leftmost one: no earlier position starts a run. *)
Lemma re_search_8digits_leftmost (s g : pystr) :
  re_search_8digits s = Some g ->
  exists pre post,
    s = pre ++ g ++ post
    /\ forall k, (k < length pre)%nat -> match_digits 8 (skipn k s) = None.
Proof.
  induction s as [|c s IH]; cbn [re_search_8digits].
  - unfold match_digits. cbn. discriminate.
  - destruct (match_digits 8 (c :: s)) as [g0|] eqn:E.
    + intros Hg. injection Hg as <-.
      apply match_digits_spec in E as [Eg _].
      exists [], (skipn 8 (c :: s)). split.
      * rewrite Eg. cbn [app]. symmetry. apply firstn_skipn.
      * intros k Hk. cbn in Hk. lia.
    + intros Hg. destruct (IH Hg) as [pre [post [Es Hleft]]].
      exists (c :: pre), post. split; [rewrite Es; reflexivity|].
      intros [|k] Hk; [exact E|]. cbn [skipn]. apply Hleft. cbn in Hk. lia.
Qed.

Lemma match_tag_counts_spec (counts : list nat) (t g : pystr) :
  match_tag_counts counts t = Some g ->
  In (length g) counts /\ forallb isdecimal g = true
  /\ exists post, t = g ++ [41%N] ++ post.
Proof.
  induction counts as [|k counts IH]; cbn [match_tag_counts]; [discriminate|].
  destruct (match_digits k t) as [g0|] eqn:E.
  - destruct (starts_with_char 41%N (skipn k t)) eqn:Hp.
    + intros Hg. injection Hg as <-.
      apply match_digits_spec in E as [Eg [El Ed]].
      split; [left; symmetry; exact El|]. split; [exact Ed|].
      destruct (skipn k t) as [|d post] eqn:Hs; [discriminate|].
      cbn in Hp. apply N.eqb_eq in Hp. subst d.
      exists post. rewrite Eg. cbn [app].
      rewrite <- (firstn_skipn k t) at 1. f_equal. exact Hs.
    + intros Hg. destruct (IH Hg) as [Hin Hrest]. split; [right; exact Hin | exact Hrest].
  - intros Hg. destruct (IH Hg) as [Hin Hrest]. split; [right; exact Hin | exact Hrest].
Qed.

(** A match of the file-name pattern is a parenthesized run of three to
    eight digits of the name. *)
Lemma re_search_paren_tag_spec (s g : pystr) :
  re_search_paren_tag s = Some g ->
  (3 <= length g <= 8)%nat /\ forallb isdecimal g = true
  /\ exists pre post, s = pre ++ [40%N] ++ g ++ [41%N] ++ post.
Proof.
  induction s as [|c s IH]; cbn [re_search_paren_tag match_paren_tag]; [discriminate|].
  destruct (N.eqb_spec c 40) as [->|Hc].
  - destruct (match_tag_counts [8; 7; 6; 5; 4; 3]%nat s) as [g0|] eqn:E.
    + intros Hg. injection Hg as <-.
      apply match_tag_counts_spec in E as [Hin [Hd [post Es]]].
      split; [cbn in Hin; lia|]. split; [exact Hd|].
      exists [], post. rewrite Es. reflexivity.
    + intros Hg. destruct (IH Hg) as [Hl [Hd [pre [post Es]]]].
      split; [exact Hl|]. split; [exact Hd|].
      exists (40%N :: pre), post. rewrite Es. reflexivity.
  - intros Hg. destruct (IH Hg) as [Hl [Hd [pre [post Es]]]].
    split; [exact Hl|]. split; [exact Hd|].
    exists (c :: pre), post. rewrite Es. reflexivity.
Qed.

Lemma zfill_length (w : nat) (s : pystr) : length (zfill w s) = Nat.max w (length s).
Proof.
  unfold zfill. destruct (Nat.leb_spec w (length s)) as [Hw|Hw]; [lia|].
  destruct s as [|c t].
  - unfold zeros. rewrite repeat_length. cbn. lia.
  - destruct ((c =? char_plus) || (c =? char_minus))%N;
      cbn [length]; rewrite length_app; unfold zeros; rewrite repeat_length;
      cbn [length]; lia.
Qed.

Lemma zeros_isdecimal (k : nat) : forallb isdecimal (zeros k) = true.
Proof.
  induction k as [|k IH]; [reflexivity|]. cbn [zeros repeat forallb].
  rewrite (isdecimal_ascii char_0) by reflexivity. exact IH.
Qed.

Lemma zfill_isdecimal (w : nat) (s : pystr) :
  forallb isdecimal s = true -> forallb isdecimal (zfill w s) = true.
Proof.
  intros Hs. unfold zfill. destruct (w <=? length s)%nat; [exact Hs|].
  destruct s as [|c t]; [apply zeros_isdecimal|].
  cbn [forallb] in Hs. apply andb_prop in Hs as [Hc Ht].
  destruct ((c =? char_plus) || (c =? char_minus))%N.
  - cbn [forallb]. now rewrite Hc, forallb_app, zeros_isdecimal.
  - rewrite forallb_app, zeros_isdecimal. cbn [forallb]. now rewrite Hc, Ht.
Qed.

Lemma lit_0101_isdecimal : forallb isdecimal (lit "0101") = true.
Proof.
  cbn. rewrite !isdecimal_ascii by reflexivity. reflexivity.
Qed.

Lemma sentinel_is_date8 : is_date8 (lit "19700101").
Proof.
  split; [reflexivity|]. cbn. rewrite !isdecimal_ascii by reflexivity. reflexivity.
Qed.

Lemma date_by_hint_is_date8 (year_hint : option pystr) :
  four_digit_hint year_hint -> is_date8 (date_by_hint year_hint).
Proof.
  destruct year_hint as [y|]; cbn [four_digit_hint date_by_hint].
  - intros [Hl Hd]. split.
    + rewrite length_app, Hl. reflexivity.
    + now rewrite forallb_app, Hd, lit_0101_isdecimal.
  - intros _. apply sentinel_is_date8.
Qed.

(** A four-digit hint passes the test of the byte-level script. *)
Lemma four_digit_hint_ok (y : pystr) :
  length y = 4%nat -> forallb isdecimal y = true ->
  truthy (Some y) && re_match_4digits y = true.
Proof.
  intros Hl Hd.
  destruct y as [|a [|b [|c [|d [|e t]]]]]; try discriminate Hl.
  unfold re_match_4digits, match_digits. cbn [length Nat.leb firstn andb].
  cbn [firstn] in Hd. rewrite Hd. reflexivity.
Qed.

Lemma BL_scan_header_spec (n : nat) (lines : list pystr) (g : pystr) :
  ByteLevel.scan_header n lines = Some g ->
  is_date8 g
  /\ exists line, In line (firstn n lines) /\ re_search_8digits line = Some g.
Proof.
  revert lines. induction n as [|n IH]; intros lines; cbn [ByteLevel.scan_header];
    [discriminate|].
  destruct lines as [|l rest]; cbn [readline is_empty]; [discriminate|].
  destruct (is_empty l); [discriminate|].
  destruct (re_search_8digits l) as [g0|] eqn:E.
  - intros Hg. injection Hg as <-.
    split; [exact (proj1 (re_search_8digits_spec _ _ E))|].
    exists l. split; [left; reflexivity | exact E].
  - intros Hg. destruct (IH rest Hg) as [Hd [line [Hin Hs]]].
    split; [exact Hd|]. exists line. split; [right; exact Hin | exact Hs].
Qed.

Lemma ML_scan_header_spec (n : nat) (lines : list pystr) (g : pystr) :
  ForML.scan_header n lines = Some g -> is_date8 g.
Proof.
  revert lines. induction n as [|n IH]; intros lines; cbn [ForML.scan_header];
    [discriminate|].
  destruct lines as [|l rest]; cbn [readline is_empty]; [discriminate|].
  destruct (is_empty l); [discriminate|].
  destruct (re_search_8digits l) as [g0|] eqn:E; [|apply IH].
  unfold ForML.checked_date. destruct (strptime_Ymd g0); [|apply IH].
  intros Hg. injection Hg as <-. exact (proj1 (re_search_8digits_spec _ _ E)).
Qed.

(** The header rule takes the first of the first [n] lines that has a run. *)
Lemma BL_scan_header_first (n : nat) (lines : list pystr) (g : pystr) :
  ByteLevel.scan_header n lines = Some g ->
  exists before line after,
    lines = before ++ line :: after
    /\ (length before < n)%nat
    /\ re_search_8digits line = Some g
    /\ Forall (fun l => re_search_8digits l = None) before.
Proof.
  revert lines. induction n as [|n IH]; intros lines; cbn [ByteLevel.scan_header];
    [discriminate|].
  destruct lines as [|l rest]; cbn [readline is_empty]; [discriminate|].
  destruct (is_empty l); [discriminate|].
  destruct (re_search_8digits l) as [g0|] eqn:E.
  - intros Hg. injection Hg as <-.
    exists [], l, rest. repeat split; [cbn; lia | exact E | constructor].
  - intros Hg. destruct (IH rest Hg) as [before [line [after [El [Hn [Hs Hb]]]]]].
    exists (l :: before), line, after. rewrite El.
    repeat split; [cbn; lia | exact Hs | constructor; assumption].
Qed.

(** In the filtering script a line counts only if its leftmost run is a
    calendar date. *)
Lemma ML_scan_header_first (n : nat) (lines : list pystr) (g : pystr) :
  ForML.scan_header n lines = Some g ->
  exists before line after,
    lines = before ++ line :: after
    /\ (length before < n)%nat
    /\ re_search_8digits line = Some g
    /\ is_calendar_date g = true
    /\ Forall (fun l => forall g', re_search_8digits l = Some g' ->
                                   is_calendar_date g' = false) before.
Proof.
  revert lines. induction n as [|n IH]; intros lines; cbn [ForML.scan_header];
    [discriminate|].
  destruct lines as [|l rest]; cbn [readline is_empty]; [discriminate|].
  destruct (is_empty l); [discriminate|].
  assert (Step : forall (Hl : forall g', re_search_8digits l = Some g' ->
                                         is_calendar_date g' = false),
            ForML.scan_header n rest = Some g ->
            exists before line after,
              l :: rest = before ++ line :: after
              /\ (length before < S n)%nat
              /\ re_search_8digits line = Some g
              /\ is_calendar_date g = true
              /\ Forall (fun l => forall g', re_search_8digits l = Some g' ->
                                             is_calendar_date g' = false) before).
  { intros Hl Hg.
    destruct (IH rest Hg) as [before [line [after [El [Hn [Hs [Hc Hb]]]]]]].
    exists (l :: before), line, after. rewrite El.
    repeat split; [cbn; lia | exact Hs | exact Hc | constructor; assumption]. }
  destruct (re_search_8digits l) as [g0|] eqn:E.
  - unfold ForML.checked_date, strptime_Ymd.
    destruct (is_calendar_date g0) eqn:Hc.
    + intros Hg. injection Hg as <-.
      exists [], l, rest. repeat split; [cbn; lia | exact E | exact Hc | constructor].
    + apply Step. intros g' Hg'. injection Hg' as <-. exact Hc.
  - apply Step. discriminate.
Qed.

Lemma BL_header_date_total (path : Path) :
  exists found, ByteLevel.header_date path = Ok found
                /\ forall g, found = Some g -> is_date8 g.
Proof.
  unfold ByteLevel.header_date, open_text_lines.
  destruct (stored path) as [data|e]; cbn [rbind try_except].
  - destruct (py_decode_replace_total data) as [text ->]. cbn [rbind try_except].
    eexists. split; [reflexivity|]. intros g Hg.
    exact (proj1 (BL_scan_header_spec _ _ _ Hg)).
  - exists None. split; [reflexivity | discriminate].
Qed.

Lemma ML_header_date_total (path : Path) :
  exists found, ForML.header_date path = Ok found
                /\ forall g, found = Some g -> is_date8 g.
Proof.
  unfold ForML.header_date, open_text_lines.
  destruct (stored path) as [data|e]; cbn [rbind try_except].
  - destruct (py_decode_replace_total data) as [text ->]. cbn [rbind try_except].
    eexists. split; [reflexivity|]. intros g Hg.
    exact (ML_scan_header_spec _ _ _ Hg).
  - exists None. split; [reflexivity | discriminate].
Qed.
End DateFacts.

Section DateResolver.
Context `{Codec} `{UnicodeDB} `{Calendar}.

Lemma zfill_4_len_4 (g : pystr) : (len (zfill 4 g) =? 4) = (length g <=? 4)%nat.
Proof.
  unfold len. rewrite zfill_length.
  destruct (Nat.leb_spec (length g) 4); [apply Z.eqb_eq | apply Z.eqb_neq]; lia.
Qed.

Lemma zfill_4_len_8 (g : pystr) : (len (zfill 4 g) =? 8) = (length g =? 8)%nat.
Proof.
  unfold len. rewrite zfill_length.
  destruct (Nat.eqb_spec (length g) 8); [apply Z.eqb_eq | apply Z.eqb_neq]; lia.
Qed.

Lemma zfill_4_of_8 (g : pystr) : length g = 8%nat -> zfill 4 g = g.
Proof. intros Hl. unfold zfill. rewrite Hl. reflexivity. Qed.

Lemma BL_derive_date_chain (path : Path) (year_hint : option pystr) :
  four_digit_hint year_hint ->
  exists found,
    ByteLevel.header_date path = Ok found
    /\ ByteLevel.derive_date_for_file path year_hint
       = Ok match found with
            | Some g => g
            | None =>
                match re_search_paren_tag (path_name path) with
                | Some g => date_by_tag g year_hint
                | None => date_by_hint year_hint
                end
            end.
Proof.
  intros Hhint. destruct (BL_header_date_total path) as [found [Eh _]].
  exists found. split; [exact Eh|].
  unfold ByteLevel.derive_date_for_file. rewrite Eh. cbn [rbind].
  destruct found as [g|]; [reflexivity|].
  destruct year_hint as [y|]; cbn [four_digit_hint] in Hhint.
  - destruct Hhint as [Hl Hd].
    cbn [str_or_empty]. rewrite (four_digit_hint_ok y Hl Hd).
    destruct (re_search_paren_tag (path_name path)) as [g|]; [|reflexivity].
    cbv zeta. rewrite zfill_4_len_4, zfill_4_len_8, andb_true_r.
    unfold date_by_tag. destruct (length g <=? 4)%nat; [reflexivity|].
    destruct (Nat.eqb_spec (length g) 8) as [E|E]; [|reflexivity].
    now rewrite zfill_4_of_8.
  - cbn [truthy andb str_or_empty].
    destruct (re_search_paren_tag (path_name path)) as [g|]; [|reflexivity].
    cbv zeta. rewrite zfill_4_len_8, andb_false_r.
    unfold date_by_tag. destruct (Nat.eqb_spec (length g) 8) as [E|E]; [|reflexivity].
    now rewrite zfill_4_of_8.
Qed.

Lemma date_by_tag_is_date8 (g : pystr) (year_hint : option pystr) :
  forallb isdecimal g = true -> four_digit_hint year_hint ->
  is_date8 (date_by_tag g year_hint).
Proof.
  intros Hg Hhint. unfold date_by_tag.
  destruct year_hint as [y|].
  - destruct (Nat.leb_spec (length g) 4) as [Hle|Hgt].
    + destruct Hhint as [Hl Hd]. split.
      * rewrite length_app, zfill_length, Hl. lia.
      * now rewrite forallb_app, Hd, zfill_isdecimal.
    + destruct (Nat.eqb_spec (length g) 8) as [E|E]; [split; assumption|].
      now apply date_by_hint_is_date8.
  - destruct (Nat.eqb_spec (length g) 8) as [E|E]; [split; assumption|].
    now apply date_by_hint_is_date8.
Qed.

Lemma ML_derive_date_is_date8 (path : Path) (year_hint : option pystr) :
  four_digit_hint year_hint ->
  exists d, ForML.derive_date_for_file path year_hint = Ok d /\ is_date8 d.
Proof.
  intros Hhint. destruct (ML_header_date_total path) as [found [Eh Hf]].
  unfold ForML.derive_date_for_file. rewrite Eh. cbn [rbind].
  destruct found as [g|]; [exists g; split; [reflexivity | now apply Hf]|].
  assert (Hby : is_date8 (if truthy year_hint
                          then str_or_empty year_hint ++ lit "0101"
                          else lit "19700101")).
  { destruct year_hint as [y|]; [|apply sentinel_is_date8].
    destruct Hhint as [Hl Hd]. destruct y; [discriminate Hl|].
    cbn [truthy is_empty negb str_or_empty].
    exact (date_by_hint_is_date8 (Some (c :: y)) (conj Hl Hd)). }
  destruct (re_search_paren_tag (path_name path)) as [g|] eqn:Et;
    [|eexists; split; [reflexivity | exact Hby]].
  apply re_search_paren_tag_spec in Et as [Hlen [Hd _]].
  cbv zeta. rewrite zfill_4_len_4, zfill_4_len_8.
  unfold ForML.checked_date.
  destruct ((length g <=? 4)%nat && truthy year_hint) eqn:E4.
  - apply andb_prop in E4 as [Hle Ht]. apply Nat.leb_le in Hle.
    destruct (strptime_Ymd (str_or_empty year_hint ++ zfill 4 g));
      [|eexists; split; [reflexivity | exact Hby]].
    eexists. split; [reflexivity|].
    destruct year_hint as [y|]; [|discriminate Ht].
    destruct Hhint as [Hl Hy]. cbn [str_or_empty]. split.
    + rewrite length_app, zfill_length, Hl. lia.
    + now rewrite forallb_app, Hy, zfill_isdecimal.
  - destruct (Nat.eqb_spec (length g) 8) as [E8|E8];
      [|eexists; split; [reflexivity | exact Hby]].
    destruct (strptime_Ymd (zfill 4 g));
      [|eexists; split; [reflexivity | exact Hby]].
    eexists. split; [reflexivity|]. rewrite zfill_4_of_8 by exact E8.
    split; assumption.
Qed.
Lemma ML_derive_date_chain (path : Path) (year_hint : option pystr) :
  four_digit_hint year_hint ->
  exists found,
    ForML.header_date path = Ok found
    /\ ForML.derive_date_for_file path year_hint
       = Ok match found with
            | Some d => d
            | None =>
                match re_search_paren_tag (path_name path) with
                | Some g => date_by_tag_checked g year_hint
                | None => date_by_hint year_hint
                end
            end.
Proof.
  intros Hhint. destruct (ML_header_date_total path) as [found [Eh _]].
  exists found. split; [exact Eh|].
  unfold ForML.derive_date_for_file. rewrite Eh. cbn [rbind].
  destruct found as [d|]; [reflexivity|].
  assert (Hby : (if truthy year_hint
                 then str_or_empty year_hint ++ lit "0101"
                 else lit "19700101") = date_by_hint year_hint).
  { destruct year_hint as [y|]; [|reflexivity].
    destruct Hhint as [Hl _]. destruct y; [discriminate Hl | reflexivity]. }
  cbv zeta. rewrite Hby.
  destruct (re_search_paren_tag (path_name path)) as [g|]; [|reflexivity].
  rewrite zfill_4_len_4, zfill_4_len_8.
  unfold date_by_tag_checked, ForML.checked_date, strptime_Ymd.
  destruct year_hint as [y|].
  - destruct Hhint as [Hl _].
    assert (Ht : truthy (Some y) = true) by (destruct y; [discriminate Hl | reflexivity]).
    rewrite Ht, andb_true_r. cbn [str_or_empty].
    destruct (length g <=? 4)%nat.
    + now destruct (is_calendar_date (y ++ zfill 4 g)).
    + destruct (Nat.eqb_spec (length g) 8) as [E|E]; [|reflexivity].
      rewrite zfill_4_of_8 by exact E. now destruct (is_calendar_date g).
  - cbn [truthy]. rewrite andb_false_r.
    destruct (Nat.eqb_spec (length g) 8) as [E|E]; [|reflexivity].
    rewrite zfill_4_of_8 by exact E. now destruct (is_calendar_date g).
Qed.
End DateResolver.

(** C7, as the scripts have it: for a year hint that is absent or a string
    of exactly four decimal digits, [derive_date_for_file] returns, and
    returns a string of exactly eight decimal digits, in the byte-level and
    in the filtering script.  The byte-level script takes, in this order,
    the leftmost run of eight digits in the first of the first three header
    lines that has one; a parenthesized tag of the file name (three or four
    digits zero-filled to four and put after the hint, or eight digits as
    they are); the hint followed by "0101"; the sentinel "19700101".  The
    filtering script follows the same order and passes over a candidate of
    the first two rules that is not a calendar date. *)
Theorem derive_date_for_file_resolves `{Codec} `{UnicodeDB} `{Calendar}
    (path : Path) (year_hint : option pystr)
    (Hhint : four_digit_hint year_hint) :
  (exists d, ByteLevel.derive_date_for_file path year_hint = Ok d /\ is_date8 d)
  /\ (exists d, ForML.derive_date_for_file path year_hint = Ok d /\ is_date8 d)
  /\ (exists found,
        ByteLevel.header_date path = Ok found
        /\ (forall g, found = Some g ->
            exists lines before line after pre post,
              open_text_lines path = Ok lines
              /\ lines = before ++ line :: after
              /\ (length before < 3)%nat
              /\ Forall (fun l => re_search_8digits l = None) before
              /\ re_search_8digits line = Some g
              /\ line = pre ++ g ++ post
              /\ forall k, (k < length pre)%nat ->
                           match_digits 8 (skipn k line) = None)
        /\ ByteLevel.derive_date_for_file path year_hint
           = Ok match found with
                | Some g => g
                | None =>
                    match re_search_paren_tag (path_name path) with
                    | Some g => date_by_tag g year_hint
                    | None => date_by_hint year_hint
                    end
                end)
  /\ (exists found,
        ForML.header_date path = Ok found
        /\ (forall d, found = Some d ->
            exists lines before line after,
              open_text_lines path = Ok lines
              /\ lines = before ++ line :: after
              /\ (length before < 3)%nat
              /\ Forall (fun l => forall g', re_search_8digits l = Some g' ->
                                             is_calendar_date g' = false) before
              /\ re_search_8digits line = Some d
              /\ is_calendar_date d = true)
        /\ ForML.derive_date_for_file path year_hint
           = Ok match found with
                | Some d => d
                | None =>
                    match re_search_paren_tag (path_name path) with
                    | Some g => date_by_tag_checked g year_hint
                    | None => date_by_hint year_hint
                    end
                end).
Proof.
  destruct (BL_derive_date_chain path year_hint Hhint) as [found [Eh Ed]].
  destruct (ML_derive_date_chain path year_hint Hhint) as [mfound [Emh Emd]].
  split; [|split; [exact (ML_derive_date_is_date8 path year_hint Hhint)|split]].
  - eexists. split; [exact Ed|].
    destruct (BL_header_date_total path) as [found' [Eh' Hf]].
    rewrite Eh in Eh'. injection Eh' as <-.
    destruct found as [g|]; [now apply Hf|].
    destruct (re_search_paren_tag (path_name path)) as [g|] eqn:Et.
    + apply re_search_paren_tag_spec in Et as [_ [Hd _]].
      now apply date_by_tag_is_date8.
    + now apply date_by_hint_is_date8.
  - exists found. split; [exact Eh|]. split; [|exact Ed].
    intros g ->. unfold ByteLevel.header_date in Eh.
    destruct (open_text_lines path) as [lines|e]; cbn [rbind try_except] in Eh;
      [|discriminate].
    injection Eh as Es.
    destruct (BL_scan_header_first 3 lines g Es)
      as [before [line [after [El [Hn [Hs Hb]]]]]].
    destruct (re_search_8digits_leftmost line g Hs) as [pre [post [Epre Hleft]]].
    exists lines, before, line, after, pre, post. repeat split; assumption.
  - exists mfound. split; [exact Emh|]. split; [|exact Emd].
    intros d ->. unfold ForML.header_date in Emh.
    destruct (open_text_lines path) as [lines|e]; cbn [rbind try_except] in Emh;
      [|discriminate].
    injection Emh as Es.
    destruct (ML_scan_header_first 3 lines d Es)
      as [before [line [after [El [Hn [Hs [Hc Hb]]]]]]].
    exists lines, before, line, after. repeat split; assumption.
Qed.

Lemma derive_date_for_file_resolves_witness :
  @ByteLevel.derive_date_for_file ascii_only ascii_digits unreadable_file
    (Some (lit "2020"))
  = Ok (lit "20200420")
  /\ exists d,
       @ForML.derive_date_for_file ascii_only ascii_digits eight_digit_calendar
         blank_line_file (Some (lit "2020"))
       = Ok d
       /\ @is_date8 ascii_digits d.
Proof.
  destruct (@derive_date_for_file_resolves ascii_only ascii_digits eight_digit_calendar
              unreadable_file (Some (lit "2020")))
    as [_ [_ [[found [Eh [_ Ed]]] _]]].
  - split; reflexivity.
  - destruct (@derive_date_for_file_resolves ascii_only ascii_digits
                eight_digit_calendar blank_line_file (Some (lit "2020")))
      as [_ [Hml _]].
    + split; reflexivity.
    + split; [|exact Hml].
      rewrite Ed. vm_compute in Eh. injection Eh as <-. reflexivity.
Defined.

(** C7 as stated fails: the filtering script does not check the hint, and
    with the hint "20" a file without a header date and without a tag gets
    "200101", six characters. *)
Lemma derive_date_for_file_resolves_counterexample :
  exists d,
    @ForML.derive_date_for_file ascii_only ascii_digits eight_digit_calendar
      untagged_file (Some (lit "20"))
    = Ok d
    /\ d = lit "200101"
    /\ length d <> 8%nat.
Proof.
  eexists. split; [vm_compute; reflexivity|]. split; [reflexivity|].
  vm_compute. discriminate.
Qed.

(** The byte-level script checks the hint with [re.match(r'^\d{4}$', ...)],
    which also accepts four digits followed by a newline; the date then has
    the newline in it. *)
Lemma BL_derive_date_newline_hint :
  @ByteLevel.derive_date_for_file ascii_only ascii_digits untagged_file
    (Some (lit "2020" ++ [10%N]))
  = Ok (lit "2020" ++ [10%N] ++ lit "0101").
Proof. vm_compute. reflexivity. Qed.

(** * Examples *)

(** The example of the specification: the digit string "000000398000" keeps
    its rightmost nine digits and decodes to 39.8000, which is in bounds. *)
Example parse_9digit_price_398000 :
  ByteLevel.parse_9digit_price (lit "000000398000") = Some (398000 # 10000)
  /\ format_4f (398000 # 10000) = lit "39.8000"
  /\ ByteLevel.sane_price (Some (398000 # 10000)) = true.
Proof. repeat split. Qed.

(** Fewer than nine digits are padded on the left; other characters are
    dropped. *)
Example parse_9digit_price_padded :
  ByteLevel.parse_9digit_price (lit " 12.5 ") = Some (125 # 10000)
  /\ format_4f (125 # 10000) = lit "0.0125".
Proof. repeat split. Qed.

(** Strict decoding raises where decoding with replacement goes on. *)
Example py_decode_strict_raises :
  @py_decode ascii_only Strict [x41; xff; x42] = Raise UnicodeDecodeError
  /\ @py_decode ascii_only Replace [x41; xff; x42]
     = Ok [65%N; REPLACEMENT_CHARACTER; 66%N].
Proof. split; reflexivity. Qed.

(** [readlines] keeps the line ends and does not invent a last line. *)
Example split_lines_keeps_ends :
  split_lines (Byte.eqb x0a) (bytes_lit "ab" ++ [x0d; x0a] ++ bytes_lit "c")
  = [bytes_lit "ab" ++ [x0d; x0a]; bytes_lit "c"]
  /\ split_lines (Byte.eqb x0a) (bytes_lit "ab" ++ [x0a]) = [bytes_lit "ab" ++ [x0a]].
Proof. split; reflexivity. Qed.

(** The resolver on a readable file with a date in its header, on a tagged
    name, and with nothing to go by. *)
Example derive_date_for_file_rules :
  @ByteLevel.derive_date_for_file ascii_only ascii_digits blank_line_file None
  = Ok (lit "20200420")
  /\ @ByteLevel.derive_date_for_file ascii_only ascii_digits unreadable_file
       (Some (lit "2020"))
     = Ok (lit "20200420")
  /\ @ByteLevel.derive_date_for_file ascii_only ascii_digits unreadable_file None
     = Ok (lit "19700101")
  /\ @ByteLevel.derive_date_for_file ascii_only ascii_digits untagged_file
       (Some (lit "2020"))
     = Ok (lit "20200101").
Proof. repeat split. Qed.

(** A whole file through the byte-level script: the header is dropped, the
    record is accepted, the short line and the line of blanks are rejected,
    the empty line is skipped. *)
Example process_file_four_lines :
  let data :=
    bytes_lit "HEADER" ++ [x0d; x0a]
    ++ quote_line_1240 ++ [x0d; x0a]
    ++ bytes_lit "001240" ++ [x0d; x0a]
    ++ [x0d; x0a]
    ++ quote_line_all_blank ++ [x0a] in
  let path := {| path_name := lit "STKT2QUOTESN(0420)"; stored := Ok data |} in
  let st := snd (@ByteLevel.process_file ascii_only path (lit "20200420") false
                   empty_buffers) in
  map r_stock_id (rows st) = [lit "001240"]
  /\ map d_reason (debug_rows st) = [line_too_short; empty_stock_id]
  /\ map d_line_no (debug_rows st) = [3; 5].
Proof. vm_compute. repeat split. Qed.

(** * More about the decoder: the value in closed form *)

Lemma digits_value_zeros (k : nat) (d : pystr) :
  digits_value (zeros k ++ d) = digits_value d.
Proof.
  rewrite digits_value_app.
  assert (Z0 : digits_value (zeros k) = 0).
  { induction k as [|k IH]; [reflexivity|].
    rewrite <- zeros_snoc, digits_value_snoc, IH. reflexivity. }
  rewrite Z0. lia.
Qed.

Lemma pow10_le (a b : nat) : (a <= b)%nat -> 10 ^ Z.of_nat a <= 10 ^ Z.of_nat b.
Proof. intros Hab. apply Z.pow_le_mono_r; lia. Qed.

(** Padding and truncation together take the value modulo 10^9. *)
Lemma pad_or_truncate_value (d : pystr) :
  d <> [] -> forallb is_ascii_digit d = true ->
  digits_value (ByteLevel.pad_or_truncate d) = digits_value d mod 10 ^ 9.
Proof.
  intros Hne Hd. destruct (Nat.lt_ge_cases (length d) 9) as [Hlt|Hge].
  - rewrite pad_or_truncate_short by assumption. rewrite digits_value_zeros.
    pose proof (digits_value_range d Hd) as R. unfold len in R.
    pose proof (pow10_le (length d) 9 ltac:(lia)) as P.
    change (Z.of_nat 9) with 9 in P.
    symmetry. apply Z.mod_small. lia.
  - rewrite pad_or_truncate_long by assumption.
    replace (digits_value d)
      with (digits_value (firstn (length d - 9) d ++ skipn (length d - 9) d))
      by (now rewrite firstn_skipn).
    rewrite digits_value_app.
    assert (L : len (skipn (length d - 9) d) = 9)
      by (unfold len; rewrite length_skipn; lia).
    rewrite L.
    pose proof (digits_value_range _ (forallb_skipn _ (length d - 9) d Hd)) as R.
    rewrite L in R.
    rewrite Z.add_comm, Z.mod_add by lia.
    symmetry. apply Z.mod_small. exact R.
Qed.

Lemma parse_9digit_price_value (s : pystr) :
  ByteLevel.parse_9digit_price s
  = (if is_empty (re_sub_non_digits s) then None
     else Some ((digits_value (re_sub_non_digits s) mod 10 ^ 9) # 10000)).
Proof.
  destruct (re_sub_non_digits s) as [|c d] eqn:E.
  - now apply parse_9digit_price_no_digit.
  - cbn [is_empty].
    assert (Hne : re_sub_non_digits s <> []) by (rewrite E; discriminate).
    rewrite (parse_9digit_price_digits s Hne).
    rewrite (pad_or_truncate_value _ Hne (re_sub_non_digits_all s)).
    now rewrite E.
Qed.

(** X1: [parse_9digit_price] reads the ASCII digits of its input as one
    integer and returns that integer modulo 10^9, in ten-thousandths; no
    other character of the input has any effect. *)
Theorem parse_9digit_price_closed_form (raw : pystr) :
  ByteLevel.parse_9digit_price raw
  = (if is_empty (re_sub_non_digits raw) then None
     else Some ((digits_value (re_sub_non_digits raw) mod 10 ^ 9) # 10000))
  /\ ByteLevel.parse_9digit_price (re_sub_non_digits raw)
     = ByteLevel.parse_9digit_price raw
  /\ Diagnostic.parse_9digit_price (Some raw) = ByteLevel.parse_9digit_price raw.
Proof.
  split; [apply parse_9digit_price_value|].
  split; [|apply Diagnostic_parse_9digit_price_eq].
  rewrite (parse_9digit_price_value raw),
    (parse_9digit_price_value (re_sub_non_digits raw)).
  assert (I : re_sub_non_digits (re_sub_non_digits raw) = re_sub_non_digits raw).
  { unfold re_sub_non_digits. apply forallb_filter_id.
    apply (re_sub_non_digits_all raw). }
  now rewrite I.
Qed.

(** * The text of a price *)

Lemma digits_value_fixed_digits (w : nat) (n : N) :
  digits_value (fixed_digits w n) = Z.of_N n mod 10 ^ Z.of_nat w.
Proof.
  revert n. induction w as [|w IH]; intros n.
  - cbn [fixed_digits]. change (10 ^ Z.of_nat 0) with 1. now rewrite Z.mod_1_r.
  - cbn [fixed_digits]. rewrite digits_value_snoc, IH.
    rewrite Nat2Z.inj_succ, Z.pow_succ_r by lia.
    rewrite Z.rem_mul_r by lia.
    unfold digit_val.
    replace (48 + n mod 10 - 48)%N with (n mod 10)%N
      by (now rewrite N.add_comm, N.add_sub).
    rewrite N2Z.inj_div, N2Z.inj_mod. change (Z.of_N 10) with 10. ring.
Qed.

Lemma digits_value_canonical (x : pystr) :
  digits_value (canonical x) = digits_value x.
Proof.
  unfold canonical.
  destruct (lstrip_with_split (N.eqb char_0) x) as [pre [Hx Hpre]].
  apply all_zero_is_zeros in Hpre.
  rewrite Hx at 2. rewrite Hpre, digits_value_zeros.
  destruct (lstrip_with (N.eqb char_0) x); reflexivity.
Qed.

Lemma digits_value_str_of_N (n : N) : digits_value (str_of_N n) = Z.of_N n.
Proof.
  unfold str_of_N. rewrite digits_value_canonical, digits_value_fixed_digits.
  apply Z.mod_small. split; [lia|].
  pose proof (N_lt_pow_log2 n) as Hn. apply N2Z.inj_lt in Hn.
  rewrite N2Z.inj_pow, nat_N_Z in Hn. exact Hn.
Qed.

Lemma canonical_digits (x : pystr) :
  forallb is_ascii_digit x = true ->
  canonical x <> [] /\ forallb is_ascii_digit (canonical x) = true.
Proof.
  intros Hx. unfold canonical.
  destruct (lstrip_with_split (N.eqb char_0) x) as [pre [Ex _]].
  destruct (lstrip_with (N.eqb char_0) x) as [|c t] eqn:E.
  - split; [discriminate | reflexivity].
  - split; [discriminate|].
    rewrite Ex, forallb_app in Hx. now apply andb_prop in Hx.
Qed.

Lemma str_of_N_digits (n : N) :
  str_of_N n <> [] /\ forallb is_ascii_digit (str_of_N n) = true.
Proof. apply canonical_digits, fixed_digits_all. Qed.

Lemma re_sub_non_digits_app (a b : pystr) :
  re_sub_non_digits (a ++ b) = re_sub_non_digits a ++ re_sub_non_digits b.
Proof. apply filter_app. Qed.

Lemma re_sub_non_digits_id (a : pystr) :
  forallb is_ascii_digit a = true -> re_sub_non_digits a = a.
Proof. intros Ha. now apply forallb_filter_id. Qed.

(** [round(v, 4)] and [f"{v:.4f}"] on a non-negative number of
    ten-thousandths. *)
Lemma format_4f_grid (n : Z) :
  0 <= n ->
  format_4f (n # 10000)
  = str_of_N (Z.to_N (n / 10000)) ++ lit "."
    ++ fixed_digits 4 (Z.to_N (n mod 10000)).
Proof.
  intros Hn. unfold format_4f, py_round. cbn [Qnum Qden Z.of_nat].
  change (10 ^ Z.of_nat 4) with 10000. change (Z.pos 10000) with 10000.
  rewrite Z.div_mul, Z.mod_mul by lia.
  change (2 * 0 <? 10000) with true. cbv iota. cbn [Qnum].
  destruct (Z.ltb_spec n 0); [lia|].
  pose proof (Z.mod_pos_bound n 10000 ltac:(lia)) as Hm.
  rewrite str_of_int_zfill by (change (10 ^ Z.of_nat 4) with 10000; lia).
  unfold str_of_int.
  destruct (Z.ltb_spec (n / 10000) 0) as [Hneg|_]; [|reflexivity].
  pose proof (Z.div_pos n 10000 Hn ltac:(lia)). lia.
Qed.

(** Decoding the text of a decoded price gives the price back. *)
Lemma parse_format_4f (raw : pystr) (v : Q) :
  ByteLevel.parse_9digit_price raw = Some v ->
  ByteLevel.parse_9digit_price (format_4f v) = Some v.
Proof.
  intros Hparse.
  destruct (parse_9digit_price_grid raw v Hparse) as [n [-> [Hn0 Hn9]]].
  change (10 ^ 9) with 1000000000 in Hn9.
  pose proof (Z.mod_pos_bound n 10000 ltac:(lia)) as Hm.
  pose proof (Z.div_pos n 10000 Hn0 ltac:(lia)) as Hq.
  rewrite format_4f_grid by exact Hn0.
  pose proof (parse_9digit_price_value
                (str_of_N (Z.to_N (n / 10000)) ++ lit "."
                 ++ fixed_digits 4 (Z.to_N (n mod 10000)))) as F.
  destruct (str_of_N_digits (Z.to_N (n / 10000))) as [Hne Hd].
  rewrite F. rewrite !re_sub_non_digits_app.
  rewrite (re_sub_non_digits_id _ Hd).
  rewrite (re_sub_non_digits_id _ (fixed_digits_all 4 _)).
  change (re_sub_non_digits (lit ".")) with (@nil char). cbn [app].
  destruct (str_of_N (Z.to_N (n / 10000)) ++ fixed_digits 4 (Z.to_N (n mod 10000)))
    as [|c t] eqn:E.
  { apply app_eq_nil in E as [E _]. contradiction. }
  cbn [is_empty]. rewrite <- E.
  rewrite digits_value_app, digits_value_str_of_N, digits_value_fixed_digits.
  unfold len. rewrite fixed_digits_length.
  change (10 ^ Z.of_nat 4) with 10000.
  rewrite !Z2N.id by lia. rewrite (Z.mod_small (n mod 10000)) by lia.
  replace (n / 10000 * 10000 + n mod 10000) with n
    by (rewrite (Z.div_mod n 10000) at 1 by lia; ring).
  rewrite Z.mod_small by (change (10 ^ 9) with 1000000000; lia).
  reflexivity.
Qed.



(** * The loop body and the loop of [process_file], outcome by outcome *)

Section ByteLevelOutcomes.
Context `{Codec}.

Lemma BL_process_line_full fname date_tag verbose lineno sc raw st :
  exists sc' st',
    ByteLevel.process_line fname date_tag verbose lineno sc raw st = (Ok sc', st')
    /\ ((rstrip_crlf_bytes raw = [] /\ appended_nothing st st')
        \/ (exists r, appended_row st st' r
                      /\ row_from_line fname date_tag lineno (rstrip_crlf_bytes raw) r)
        \/ (exists d, appended_diag st st' d
                      /\ diag_from_line fname lineno (rstrip_crlf_bytes raw) d)).
Proof.
  destruct (BL_process_line_cases fname date_tag verbose lineno sc raw st)
    as [sc' [st' [E C]]].
  exists sc', st'. split; [exact E|]. cbv zeta in C.
  destruct (rstrip_crlf_bytes raw) as [|b0 line0] eqn:Hline.
  { cbn [is_empty] in C. subst st'. left. split; [reflexivity | split; reflexivity]. }
  cbn [is_empty] in C. rewrite <- Hline in *.
  assert (Hne : rstrip_crlf_bytes raw <> []) by (rewrite Hline; discriminate).
  clear Hline b0 line0.
  destruct (Z.ltb_spec (len (rstrip_crlf_bytes raw)) 59) as [Hlt|Hge].
  - destruct C as [_ [p [Ep Hd]]]. right. right. eexists. split; [exact Hd|].
    unfold diag_from_line, mk_diag. cbn.
    repeat (split; [first [assumption | reflexivity]|]).
    left. repeat split; assumption.
  - clear C.
    destruct (BL_extract_fields_eq (rstrip_crlf_bytes raw) st)
      as [flds [Ex [Hs [Hn [Hc Hf]]]]].
    destruct (BL_process_line_long fname date_tag verbose lineno sc raw st flds _
                Hge Ex) as [sc1 [st2 [st1' [p [E1 [Hnothing [Ep Hcase]]]]]]].
    rewrite E in E1. injection E1 as <- <-.
    destruct (sid flds) as [|c0 s0] eqn:Hsid.
    + right. right. eexists. split; [exact (appended_diag_after _ _ _ _ Hnothing Hcase)|].
      unfold diag_from_line, mk_diag. cbn.
      repeat (split; [first [assumption | reflexivity]|]).
      right. split; [exact Hge|]. split; [exact Hc|].
      exists []. split; [exact Hs|]. left. split; reflexivity.
    + destruct (ByteLevel.parse_9digit_price (close_raw flds)) as [v|] eqn:Hp.
      * destruct (ByteLevel.sane_price (Some v)) eqn:Hsane.
        -- right. left. eexists.
           split; [exact (appended_row_after _ _ _ _ Hnothing Hcase)|].
           unfold row_from_line. cbn.
           split; [exact Hge|]. repeat (split; [reflexivity|]).
           split; [exact Hs|].
           split; [discriminate|].
           split; [exact Hn|].
           split; [exists (change_sym flds); split; [exact Hf | reflexivity]|].
           exists (close_raw flds), v. repeat split; assumption.
        -- right. right. eexists.
           split; [exact (appended_diag_after _ _ _ _ Hnothing Hcase)|].
           unfold diag_from_line, mk_diag. cbn.
           repeat (split; [first [assumption | reflexivity]|]).
           right. split; [exact Hge|]. split; [exact Hc|].
           exists (c0 :: s0). split; [exact Hs|]. right. right.
           split; [discriminate|]. exists v. repeat split; assumption.
      * right. right. eexists.
        split; [exact (appended_diag_after _ _ _ _ Hnothing Hcase)|].
        unfold diag_from_line, mk_diag. cbn.
        repeat (split; [first [assumption | reflexivity]|]).
        right. split; [exact Hge|]. split; [exact Hc|].
        exists (c0 :: s0). split; [exact Hs|]. right. left.
        split; [discriminate|]. split; [exact Hp | reflexivity].
Qed.

(** The rows and diagnostics a run of the loop appends: each comes from one
    of the lines, carries the number of that line, and they are appended in
    the order of the lines. *)
Lemma BL_process_lines_full fname date_tag verbose lines :
  forall lineno sc st,
  exists st' new_rows new_diags,
    ByteLevel.process_lines fname date_tag verbose lineno sc lines st = (Ok tt, st')
    /\ rows st' = rows st ++ new_rows
    /\ debug_rows st' = debug_rows st ++ new_diags
    /\ Forall (fun r => exists i raw,
                 nth_error lines i = Some raw
                 /\ row_from_line fname date_tag (lineno + Z.of_nat i)
                      (rstrip_crlf_bytes raw) r) new_rows
    /\ Forall (fun d => exists i raw,
                 nth_error lines i = Some raw
                 /\ diag_from_line fname (lineno + Z.of_nat i)
                      (rstrip_crlf_bytes raw) d) new_diags
    /\ StronglySorted (fun a b => r_line_no a < r_line_no b) new_rows
    /\ StronglySorted (fun a b => d_line_no a < d_line_no b) new_diags.
Proof.
  induction lines as [|raw rest IH]; intros lineno sc st.
  - exists st, [], []. cbn [ByteLevel.process_lines]. unfold ret.
    rewrite !app_nil_r. repeat split; constructor.
  - destruct (BL_process_line_full fname date_tag verbose lineno sc raw st)
      as [sc1 [st1 [E1 C1]]].
    destruct (IH (lineno + 1) sc1 st1)
      as [st' [nr [nd [E2 [Hr [Hd [Fr [Fd [Sr Sd]]]]]]]]].
    assert (Fr' : Forall (fun r => exists i raw0,
                     nth_error (raw :: rest) i = Some raw0
                     /\ row_from_line fname date_tag (lineno + Z.of_nat i)
                          (rstrip_crlf_bytes raw0) r) nr).
    { eapply Forall_impl; [|exact Fr]. intros r [i [raw0 [Hi Hrow]]].
      exists (S i), raw0. split; [exact Hi|].
      replace (lineno + Z.of_nat (S i)) with (lineno + 1 + Z.of_nat i) by lia.
      exact Hrow. }
    assert (Fd' : Forall (fun d => exists i raw0,
                     nth_error (raw :: rest) i = Some raw0
                     /\ diag_from_line fname (lineno + Z.of_nat i)
                          (rstrip_crlf_bytes raw0) d) nd).
    { eapply Forall_impl; [|exact Fd]. intros d [i [raw0 [Hi Hdg]]].
      exists (S i), raw0. split; [exact Hi|].
      replace (lineno + Z.of_nat (S i)) with (lineno + 1 + Z.of_nat i) by lia.
      exact Hdg. }
    assert (Gr : Forall (fun r => lineno < r_line_no r) nr).
    { eapply Forall_impl; [|exact Fr]. intros r [i [raw0 [_ Hrow]]].
      destruct Hrow as [_ [_ [_ [Hno _]]]]. lia. }
    assert (Gd : Forall (fun d => lineno < d_line_no d) nd).
    { eapply Forall_impl; [|exact Fd]. intros d [i [raw0 [_ Hdg]]].
      destruct Hdg as [_ [_ [Hno _]]]. lia. }
    cbn [ByteLevel.process_lines]. unfold bind. rewrite E1.
    destruct C1 as [[_ [Hr1 Hd1]] | [[r [[Hr1 Hd1] Hrow]] | [d [[Hr1 Hd1] Hdg]]]].
    + exists st', nr, nd. rewrite Hr, Hd, Hr1, Hd1.
      repeat split; assumption.
    + exists st', (r :: nr), nd. rewrite Hr, Hd, Hr1, Hd1, <- app_assoc.
      split; [exact E2|]. split; [reflexivity|]. split; [reflexivity|].
      split.
      { constructor; [|exact Fr']. exists 0%nat, raw. split; [reflexivity|].
        now rewrite Z.add_0_r. }
      split; [exact Fd'|]. split; [|exact Sd].
      constructor; [exact Sr|].
      destruct Hrow as [_ [_ [_ [Hno _]]]]. rewrite Hno. exact Gr.
    + exists st', nr, (d :: nd). rewrite Hr, Hd, Hr1, Hd1, <- app_assoc.
      split; [exact E2|]. split; [reflexivity|]. split; [reflexivity|].
      split; [exact Fr'|]. split.
      { constructor; [|exact Fd']. exists 0%nat, raw. split; [reflexivity|].
        now rewrite Z.add_0_r. }
      split; [exact Sr|].
      constructor; [exact Sd|].
      destruct Hdg as [_ [_ [Hno _]]]. rewrite Hno. exact Gd.
Qed.
End ByteLevelOutcomes.

(** * Trimming and lengths *)

Lemma lstrip_with_length {A} (p : A -> bool) (l : list A) :
  (length (lstrip_with p l) <= length l)%nat.
Proof.
  destruct (lstrip_with_split p l) as [pre [E _]].
  rewrite E at 2. rewrite length_app. lia.
Qed.

Lemma rstrip_with_length {A} (p : A -> bool) (l : list A) :
  (length (rstrip_with p l) <= length l)%nat.
Proof.
  unfold rstrip_with. rewrite length_rev.
  etransitivity; [apply lstrip_with_length|]. now rewrite length_rev.
Qed.

(** What [rstrip_with] removes is at the end. *)
Lemma rstrip_with_split {A} (p : A -> bool) (l : list A) :
  exists suf, l = rstrip_with p l ++ suf /\ forallb p suf = true.
Proof.
  unfold rstrip_with.
  destruct (lstrip_with_split p (rev l)) as [pre [E Hp]].
  exists (rev pre). split.
  - transitivity (rev (rev l)); [symmetry; apply rev_involutive|].
    rewrite E at 1. apply rev_app_distr.
  - rewrite forallb_forall in *. intros x Hx. apply Hp. now apply in_rev.
Qed.

Lemma rstrip_with_last {A} (p : A -> bool) (l t : list A) (c : A) :
  rstrip_with p l = t ++ [c] -> p c = false.
Proof.
  unfold rstrip_with. intros E. apply (f_equal (@rev A)) in E.
  rewrite rev_involutive, rev_app_distr in E. cbn in E.
  exact (lstrip_with_head p _ _ _ E).
Qed.

Lemma strip_trimmed (s : pystr) : trimmed (strip s).
Proof.
  unfold strip. split.
  - intros c t E.
    destruct (rstrip_with_split isspace (lstrip_with isspace s)) as [suf [Es _]].
    rewrite E in Es. cbn [app] in Es.
    exact (lstrip_with_head isspace _ _ _ Es).
  - intros t c E. exact (rstrip_with_last isspace _ _ _ E).
Qed.

Lemma strip_length (s : pystr) : (length (strip s) <= length s)%nat.
Proof.
  unfold strip. etransitivity; [apply rstrip_with_length|].
  apply lstrip_with_length.
Qed.

Section DecodeLength.
Context `{Codec}.

Lemma py_decode_length_bounded (n : nat) (bs : bytes) (s : pystr) :
  (length bs <= n)%nat -> py_decode Replace bs = Ok s ->
  (length s <= length bs)%nat.
Proof.
  revert bs s. induction n as [|n IH]; intros bs s Hn E.
  - destruct bs; [|cbn in Hn; lia]. cbn in E. injection E as <-. cbn. lia.
  - destruct bs as [|c rest]; [cbn in E; injection E as <-; cbn; lia|].
    cbn [length] in Hn. cbn [py_decode] in E.
    destruct (py_decode_replace_total rest) as [s1 E1].
    pose proof (IH rest s1 ltac:(lia) E1) as L1.
    destruct (Byte.to_N c <? 128)%N.
    + rewrite E1 in E. cbn in E. injection E as <-. cbn [length]. lia.
    + destruct rest as [|c2 rest2]; [cbn in E; injection E as <-; cbn; lia|].
      cbn [length] in Hn.
      destruct (py_decode_replace_total rest2) as [s2 E2].
      pose proof (IH rest2 s2 ltac:(lia) E2) as L2.
      destruct (cp950_map c c2).
      * rewrite E2 in E. cbn in E. injection E as <-. cbn [length]. lia.
      * cbn [on_undecodable] in E. rewrite E1 in E. cbn in E.
        injection E as <-. cbn [length] in *. lia.
Qed.

(** Decoding yields at most one character per byte. *)
Lemma py_decode_length (bs : bytes) (s : pystr) :
  py_decode Replace bs = Ok s -> (length s <= length bs)%nat.
Proof. apply (py_decode_length_bounded (length bs)). lia. Qed.

Lemma py_slice_length {A} (l : list A) (start stop : Z) :
  0 <= start -> 0 <= stop ->
  (length (py_slice l (Some start) (Some stop)) <= Z.to_nat stop - Z.to_nat start)%nat.
Proof.
  intros Hs He. rewrite py_slice_nonneg by assumption.
  rewrite length_firstn. lia.
Qed.

Lemma py_slice_to_length {A} (l : list A) (stop : Z) :
  0 <= stop -> (length (py_slice l None (Some stop)) <= Z.to_nat stop)%nat.
Proof. intros He. rewrite py_slice_to by assumption. rewrite length_firstn. lia. Qed.

(** A field is trimmed and no longer than its byte range. *)
Lemma slice_bytes_shape (line : bytes) (start stop : Z) (s : pystr) :
  0 <= start -> 0 <= stop ->
  ByteLevel.slice_bytes line start stop = Ok s ->
  trimmed s /\ (length s <= Z.to_nat stop - Z.to_nat start)%nat.
Proof.
  intros Hs He E. unfold ByteLevel.slice_bytes in E.
  destruct (py_decode_replace_total (py_slice line (Some start) (Some stop)))
    as [text Et].
  rewrite Et in E. cbn in E. injection E as <-.
  split; [apply strip_trimmed|].
  etransitivity; [apply strip_length|].
  etransitivity; [exact (py_decode_length _ _ Et)|].
  now apply py_slice_length.
Qed.
End DecodeLength.

(** * [process_file] on a readable file, record by record *)

Lemma nth_error_tl {A} (l : list A) (i : nat) :
  nth_error (tl l) i = nth_error l (S i).
Proof. destruct l; [now destruct i | reflexivity]. Qed.

Lemma BL_process_file_readable `{Codec} path date_tag verbose st data :
  stored path = Ok data ->
  exists st' new_rows new_diags,
    ByteLevel.process_file path date_tag verbose st = (Ok tt, st')
    /\ rows st' = rows st ++ new_rows
    /\ debug_rows st' = debug_rows st ++ new_diags
    /\ Forall (fun r => exists i raw,
                 nth_error (split_lines (Byte.eqb x0a) data) (S i) = Some raw
                 /\ row_from_line (path_name path) date_tag (2 + Z.of_nat i)
                      (rstrip_crlf_bytes raw) r) new_rows
    /\ Forall (fun d => exists i raw,
                 nth_error (split_lines (Byte.eqb x0a) data) (S i) = Some raw
                 /\ diag_from_line (path_name path) (2 + Z.of_nat i)
                      (rstrip_crlf_bytes raw) d) new_diags
    /\ StronglySorted (fun a b => r_line_no a < r_line_no b) new_rows
    /\ StronglySorted (fun a b => d_line_no a < d_line_no b) new_diags.
Proof.
  intros Hdata.
  destruct (BL_process_lines_full (path_name path) date_tag verbose
              (tl (split_lines (Byte.eqb x0a) data)) 2 0%nat st)
    as [st' [nr [nd [E [Hr [Hd [Fr [Fd [Sr Sd]]]]]]]]].
  exists st', nr, nd.
  unfold ByteLevel.process_file, try_M, bind, lift, open_rb_readlines.
  rewrite Hdata. cbn [rbind]. rewrite py_slice_from_1.
  unfold bytes in *. rewrite E.
  repeat split; try assumption.
  - eapply Forall_impl; [|exact Fr]. intros r [i [raw [Hi Hrow]]].
    exists i, raw. now rewrite <- nth_error_tl.
  - eapply Forall_impl; [|exact Fd]. intros d [i [raw [Hi Hdg]]].
    exists i, raw. now rewrite <- nth_error_tl.
Qed.




(** X5: every row appended for a readable file is well formed.  Its
    identifier is non-empty, trimmed and at most 6 characters long; its name
    is trimmed and at most 16 characters long; its change flag is at most one
    character; and its closing price is the text of a value between
    [MIN_PRICE] and 99999.9999 that decodes back to that value. *)
Theorem accepted_rows_well_formed `{Codec}
    (path : Path) (date_tag : pystr) (verbose : bool) (st : buffers) (data : bytes)
    (Hreadable : stored path = Ok data) :
  exists st' new_rows,
    ByteLevel.process_file path date_tag verbose st = (Ok tt, st')
    /\ rows st' = rows st ++ new_rows
    /\ Forall (fun r =>
                 r_stock_id r <> []
                 /\ trimmed (r_stock_id r) /\ (length (r_stock_id r) <= 6)%nat
                 /\ trimmed (r_stock_name r) /\ (length (r_stock_name r) <= 16)%nat
                 /\ trimmed (r_change_flag r) /\ (length (r_change_flag r) <= 1)%nat
                 /\ exists v,
                      r_closing_price r = format_4f v
                      /\ (ByteLevel.MIN_PRICE <= v /\ v <= 999999999 # 10000)%Q
                      /\ ByteLevel.parse_9digit_price (r_closing_price r) = Some v)
         new_rows.
Proof.
  destruct (BL_process_file_readable path date_tag verbose st data Hreadable)
    as [st' [nr [nd [E [Hr [_ [Fr _]]]]]]].
  exists st', nr. repeat (split; [assumption|]).
  eapply Forall_impl; [|exact Fr]. intros r [i [raw [_ Hrow]]].
  destruct Hrow
    as [_ [_ [_ [_ [Hid [Hne [Hname [[flag [Hflag Hf]] [close [v [Hc [Hp [Hs Hprice]]]]]]]]]]]]].
  destruct (slice_bytes_shape _ 0 6 _ ltac:(lia) ltac:(lia) Hid) as [Tid Lid].
  destruct (slice_bytes_shape _ 6 22 _ ltac:(lia) ltac:(lia) Hname) as [Tn Ln].
  split; [exact Hne|]. split; [exact Tid|]. split; [exact Lid|].
  split; [exact Tn|]. split; [exact Ln|].
  split; [rewrite Hf; apply strip_trimmed|].
  split.
  { rewrite Hf. etransitivity; [apply strip_length|].
    etransitivity; [exact (py_decode_length _ _ Hflag)|].
    exact (py_slice_length _ 58 59 ltac:(lia) ltac:(lia)). }
  exists v. split; [exact Hprice|].
  destruct (parse_9digit_price_grid close v Hp) as [n [-> Hn]].
  apply sane_price_true_iff in Hs as [Hmin _].
  split.
  - split; [exact Hmin|].
    change (10 ^ 9) with 1000000000 in Hn. unfold Qle. cbn [Qnum Qden]. lia.
  - rewrite Hprice. exact (parse_format_4f close _ Hp).
Qed.

Lemma accepted_rows_well_formed_witness :
  exists st',
    @ByteLevel.process_file ascii_only five_line_file (lit "20200420") false
      empty_buffers
    = (Ok tt, st')
    /\ map r_stock_id (rows st') = [lit "001240"]
    /\ map r_closing_price (rows st') = [lit "39.8000"].
Proof.
  destruct (@accepted_rows_well_formed ascii_only five_line_file (lit "20200420")
              false empty_buffers _ eq_refl)
    as [st' [nr [E _]]].
  exists st'. split; [exact E|].
  vm_compute in E. injection E as <-. split; reflexivity.
Defined.

(** X6: for a readable file the diagnostics have four reasons and no other:
    [line_too_short], exactly for a line below 59 bytes; [empty_stock_id];
    [close_unparseable]; and [close_out_of_bounds v] with [v] below
    [MIN_PRICE].  The branches for [slice_error] and [file_read_error] are
    never taken.  The preview is at most 100 characters long, the raw
    closing price trimmed and at most 9. *)
Theorem diagnostics_well_formed `{Codec}
    (path : Path) (date_tag : pystr) (verbose : bool) (st : buffers) (data : bytes)
    (Hreadable : stored path = Ok data) :
  exists st' new_diags,
    ByteLevel.process_file path date_tag verbose st = (Ok tt, st')
    /\ debug_rows st' = debug_rows st ++ new_diags
    /\ Forall (fun d =>
                 (length (d_line_preview d) <= 100)%nat
                 /\ trimmed (d_close_raw d) /\ (length (d_close_raw d) <= 9)%nat
                 /\ (d_reason d = line_too_short
                     \/ d_reason d = empty_stock_id
                     \/ d_reason d = close_unparseable
                     \/ exists v, d_reason d = close_out_of_bounds v
                                  /\ (0 <= v /\ v < ByteLevel.MIN_PRICE)%Q)
                 /\ (forall e, d_reason d <> slice_error e
                               /\ d_reason d <> file_read_error e)
                 /\ exists raw,
                      nth_error (split_lines (Byte.eqb x0a) data)
                        (Z.to_nat (d_line_no d - 1)) = Some raw
                      /\ (d_reason d = line_too_short
                          <-> len (rstrip_crlf_bytes raw) < 59))
         new_diags.
Proof.
  destruct (BL_process_file_readable path date_tag verbose st data Hreadable)
    as [st' [nr [nd [E [_ [Hd [_ [Fd _]]]]]]]].
  exists st', nd. repeat (split; [assumption|]).
  eapply Forall_impl; [|exact Fd]. intros d [i [raw [Hi Hdg]]].
  destruct Hdg as [Hne [_ [Hno [Hprev Hcases]]]].
  split.
  { etransitivity; [exact (py_decode_length _ _ Hprev)|].
    exact (py_slice_to_length _ 100 ltac:(lia)). }
  assert (Hraw : nth_error (split_lines (Byte.eqb x0a) data)
                   (Z.to_nat (d_line_no d - 1)) = Some raw).
  { rewrite Hno. replace (Z.to_nat (2 + Z.of_nat i - 1)) with (S i) by lia.
    exact Hi. }
  destruct Hcases as [[Hlt [Hr Hc]] | [Hge [Hc [id [Hid Hwhich]]]]].
  - rewrite Hc, Hr.
    split; [split; intros; destruct t; discriminate|].
    split; [cbn; lia|]. split; [now left|].
    split; [intros e; split; discriminate|].
    exists raw. split; [exact Hraw|]. tauto.
  - destruct (slice_bytes_shape _ 49 58 _ ltac:(lia) ltac:(lia) Hc) as [Tc Lc].
    split; [exact Tc|]. split; [exact Lc|].
    destruct Hwhich as [[_ Hr] | [[_ [_ Hr]] | [_ [v [Hp [Hs Hr]]]]]]; rewrite Hr.
    + split; [right; now left|]. split; [intros e; split; discriminate|].
      exists raw. split; [exact Hraw|]. split; [discriminate | lia].
    + split; [right; right; now left|]. split; [intros e; split; discriminate|].
      exists raw. split; [exact Hraw|]. split; [discriminate | lia].
    + split.
      { right. right. right. exists v. split; [reflexivity|].
        destruct (parse_9digit_price_grid _ v Hp) as [n [En Hn]].
        apply sane_price_false_iff in Hs as [Hl|Hh].
        - split; [|exact Hl]. rewrite En. unfold Qle. cbn [Qnum Qden]. lia.
        - exfalso. rewrite En in Hh. change (10 ^ 9) with 1000000000 in Hn.
          unfold Qlt, ByteLevel.MAX_PRICE in Hh. cbn [Qnum Qden] in Hh. lia. }
      split; [intros e; split; discriminate|].
      exists raw. split; [exact Hraw|]. split; [discriminate | lia].
Qed.

Lemma diagnostics_well_formed_witness :
  exists st',
    @ByteLevel.process_file ascii_only five_line_file (lit "20200420") false
      empty_buffers
    = (Ok tt, st')
    /\ map d_reason (debug_rows st') = [line_too_short; empty_stock_id].
Proof.
  destruct (@diagnostics_well_formed ascii_only five_line_file (lit "20200420")
              false empty_buffers _ eq_refl)
    as [st' [nd [E _]]].
  exists st'. split; [exact E|].
  vm_compute in E. injection E as <-. reflexivity.
Defined.

(** * The guard on the year hint *)

(** X7: the byte-level resolver ignores a year hint that fails its test
    [^\d{4}$] (any hint shorter than four or longer than five characters
    among them): the result is the one for no hint at all, and it is a
    string of eight decimal digits.  A date found in the header is returned
    whatever the hint. *)
Theorem derive_date_for_file_ignores_bad_hint `{Codec} `{UnicodeDB}
    (path : Path) (y : pystr)
    (Hbad : re_match_4digits y = false) :
  ByteLevel.derive_date_for_file path (Some y)
  = ByteLevel.derive_date_for_file path None
  /\ (exists d, ByteLevel.derive_date_for_file path (Some y) = Ok d /\ is_date8 d)
  /\ (forall g hint, ByteLevel.header_date path = Ok (Some g) ->
                     ByteLevel.derive_date_for_file path hint = Ok g)
  /\ (forall s : pystr, (length s < 4 \/ 5 < length s)%nat ->
                        re_match_4digits s = false).
Proof.
  assert (E : ByteLevel.derive_date_for_file path (Some y)
              = ByteLevel.derive_date_for_file path None).
  { unfold ByteLevel.derive_date_for_file. cbn [str_or_empty truthy].
    rewrite Hbad, andb_false_r.
    destruct (ByteLevel.header_date path) as [[g|]|e]; cbn [rbind andb];
      try reflexivity.
    destruct (re_search_paren_tag (path_name path)); [|reflexivity].
    cbv zeta. now rewrite !andb_false_r. }
  split; [exact E|]. split; [|split].
  - rewrite E.
    destruct (BL_derive_date_chain path None I) as [found [Eh Ed]].
    eexists. split; [exact Ed|].
    destruct (BL_header_date_total path) as [found' [Eh' Hf]].
    rewrite Eh in Eh'. injection Eh' as <-.
    destruct found as [g|]; [now apply Hf|].
    destruct (re_search_paren_tag (path_name path)) as [g|] eqn:Et.
    + apply re_search_paren_tag_spec in Et as [_ [Hd _]].
      now apply date_by_tag_is_date8.
    + now apply (date_by_hint_is_date8 None).
  - intros g hint Eh. unfold ByteLevel.derive_date_for_file. now rewrite Eh.
  - intros s Hs. unfold re_match_4digits, match_digits.
    destruct (Nat.leb_spec 4 (length s)) as [H4|H4]; cbn [andb]; [|reflexivity].
    destruct (forallb isdecimal (firstn 4 s)); [|reflexivity].
    destruct s as [|a [|b [|c [|d [|e [|f t]]]]]]; cbn in Hs, H4 |- *;
      try lia; reflexivity.
Qed.

Lemma derive_date_for_file_ignores_bad_hint_witness :
  @ByteLevel.derive_date_for_file ascii_only ascii_digits untagged_file
    (Some (lit "20"))
  = Ok (lit "19700101").
Proof.
  destruct (@derive_date_for_file_ignores_bad_hint ascii_only ascii_digits
              untagged_file (lit "20") eq_refl) as [E _].
  rewrite E. reflexivity.
Defined.

(** * The two quote scripts on ASCII lines *)

Lemma is_crlf_byte_char (b : byte) : is_crlf_byte b = is_crlf_char (Byte.to_N b).
Proof. destruct b; reflexivity. Qed.

Lemma lstrip_with_map {A B} (f : A -> B) (p : B -> bool) (l : list A) :
  lstrip_with p (map f l) = map f (lstrip_with (fun a => p (f a)) l).
Proof.
  induction l as [|a l IH]; [reflexivity|]. cbn [map lstrip_with].
  destruct (p (f a)); [exact IH | reflexivity].
Qed.

Lemma rstrip_with_map {A B} (f : A -> B) (p : B -> bool) (l : list A) :
  rstrip_with p (map f l) = map f (rstrip_with (fun a => p (f a)) l).
Proof.
  unfold rstrip_with. now rewrite <- map_rev, lstrip_with_map, map_rev.
Qed.

Lemma lstrip_with_ext {A} (p q : A -> bool) (l : list A) :
  (forall a, p a = q a) -> lstrip_with p l = lstrip_with q l.
Proof.
  intros Hpq. induction l as [|a l IH]; [reflexivity|].
  cbn [lstrip_with]. rewrite Hpq, IH. reflexivity.
Qed.

Lemma rstrip_crlf_map (bs : bytes) :
  rstrip_crlf (map Byte.to_N bs) = map Byte.to_N (rstrip_crlf_bytes bs).
Proof.
  unfold rstrip_crlf, rstrip_crlf_bytes. rewrite rstrip_with_map.
  unfold rstrip_with. f_equal. f_equal. apply lstrip_with_ext.
  intros b. symmetry. apply is_crlf_byte_char.
Qed.

Lemma py_slice_map {A B} (f : A -> B) (l : list A) (start stop : option Z) :
  py_slice (map f l) start stop = map f (py_slice l start stop).
Proof.
  unfold py_slice, len. rewrite length_map.
  now rewrite <- firstn_map, <- skipn_map.
Qed.

Section AsciiDecode.
Context `{Codec}.

Lemma py_decode_ascii (bs : bytes) :
  forallb ascii_byte bs = true -> py_decode Replace bs = Ok (map Byte.to_N bs).
Proof.
  induction bs as [|b bs IH]; [reflexivity|].
  cbn [forallb]. intros Hb. apply andb_prop in Hb as [Hb Hbs].
  cbn [py_decode map]. unfold ascii_byte in Hb. rewrite Hb, (IH Hbs). reflexivity.
Qed.

Lemma forallb_py_slice {A} (p : A -> bool) (l : list A) (start stop : option Z) :
  forallb p l = true -> forallb p (py_slice l start stop) = true.
Proof.
  intros Hl. unfold py_slice. now apply forallb_firstn, forallb_skipn.
Qed.

(** On an ASCII line, slicing bytes and decoding is slicing the decoded
    line. *)
Lemma slice_bytes_ascii (line : bytes) (start stop : Z) :
  forallb ascii_byte line = true ->
  ByteLevel.slice_bytes line start stop
  = Ok (strip (py_slice (map Byte.to_N line) (Some start) (Some stop))).
Proof.
  intros Hl. unfold ByteLevel.slice_bytes.
  rewrite py_decode_ascii by now apply forallb_py_slice.
  now rewrite py_slice_map.
Qed.
End AsciiDecode.

Lemma isspace_not_digit (c : char) : isspace c = true -> is_ascii_digit c = false.
Proof.
  unfold isspace, is_ascii_digit. intros Hs.
  destruct (N.leb_spec 48 c) as [H1|H1]; [|reflexivity].
  destruct (N.leb_spec c 57) as [H2|H2]; [|reflexivity].
  exfalso.
  repeat match type of Hs with
         | (_ || _)%bool = true => apply orb_prop in Hs as [Hs|Hs]
         end;
    repeat match type of Hs with
           | (_ && _)%bool = true => apply andb_prop in Hs as [? Hs]
           end;
    repeat match goal with
           | K : (_ <=? _)%N = true |- _ => apply N.leb_le in K
           | K : (_ =? _)%N = true |- _ => apply N.eqb_eq in K
           end; lia.
Qed.

Lemma all_space_no_digits (l : pystr) :
  forallb isspace l = true -> re_sub_non_digits l = [].
Proof.
  intros Hl. apply no_digit_iff. intros c Hc.
  apply isspace_not_digit. rewrite forallb_forall in Hl. now apply Hl.
Qed.

(** Trimming removes no digit. *)
Lemma re_sub_non_digits_strip (s : pystr) :
  re_sub_non_digits (strip s) = re_sub_non_digits s.
Proof.
  unfold strip.
  destruct (lstrip_with_split isspace s) as [pre [Es Hpre]].
  destruct (rstrip_with_split isspace (lstrip_with isspace s)) as [suf [Em Hsuf]].
  rewrite Es at 2. rewrite Em at 2.
  rewrite !re_sub_non_digits_app.
  rewrite (all_space_no_digits pre Hpre), (all_space_no_digits suf Hsuf).
  now rewrite app_nil_r.
Qed.

Lemma parse_9digit_price_strip (s : pystr) :
  ByteLevel.parse_9digit_price (strip s) = ByteLevel.parse_9digit_price s.
Proof.
  rewrite !parse_9digit_price_value. now rewrite re_sub_non_digits_strip.
Qed.

Lemma strip_nil_all_space (l : pystr) :
  strip l = [] -> forallb isspace l = true.
Proof.
  unfold strip. intros E.
  destruct (lstrip_with_split isspace l) as [pre [El Hpre]].
  destruct (rstrip_with_split isspace (lstrip_with isspace l)) as [suf [Em Hsuf]].
  rewrite E in Em. cbn [app] in Em.
  rewrite El, Em, forallb_app, Hpre, Hsuf. reflexivity.
Qed.

Lemma all_space_strip_nil (l : pystr) :
  forallb isspace l = true -> strip l = [].
Proof.
  intros H. unfold strip. now rewrite lstrip_with_all.
Qed.

Lemma DG_extract_fields_all line st :
  Diagnostic.extract_fields line st
  = (Ok {| sid := strip (py_slice line (Some 0) (Some 6));
           sname := strip (py_slice line (Some 6) (Some 22));
           close_raw := py_slice line (Some 49) (Some 58);
           change_sym := py_slice line (Some 58) (Some 59) |},
     {| rows := rows st; debug_rows := debug_rows st;
        sliced := sliced st
                  ++ [stock_id; stock_name; close_price_raw; change_flag] |}).
Proof.
  unfold Diagnostic.extract_fields, Diagnostic.slice_field, bind, ret, note_slice.
  cbn [rows debug_rows sliced Diagnostic.POS fst snd].
  rewrite <- !app_assoc. reflexivity.
Qed.

(** On a record line of ASCII bytes that is long enough and not blank, the
    two loop bodies reach the same verdict, whatever the lists hold: both
    append the same row, or both append one diagnostic with the same file,
    line number and reason, whose closing-price texts agree once trimmed. *)
Lemma agree_on_long_ascii_line `{Codec}
    (fname date_tag : pystr) (verbose : bool) (lineno : Z) (sc : nat)
    (raw : bytes) (text : pystr) (sB sD : buffers)
    (Hascii : forallb ascii_byte (rstrip_crlf_bytes raw) = true)
    (Htext : rstrip_crlf text = map Byte.to_N (rstrip_crlf_bytes raw))
    (Hlong : 59 <= len (rstrip_crlf_bytes raw))
    (Hnonblank : nonblank_text text = true) :
  exists sc' stB stD,
    ByteLevel.process_line fname date_tag verbose lineno sc raw sB = (Ok sc', stB)
    /\ Diagnostic.process_line fname date_tag lineno text sD = (Ok tt, stD)
    /\ ((exists r, appended_row sB stB r /\ appended_row sD stD r)
        \/ (exists dB dD, appended_diag sB stB dB /\ appended_diag sD stD dD
                          /\ same_verdict dB dD /\ d_line_no dB = lineno)).
Proof.
  set (line := rstrip_crlf_bytes raw) in *.
  set (L := map Byte.to_N line) in *.
  destruct (BL_extract_fields_eq line sB) as [flds [Ex [Hs [Hn [Hc Hf]]]]].
  destruct (BL_process_line_long fname date_tag verbose lineno sc raw sB flds _
              Hlong Ex) as [sc' [st2 [stB [p [EB [Hnothing [Ep HB]]]]]]].
  destruct (DG_process_line_cases fname date_tag lineno text sD) as [stD [ED CD]].
  cbv zeta in CD. unfold nonblank_text in Hnonblank.
  apply negb_true_iff in Hnonblank. rewrite Hnonblank in CD.
  rewrite Htext in CD. fold L in CD.
  assert (HlenL : len L = len line) by (unfold L, len; now rewrite length_map).
  unfold pystr, char in *. rewrite HlenL in CD.
  destruct (Z.ltb_spec (len line) 59) as [?|_]; [lia|].
  destruct CD as [fD [st1 [ExD [HnD EvD]]]].
  rewrite DG_extract_fields_all in ExD. injection ExD as <- <-.
  match type of EvD with
  | Diagnostic.validate ?a ?b ?c ?d ?e ?f ?s = _ =>
      destruct (DG_validate_cases a b c d e f s) as [stD' [EvD' [_ HD]]]
  end.
  rewrite EvD in EvD'. injection EvD' as <-.
  cbn [sid sname close_raw change_sym] in HD.
  rewrite Diagnostic_parse_9digit_price_eq in HD.
  unfold line in Hs, Hn, Hc, Hf. fold line in Hs, Hn, Hc, Hf.
  rewrite (slice_bytes_ascii line 0 6 Hascii) in Hs.
  rewrite (slice_bytes_ascii line 6 22 Hascii) in Hn.
  rewrite (slice_bytes_ascii line 49 58 Hascii) in Hc.
  rewrite py_decode_ascii in Hf by now apply forallb_py_slice.
  rewrite <- py_slice_map in Hf. fold L in Hs, Hn, Hc, Hf.
  injection Hs as Hs. injection Hn as Hn. injection Hc as Hc. injection Hf as Hf.
  rewrite <- Hs, <- Hn, <- Hc, <- Hf in HB.
  rewrite parse_9digit_price_strip in HB.
  exists sc', stB, stD. split; [exact EB|]. split; [exact ED|].
  change Diagnostic.sane_price with ByteLevel.sane_price in HD.
  unfold pystr, char in *.
  destruct (strip (py_slice L (Some 0) (Some 6))) as [|c0 s0].
  - right. eexists _, _.
    split; [exact (appended_diag_after _ _ _ _ Hnothing HB)|].
    split; [exact (appended_diag_after _ _ _ _ HnD HD)|].
    repeat split.
  - destruct (ByteLevel.parse_9digit_price (py_slice L (Some 49) (Some 58))) as [v|].
    + destruct (ByteLevel.sane_price (Some v)).
      * left. eexists.
        split; [exact (appended_row_after _ _ _ _ Hnothing HB)|].
        exact (appended_row_after _ _ _ _ HnD HD).
      * right. eexists _, _.
        split; [exact (appended_diag_after _ _ _ _ Hnothing HB)|].
        split; [exact (appended_diag_after _ _ _ _ HnD HD)|].
        repeat split.
    + right. eexists _, _.
      split; [exact (appended_diag_after _ _ _ _ Hnothing HB)|].
      split; [exact (appended_diag_after _ _ _ _ HnD HD)|].
      repeat split.
Qed.

(** * extract_stock_for_ml.py: volumes and identifiers *)

Lemma Filter_parse_9digit_price_eq (raw : pystr) :
  Filter.parse_9digit_price raw = ByteLevel.parse_9digit_price raw.
Proof. reflexivity. Qed.

Lemma Filter_slice_bytes_eq `{Codec} (line : bytes) (start stop : Z) :
  ForML.slice_bytes line start stop = ByteLevel.slice_bytes line start stop.
Proof. reflexivity. Qed.

Lemma parse_volume_value (raw : pystr) :
  Filter.parse_volume raw
  = (if is_empty (re_sub_non_digits raw) then None
     else Some (digits_value (re_sub_non_digits raw))).
Proof.
  unfold Filter.parse_volume.
  destruct raw as [|c raw]; [reflexivity|]. cbn [is_empty].
  destruct (re_sub_non_digits (c :: raw)) as [|d ds] eqn:E; [reflexivity|].
  cbn [is_empty]. rewrite <- E.
  rewrite py_int_digits; [reflexivity | rewrite E; discriminate |].
  apply re_sub_non_digits_all.
Qed.

Lemma re_sub_non_digits_length (raw : pystr) :
  (length (re_sub_non_digits raw) <= length raw)%nat.
Proof. unfold re_sub_non_digits. apply filter_length_le. Qed.

Lemma re_sub_non_digits_idem (raw : pystr) :
  re_sub_non_digits (re_sub_non_digits raw) = re_sub_non_digits raw.
Proof. apply re_sub_non_digits_id, re_sub_non_digits_all. Qed.

Lemma parse_volume_bound (raw : pystr) (n : Z) :
  Filter.parse_volume raw = Some n -> 0 <= n < 10 ^ len raw.
Proof.
  rewrite parse_volume_value.
  destruct (is_empty (re_sub_non_digits raw)); [discriminate|].
  intros E. injection E as <-.
  pose proof (digits_value_range _ (re_sub_non_digits_all raw)) as R.
  pose proof (re_sub_non_digits_length raw) as L.
  split; [apply R|].
  apply Z.lt_le_trans with (10 ^ len (re_sub_non_digits raw)); [apply R|].
  apply Z.pow_le_mono_r; unfold len; lia.
Qed.

(** X9: [parse_volume] returns [None] exactly when its input has no ASCII
    digit; otherwise it returns the number that the digits of the input
    spell, whatever stands between them, a number that is not negative and
    has no more digits than the input has characters.  The input is taken to
    have at most 4300 characters, the length up to which [int] converts any
    string of digits. *)
Theorem parse_volume_closed_form (raw : pystr)
    (Hlen : (length raw <= 4300)%nat) :
  Filter.parse_volume raw
  = (if is_empty (re_sub_non_digits raw) then None
     else Some (digits_value (re_sub_non_digits raw)))
  /\ (Filter.parse_volume raw = None
      <-> forall c, In c raw -> is_ascii_digit c = false)
  /\ (forall n, Filter.parse_volume raw = Some n -> 0 <= n < 10 ^ len raw)
  /\ Filter.parse_volume (re_sub_non_digits raw) = Filter.parse_volume raw
  /\ Filter.parse_volume (strip raw) = Filter.parse_volume raw.
Proof.
  split; [apply parse_volume_value|].
  split.
  { rewrite parse_volume_value, <- no_digit_iff.
    destruct (re_sub_non_digits raw); cbn [is_empty]; split;
      intros E; first [reflexivity | discriminate]. }
  split; [apply parse_volume_bound|].
  split.
  - now rewrite !parse_volume_value, re_sub_non_digits_idem.
  - now rewrite !parse_volume_value, re_sub_non_digits_strip.
Qed.

Lemma parse_volume_closed_form_witness :
  Filter.parse_volume (lit " 1,234 ") = Some 1234
  /\ Filter.parse_volume (lit "n/a") = None.
Proof.
  destruct (parse_volume_closed_form (lit " 1,234 ")) as [E _].
  { cbn. lia. }
  split; [exact E | reflexivity].
Defined.

Lemma trimmed_strip (s : pystr) : trimmed s -> strip s = s.
Proof.
  intros [Hh Hl]. unfold strip.
  assert (E1 : lstrip_with isspace s = s).
  { destruct s as [|c t]; [reflexivity|].
    cbn [lstrip_with]. now rewrite (Hh c t eq_refl). }
  rewrite E1. unfold rstrip_with.
  destruct (rev s) as [|c t] eqn:Er.
  - apply (f_equal (@rev _)) in Er. rewrite rev_involutive in Er. now subst s.
  - assert (Es : s = rev t ++ [c]).
    { apply (f_equal (@rev _)) in Er. now rewrite rev_involutive in Er. }
    cbn [lstrip_with]. rewrite (Hl (rev t) c Es).
    now rewrite Es.
Qed.

Lemma strip_idem (s : pystr) : strip (strip s) = strip s.
Proof. apply trimmed_strip, strip_trimmed. Qed.

Lemma forallb_false_app {A} (p : A -> bool) (pre : list A) (d : A) (rest : list A) :
  p d = false -> forallb p (pre ++ d :: rest) = false.
Proof.
  intros Hd. rewrite forallb_app. cbn [forallb]. rewrite Hd.
  now rewrite andb_false_r.
Qed.

Section DecimalFacts.
Context `{DigitValues}.

(** On a trimmed string [^\d+$] holds exactly for the non-empty strings of
    decimal digits: there is no final newline for [$] to stop before. *)
Lemma re_match_digits_trimmed (t : pystr) :
  trimmed t -> re_match_digits t = negb (is_empty t) && forallb isdecimal t.
Proof.
  intros [_ Hl]. destruct t as [|c t']; [reflexivity|].
  cbn [re_match_digits is_empty negb andb].
  destruct (isdecimal c) eqn:Hc; [|cbn [forallb]; now rewrite Hc].
  cbn [andb].
  destruct (lstrip_with_split isdecimal (c :: t')) as [pre [Et Hpre]].
  destruct (lstrip_with isdecimal (c :: t')) as [|d rest] eqn:El.
  - rewrite app_nil_r in Et. rewrite Et. now rewrite Hpre.
  - pose proof (lstrip_with_head _ _ _ _ El) as Hd.
    rewrite Et. rewrite (forallb_false_app _ pre d rest Hd).
    destruct rest as [|e rest]; [|reflexivity].
    pose proof (Hl pre d Et) as Hsp.
    destruct (N.eqb_spec d 10) as [->|]; [discriminate Hsp | reflexivity].
Qed.

Lemma decimal_value_ascii_acc (s : pystr) (acc : Z) :
  forallb is_ascii_digit s = true ->
  fold_left (fun a c => 10 * a + digit_value c) s acc
  = fold_left (fun a c => 10 * a + digit_val c) s acc.
Proof.
  revert acc. induction s as [|c s IH]; intros acc Hs; [reflexivity|].
  cbn [forallb] in Hs. apply andb_prop in Hs as [Hc Hs].
  cbn [fold_left]. rewrite (digit_value_ascii c Hc). now apply IH.
Qed.

Lemma decimal_value_ascii (s : pystr) :
  forallb is_ascii_digit s = true -> decimal_value s = digits_value s.
Proof. apply decimal_value_ascii_acc. Qed.

Lemma ascii_digits_decimal (s : pystr) :
  forallb is_ascii_digit s = true -> forallb isdecimal s = true.
Proof.
  intros Hs. apply forallb_forall. intros c Hc.
  apply isdecimal_ascii. rewrite forallb_forall in Hs. now apply Hs.
Qed.

Lemma py_int_decimal_trimmed (t : pystr) :
  trimmed t -> t <> [] -> forallb isdecimal t = true ->
  py_int_decimal t = Ok (decimal_value t).
Proof.
  intros Ht Hne Hd. unfold py_int_decimal. rewrite (trimmed_strip t Ht).
  destruct t as [|c t']; [contradiction|]. now rewrite Hd.
Qed.

Lemma is_valid_stock_id_iff (stock_id : pystr) :
  Filter.is_valid_stock_id stock_id = true
  <-> strip stock_id <> []
      /\ forallb isdecimal (strip stock_id) = true
      /\ 1000 <= decimal_value (strip stock_id) <= 9999.
Proof.
  unfold Filter.is_valid_stock_id.
  destruct stock_id as [|c0 s0] eqn:Es.
  { cbn [is_empty]. split; [discriminate|]. intros [Hne _]. now elim Hne. }
  cbn [is_empty]. rewrite <- Es. clear Es c0 s0. cbv zeta.
  rewrite (re_match_digits_trimmed _ (strip_trimmed stock_id)).
  destruct (strip stock_id) as [|c t] eqn:Et.
  { cbn. split; [discriminate|]. intros [Hne _]. now elim Hne. }
  rewrite <- Et. assert (Hne : strip stock_id <> []) by (rewrite Et; discriminate).
  replace (is_empty (strip stock_id)) with false by (now rewrite Et).
  cbn [negb andb].
  destruct (forallb isdecimal (strip stock_id)) eqn:Hd; cbn [negb].
  - rewrite (py_int_decimal_trimmed _ (strip_trimmed stock_id) Hne Hd).
    set (n := decimal_value (strip stock_id)).
    destruct (Z.ltb_spec n 1000), (Z.leb_spec 700000 n), (Z.leb_spec 1000 n),
      (Z.leb_spec n 9999); cbn; split; intros K;
      first [discriminate | reflexivity | lia
            | (repeat split; first [assumption | lia])
            | (destruct K as [_ [_ K]]; lia)].
  - split; [discriminate|]. intros [_ [K _]]. discriminate.
Qed.
End DecimalFacts.

Lemma normalize_id_canonical (sid : pystr) : Filter.normalize_id sid = canonical sid.
Proof. reflexivity. Qed.

(** A digit string that does not start with a zero has a value of as many
    digits as it has characters. *)
Lemma digits_value_leading (c : char) (y : pystr) :
  forallb is_ascii_digit (c :: y) = true -> c <> char_0 ->
  10 ^ len y <= digits_value (c :: y) < 10 ^ (len y + 1).
Proof.
  intros Hd Hc.
  pose proof (digits_value_range _ Hd) as R.
  replace (len (c :: y)) with (len y + 1) in R
    by (unfold len; cbn [length]; lia).
  split; [|apply R].
  cbn [forallb] in Hd. apply andb_prop in Hd as [Hcd Hy].
  pose proof (digits_value_range _ Hy) as Ry.
  change (c :: y) with ([c] ++ y). rewrite digits_value_app.
  assert (P : 0 < 10 ^ len y) by (apply Z.pow_pos_nonneg; unfold len; lia).
  assert (V : 1 <= digits_value [c]).
  { unfold digits_value. cbn [fold_left]. unfold digit_val.
    unfold is_ascii_digit in Hcd. apply andb_prop in Hcd as [H1 H2].
    apply N.leb_le in H1. apply N.leb_le in H2.
    unfold char_0 in Hc. lia. }
  nia.
Qed.

Lemma canonical_cases (x : pystr) :
  forallb is_ascii_digit x = true ->
  (canonical x = [char_0] /\ digits_value x = 0)
  \/ (exists c y, canonical x = c :: y /\ c <> char_0
                  /\ 10 ^ len y <= digits_value x < 10 ^ (len y + 1)).
Proof.
  intros Hx.
  pose proof (digits_value_canonical x) as V.
  destruct (canonical_digits x Hx) as [_ Hc].
  unfold canonical in *.
  destruct (lstrip_with (N.eqb char_0) x) as [|c y] eqn:E.
  - left. split; [reflexivity|]. rewrite <- V. reflexivity.
  - right. exists c, y. split; [reflexivity|].
    pose proof (lstrip_with_head _ _ _ _ E) as Hh.
    assert (Hne : c <> char_0).
    { intros ->. now rewrite N.eqb_refl in Hh. }
    split; [exact Hne|]. rewrite <- V. now apply digits_value_leading.
Qed.

Lemma four_digits_iff (x : pystr) :
  forallb is_ascii_digit x = true ->
  (1000 <= digits_value x <= 9999 <-> length (canonical x) = 4%nat).
Proof.
  intros Hx. destruct (canonical_cases x Hx) as [[E V] | [c [y [E [Hc R]]]]].
  - rewrite E, V. cbn [length]. split; [lia | discriminate].
  - rewrite E. cbn [length]. unfold len in R. split.
    + intros [Hlo Hhi].
      destruct (Nat.lt_trichotomy (length y) 3) as [L|[L|L]]; [| now rewrite L |].
      * assert (10 ^ (Z.of_nat (length y) + 1) <= 10 ^ 3)
          by (apply Z.pow_le_mono_r; lia).
        change (10 ^ 3) with 1000 in *. lia.
      * assert (10 ^ 4 <= 10 ^ Z.of_nat (length y))
          by (apply Z.pow_le_mono_r; lia).
        change (10 ^ 4) with 10000 in *. lia.
    + intros L. injection L as L. rewrite L in R.
      change (10 ^ Z.of_nat 3) with 1000 in R.
      change (10 ^ (Z.of_nat 3 + 1)) with 10000 in R. lia.
Qed.

(** X10: [is_valid_stock_id] accepts exactly the identifiers that, once
    trimmed, are a non-empty string of decimal digits whose value lies
    between 1000 and 9999 (so the test against 700000 rejects nothing that
    the last test would keep).  For an identifier of ASCII digits this is to
    say that it has exactly four digits after its leading zeros, and those
    four digits are what the normalisation [sid.lstrip('0') or '0'] keeps.
    The identifier is taken to have at most 4300 characters, the length up to
    which [int] converts any string of digits. *)
Theorem is_valid_stock_id_spec `{DigitValues} (stock_id : pystr)
    (Hlen : (length stock_id <= 4300)%nat) :
  (Filter.is_valid_stock_id stock_id = true
   <-> strip stock_id <> []
       /\ forallb isdecimal (strip stock_id) = true
       /\ 1000 <= decimal_value (strip stock_id) <= 9999)
  /\ (forallb is_ascii_digit (strip stock_id) = true ->
      (Filter.is_valid_stock_id stock_id = true
       <-> length (Filter.normalize_id (strip stock_id)) = 4%nat)
      /\ (Filter.is_valid_stock_id stock_id = true ->
          Filter.normalize_id (strip stock_id)
          = fixed_digits 4 (Z.to_N (digits_value (strip stock_id))))).
Proof.
  split; [apply is_valid_stock_id_iff|].
  intros Ha. rewrite normalize_id_canonical.
  pose proof (four_digits_iff _ Ha) as F.
  assert (G : Filter.is_valid_stock_id stock_id = true
              <-> length (canonical (strip stock_id)) = 4%nat).
  { rewrite <- F, is_valid_stock_id_iff, (decimal_value_ascii _ Ha).
    split.
    - intros [_ [_ K]]. exact K.
    - intros K. split; [|split; [now apply ascii_digits_decimal | exact K]].
      intros E. rewrite E in K. cbn in K. lia. }
  split; [exact G|].
  intros Hv. apply G in Hv.
  destruct (canonical_digits _ Ha) as [_ Hc].
  rewrite <- (fixed_digits_value _ Hc) at 1.
  now rewrite Hv, digits_value_canonical.
Qed.

Lemma is_valid_stock_id_spec_witness :
  @Filter.is_valid_stock_id ascii_digits ascii_digit_values (lit "001240") = true
  /\ Filter.normalize_id (lit "001240") = lit "1240"
  /\ @Filter.is_valid_stock_id ascii_digits ascii_digit_values (lit "700123") = false
  /\ @Filter.is_valid_stock_id ascii_digits ascii_digit_values (lit "000050") = false.
Proof.
  destruct (@is_valid_stock_id_spec ascii_digits ascii_digit_values (lit "001240"))
    as [_ K].
  { cbn. lia. }
  destruct (K eq_refl) as [[_ V] N].
  split; [exact (V eq_refl)|].
  split; [exact (N (V eq_refl))|].
  split; reflexivity.
Defined.

(** * extract_stock_for_ml.py: the loop of [process_file] *)

Section FilterLines.
Context `{Codec} `{DigitValues}.

Lemma required_len_107 : py_max (map snd Filter.BYTE_POS_values) = Ok 107.
Proof. reflexivity. Qed.

Lemma FL_slice_field_total (f : Filter.field) (line : bytes) :
  exists s, Filter.slice_field f line = Ok s.
Proof. unfold Filter.slice_field. apply slice_bytes_total. Qed.

(** The extraction block never raises: the reason [extraction_error] is
    dead. *)
Lemma FL_extract_fields_total (line : bytes) :
  exists x, Filter.extract_fields line = Ok x.
Proof.
  unfold Filter.extract_fields.
  destruct (FL_slice_field_total Filter.stock_id line) as [s ->].
  destruct (FL_slice_field_total Filter.open_price_raw line) as [o ->].
  destruct (FL_slice_field_total Filter.high_price_raw line) as [h ->].
  destruct (FL_slice_field_total Filter.low_price_raw line) as [l ->].
  destruct (FL_slice_field_total Filter.close_price_raw line) as [c ->].
  destruct (FL_slice_field_total Filter.change_flag line) as [f ->].
  destruct (FL_slice_field_total Filter.change_amount_raw line) as [a ->].
  destruct (FL_slice_field_total Filter.volume_raw line) as [v ->].
  destruct (FL_slice_field_total Filter.amount_raw line) as [m ->].
  cbn [rbind]. eexists. reflexivity.
Qed.

Lemma FL_extract_fields_slices (line : bytes) (x : Filter.extracted) :
  Filter.extract_fields line = Ok x ->
  ByteLevel.slice_bytes line 0 6 = Ok (Filter.sid x)
  /\ ByteLevel.slice_bytes line 22 31 = Ok (Filter.open_raw x)
  /\ ByteLevel.slice_bytes line 31 40 = Ok (Filter.high_raw x)
  /\ ByteLevel.slice_bytes line 40 49 = Ok (Filter.low_raw x)
  /\ ByteLevel.slice_bytes line 49 58 = Ok (Filter.close_raw x)
  /\ ByteLevel.slice_bytes line 58 59 = Ok (Filter.flag x)
  /\ ByteLevel.slice_bytes line 59 68 = Ok (Filter.change_amt_raw x)
  /\ ByteLevel.slice_bytes line 77 86 = Ok (Filter.volume_raw_text x)
  /\ ByteLevel.slice_bytes line 95 107 = Ok (Filter.amount_raw_text x).
Proof.
  unfold Filter.extract_fields.
  destruct (FL_slice_field_total Filter.stock_id line) as [s Es].
  destruct (FL_slice_field_total Filter.open_price_raw line) as [o Eo].
  destruct (FL_slice_field_total Filter.high_price_raw line) as [h Eh].
  destruct (FL_slice_field_total Filter.low_price_raw line) as [l El].
  destruct (FL_slice_field_total Filter.close_price_raw line) as [c Ec].
  destruct (FL_slice_field_total Filter.change_flag line) as [f Ef].
  destruct (FL_slice_field_total Filter.change_amount_raw line) as [a Ea].
  destruct (FL_slice_field_total Filter.volume_raw line) as [v Ev].
  destruct (FL_slice_field_total Filter.amount_raw line) as [m Em].
  rewrite Es, Eo, Eh, El, Ec, Ef, Ea, Ev, Em. cbn [rbind].
  intros E. injection E as <-.
  cbn [Filter.sid Filter.open_raw Filter.high_raw Filter.low_raw Filter.close_raw
       Filter.flag Filter.change_amt_raw Filter.volume_raw_text Filter.amount_raw_text].
  repeat split; assumption.
Qed.

Lemma FL_reject_line_eq fname lineno why line st :
  exists preview,
    py_decode Replace (py_slice line None (Some 80)) = Ok preview
    /\ Filter.reject_line fname lineno why line st
       = (Ok tt, with_diag st {| Filter.d_file := fname; Filter.d_line_no := lineno;
                                 Filter.d_reason := why;
                                 Filter.d_preview := preview |}).
Proof.
  destruct (py_decode_replace_total (py_slice line None (Some 80))) as [p E].
  exists p. split; [exact E|].
  unfold Filter.reject_line, st_bind, st_lift, Filter.append_debug.
  rewrite E. reflexivity.
Qed.

(** The checks on an extracted line: one row or one diagnostic. *)
Lemma FL_validate_cases fname date_tag lineno line x st :
  line <> [] -> 107 <= len line -> Filter.extract_fields line = Ok x ->
  exists st',
    Filter.validate fname date_tag lineno x st = (Ok tt, st')
    /\ ((exists r, st' = with_row st r /\ kept_row date_tag line r)
        \/ (exists d, st' = with_diag st d /\ dropped_line fname lineno line d)).
Proof.
  intros Hne Hlen Hx. unfold Filter.validate.
  destruct (Filter.is_valid_stock_id (Filter.sid x)) eqn:Hv; cbn [negb].
  2:{ eexists. split; [reflexivity|]. right. eexists. split; [reflexivity|].
      unfold dropped_line. cbn [Filter.d_file Filter.d_line_no Filter.d_reason
                                  Filter.d_preview].
      repeat (split; [first [assumption | reflexivity]|]).
      right. split; [exact Hlen|]. exists x. split; [exact Hx|].
      split; [reflexivity|]. cbv zeta. left. split; [exact Hv | reflexivity]. }
  cbv zeta.
  destruct (Filter.close_rejected (Filter.parse_9digit_price (Filter.close_raw x)))
    eqn:Hc.
  { eexists. split; [reflexivity|]. right. eexists. split; [reflexivity|].
    unfold dropped_line. cbn [Filter.d_file Filter.d_line_no Filter.d_reason
                                Filter.d_preview].
    repeat (split; [first [assumption | reflexivity]|]).
    right. split; [exact Hlen|]. exists x. split; [exact Hx|].
    split; [reflexivity|]. cbv zeta. right. left.
    repeat split; assumption. }
  destruct (Filter.too_low (Filter.parse_volume (Filter.volume_raw_text x))
              Filter.MIN_VOLUME) eqn:Hvol.
  { eexists. split; [reflexivity|]. right. eexists. split; [reflexivity|].
    unfold dropped_line. cbn [Filter.d_file Filter.d_line_no Filter.d_reason
                                Filter.d_preview].
    repeat (split; [first [assumption | reflexivity]|]).
    right. split; [exact Hlen|]. exists x. split; [exact Hx|].
    split; [reflexivity|]. cbv zeta. right. right. left.
    repeat split; assumption. }
  destruct (Filter.too_low (Filter.parse_volume (Filter.amount_raw_text x))
              Filter.MIN_AMOUNT) eqn:Ham.
  { eexists. split; [reflexivity|]. right. eexists. split; [reflexivity|].
    unfold dropped_line. cbn [Filter.d_file Filter.d_line_no Filter.d_reason
                                Filter.d_preview].
    repeat (split; [first [assumption | reflexivity]|]).
    right. split; [exact Hlen|]. exists x. split; [exact Hx|].
    split; [reflexivity|]. cbv zeta. right. right. right.
    repeat split; assumption. }
  eexists. split; [reflexivity|]. left. eexists. split; [reflexivity|].
  unfold kept_row. split; [exact Hlen|]. exists x.
  repeat (split; [assumption|]). reflexivity.
Qed.

Lemma FL_process_line_full fname date_tag lineno raw st :
  exists st',
    Filter.process_line fname date_tag lineno raw st = (Ok tt, st')
    /\ ((rstrip_crlf_bytes raw = [] /\ st' = st)
        \/ (exists r, st' = with_row st r
                      /\ kept_row date_tag (rstrip_crlf_bytes raw) r)
        \/ (exists d, st' = with_diag st d
                      /\ dropped_line fname lineno (rstrip_crlf_bytes raw) d)).
Proof.
  unfold Filter.process_line. cbv zeta.
  destruct (rstrip_crlf_bytes raw) as [|b0 l0] eqn:Hline.
  { exists st. split; [reflexivity|]. left. split; reflexivity. }
  rewrite <- Hline.
  assert (Hne : rstrip_crlf_bytes raw <> []) by (rewrite Hline; discriminate).
  assert (Hpos : (len (rstrip_crlf_bytes raw) =? 0) = false).
  { apply Z.eqb_neq. rewrite Hline. unfold len. cbn [length]. lia. }
  rewrite Hpos. clear Hline b0 l0.
  unfold st_bind at 1. unfold st_lift at 1. rewrite required_len_107.
  destruct (Z.ltb_spec (len (rstrip_crlf_bytes raw)) 107) as [Hlt|Hge].
  - destruct (FL_reject_line_eq fname lineno Filter.line_too_short
                (rstrip_crlf_bytes raw) st) as [p [Ep ->]].
    eexists. split; [reflexivity|]. right. right. eexists. split; [reflexivity|].
    unfold dropped_line. cbn [Filter.d_file Filter.d_line_no Filter.d_reason
                                Filter.d_preview].
    repeat (split; [first [assumption | reflexivity]|]).
    left. repeat split; assumption.
  - destruct (FL_extract_fields_total (rstrip_crlf_bytes raw)) as [x Hx].
    unfold st_bind at 1. unfold st_try. unfold st_bind at 1. unfold st_lift at 1.
    rewrite Hx. unfold st_ret at 1.
    destruct (FL_validate_cases fname date_tag lineno _ x st Hne Hge Hx)
      as [st' [Ev C]].
    exists st'. split; [exact Ev|]. right. exact C.
Qed.

Lemma FL_process_lines_full fname date_tag lines :
  forall lineno st,
  exists st' new_rows new_diags,
    Filter.process_lines fname date_tag lineno lines st = (Ok tt, st')
    /\ Filter.rows st' = Filter.rows st ++ new_rows
    /\ Filter.debug_rows st' = Filter.debug_rows st ++ new_diags
    /\ Forall (fun r => exists i raw,
                 nth_error lines i = Some raw
                 /\ kept_row date_tag (rstrip_crlf_bytes raw) r) new_rows
    /\ Forall (fun d => exists i raw,
                 nth_error lines i = Some raw
                 /\ dropped_line fname (lineno + Z.of_nat i)
                      (rstrip_crlf_bytes raw) d) new_diags
    /\ (length new_rows + length new_diags = count nonempty_bytes lines)%nat.
Proof.
  induction lines as [|raw rest IH]; intros lineno st.
  - exists st, [], []. cbn [Filter.process_lines]. unfold st_ret.
    rewrite !app_nil_r. repeat split; constructor.
  - destruct (FL_process_line_full fname date_tag lineno raw st) as [st1 [E1 C1]].
    destruct (IH (lineno + 1) st1) as [st' [nr [nd [E2 [Hr [Hd [Fr [Fd Hn]]]]]]]].
    assert (Fr' : Forall (fun r => exists i raw0,
                     nth_error (raw :: rest) i = Some raw0
                     /\ kept_row date_tag (rstrip_crlf_bytes raw0) r) nr).
    { eapply Forall_impl; [|exact Fr]. intros r [i [raw0 [Hi Hrow]]].
      exists (S i), raw0. split; [exact Hi | exact Hrow]. }
    assert (Fd' : Forall (fun d => exists i raw0,
                     nth_error (raw :: rest) i = Some raw0
                     /\ dropped_line fname (lineno + Z.of_nat i)
                          (rstrip_crlf_bytes raw0) d) nd).
    { eapply Forall_impl; [|exact Fd]. intros d [i [raw0 [Hi Hdg]]].
      exists (S i), raw0. split; [exact Hi|].
      replace (lineno + Z.of_nat (S i)) with (lineno + 1 + Z.of_nat i) by lia.
      exact Hdg. }
    cbn [Filter.process_lines]. unfold st_bind. rewrite E1.
    unfold count in *. cbn [filter]. unfold nonempty_bytes at 1.
    destruct C1 as [[Hline ->] | [[r [-> Hrow]] | [d [-> Hdg]]]].
    + exists st', nr, nd. rewrite Hline. cbn [is_empty negb].
      repeat split; assumption.
    + exists st', (r :: nr), nd. rewrite Hr, Hd.
      cbn [with_row Filter.rows Filter.debug_rows]. rewrite <- app_assoc.
      split; [exact E2|]. split; [reflexivity|]. split; [reflexivity|].
      split.
      { constructor; [|exact Fr']. exists 0%nat, raw. split; [reflexivity | exact Hrow]. }
      split; [exact Fd'|].
      destruct Hrow as [Hlen _].
      destruct (rstrip_crlf_bytes raw); [cbn in Hlen; lia|].
      cbn [is_empty negb length]. cbn [length] in Hn. lia.
    + exists st', nr, (d :: nd). rewrite Hr, Hd.
      cbn [with_diag Filter.rows Filter.debug_rows]. rewrite <- app_assoc.
      split; [exact E2|]. split; [reflexivity|]. split; [reflexivity|].
      split; [exact Fr'|]. split.
      { constructor; [|exact Fd']. exists 0%nat, raw. split; [reflexivity|].
        now rewrite Z.add_0_r. }
      destruct Hdg as [Hne _].
      destruct (rstrip_crlf_bytes raw); [now elim Hne|].
      cbn [is_empty negb length]. cbn [length] in Hn. lia.
Qed.

Lemma FL_process_file_readable path date_tag st data :
  stored path = Ok data ->
  exists st' new_rows new_diags,
    Filter.process_file path date_tag st = (Ok tt, st')
    /\ Filter.rows st' = Filter.rows st ++ new_rows
    /\ Filter.debug_rows st' = Filter.debug_rows st ++ new_diags
    /\ Forall (fun r => exists i raw,
                 nth_error (split_lines (Byte.eqb x0a) data) (S i) = Some raw
                 /\ kept_row date_tag (rstrip_crlf_bytes raw) r) new_rows
    /\ Forall (fun d => exists i raw,
                 nth_error (split_lines (Byte.eqb x0a) data) (S i) = Some raw
                 /\ dropped_line (path_name path) (2 + Z.of_nat i)
                      (rstrip_crlf_bytes raw) d) new_diags
    /\ (length new_rows + length new_diags
        = count nonempty_bytes (tl (split_lines (Byte.eqb x0a) data)))%nat.
Proof.
  intros Hdata.
  destruct (FL_process_lines_full (path_name path) date_tag
              (tl (split_lines (Byte.eqb x0a) data)) 2 st)
    as [st' [nr [nd [E [Hr [Hd [Fr [Fd Hn]]]]]]]].
  exists st', nr, nd.
  unfold Filter.process_file, st_try, st_bind, st_lift, open_rb_readlines.
  rewrite Hdata. cbn [rbind]. rewrite py_slice_from_1.
  unfold bytes in *. rewrite E.
  repeat split; try assumption.
  - eapply Forall_impl; [|exact Fr]. intros r [i [raw [Hi Hrow]]].
    exists i, raw. now rewrite <- nth_error_tl.
  - eapply Forall_impl; [|exact Fd]. intros d [i [raw [Hi Hdg]]].
    exists i, raw. now rewrite <- nth_error_tl.
Qed.
End FilterLines.

(** * extract_stock_for_ml.py: what is kept and what is dropped *)

Lemma close_rejected_false (c : option Q) :
  Filter.close_rejected c = false ->
  exists v, c = Some v /\ (Filter.MIN_PRICE <= v /\ v <= Filter.MAX_PRICE)%Q.
Proof.
  destruct c as [v|]; [|discriminate]. cbn [Filter.close_rejected].
  intros E. apply orb_false_elim in E as [_ E].
  apply negb_false_iff, andb_prop in E as [E1 E2].
  apply Qle_bool_iff in E1. apply Qle_bool_iff in E2.
  exists v. repeat split; assumption.
Qed.

Lemma close_rejected_true (c : option Q) :
  Filter.close_rejected c = true ->
  c = None
  \/ exists v, c = Some v /\ (v < Filter.MIN_PRICE \/ Filter.MAX_PRICE < v)%Q.
Proof.
  destruct c as [v|]; [|now left]. cbn [Filter.close_rejected].
  intros E. right. exists v. split; [reflexivity|].
  apply orb_prop in E as [E|E].
  - apply Qeq_bool_iff in E. left. rewrite E. reflexivity.
  - apply negb_true_iff, andb_false_iff in E as [E|E].
    + left. apply Qnot_le_lt. intros K. apply Qle_bool_iff in K. congruence.
    + right. apply Qnot_le_lt. intros K. apply Qle_bool_iff in K. congruence.
Qed.

Lemma too_low_false (n : option Z) (bound : Z) :
  Filter.too_low n bound = false -> exists k, n = Some k /\ bound <= k.
Proof.
  destruct n as [k|]; [|discriminate]. cbn [Filter.too_low].
  intros E. apply orb_false_elim in E as [_ E]. apply Z.ltb_ge in E.
  exists k. split; [reflexivity | exact E].
Qed.

Lemma too_low_true (n : option Z) (bound : Z) :
  0 < bound -> Filter.too_low n bound = true ->
  n = None \/ exists k, n = Some k /\ k < bound.
Proof.
  intros Hb. destruct n as [k|]; [|now left]. cbn [Filter.too_low].
  intros E. right. exists k. split; [reflexivity|].
  apply orb_prop in E as [E|E]; [apply Z.eqb_eq in E | apply Z.ltb_lt in E]; lia.
Qed.

Lemma price_or_none_some (p : option Q) (v : Q) :
  Filter.price_or_none p = Some v -> p = Some v /\ (Filter.MIN_PRICE <= v)%Q.
Proof.
  destruct p as [w|]; [|discriminate]. cbn [Filter.price_or_none].
  destruct (negb (Qeq_bool w 0) && Qle_bool Filter.MIN_PRICE w) eqn:E; [|discriminate].
  intros K. injection K as <-. apply andb_prop in E as [_ E].
  apply Qle_bool_iff in E. split; [reflexivity | exact E].
Qed.

Lemma parsed_price_at_most (raw : pystr) (v : Q) :
  ByteLevel.parse_9digit_price raw = Some v -> (0 <= v /\ v <= 999999999 # 10000)%Q.
Proof.
  intros Hp. destruct (parse_9digit_price_grid raw v Hp) as [n [-> Hn]].
  change (10 ^ 9) with 1000000000 in Hn. unfold Qle. cbn [Qnum Qden]. lia.
Qed.

(** X11: every row the filter appends for a readable file is well formed.
    Its date is the date passed in; its identifier is the normalised form of
    a valid identifier of at most six characters; its closing price lies
    between [MIN_PRICE] and 99999.9999; its volume is at least [MIN_VOLUME]
    and below 10^9, its amount at least [MIN_AMOUNT] and below 10^12; an
    opening, highest or lowest price is absent or at least [MIN_PRICE]; and
    the change flag is trimmed and at most one character. *)
Theorem filter_rows_well_formed `{Codec} `{DigitValues}
    (path : Path) (date_tag : pystr) (st : Filter.buffers) (data : bytes)
    (Hreadable : stored path = Ok data) :
  exists st' new_rows,
    Filter.process_file path date_tag st = (Ok tt, st')
    /\ Filter.rows st' = Filter.rows st ++ new_rows
    /\ Forall (fun r =>
                 Filter.r_date r = date_tag
                 /\ (exists id,
                       Filter.is_valid_stock_id id = true
                       /\ trimmed id /\ (length id <= 6)%nat
                       /\ Filter.r_stock_id r = Filter.normalize_id id)
                 /\ (exists v,
                       Filter.r_closing_price r = Some v
                       /\ (Filter.MIN_PRICE <= v /\ v <= 999999999 # 10000)%Q)
                 /\ (exists n, Filter.r_volume r = Some n
                               /\ Filter.MIN_VOLUME <= n < 10 ^ 9)
                 /\ (exists m, Filter.r_amount r = Some m
                               /\ Filter.MIN_AMOUNT <= m < 10 ^ 12)
                 /\ (forall p,
                       Filter.r_open_price r = Some p
                       \/ Filter.r_high_price r = Some p
                       \/ Filter.r_low_price r = Some p ->
                       (Filter.MIN_PRICE <= p /\ p <= 999999999 # 10000)%Q)
                 /\ trimmed (Filter.r_change_flag r)
                 /\ (length (Filter.r_change_flag r) <= 1)%nat)
         new_rows.
Proof.
  destruct (FL_process_file_readable path date_tag st data Hreadable)
    as [st' [nr [nd [E [Hr [_ [Fr _]]]]]]].
  exists st', nr. repeat (split; [assumption|]).
  eapply Forall_impl; [|exact Fr]. intros r [i [raw [_ Hrow]]].
  destruct Hrow as [_ [x [Hx [Hv [Hc [Hvol [Ham ->]]]]]]].
  destruct (FL_extract_fields_slices _ x Hx)
    as [Ss [So [Sh [Sl [Sc [Sf [Sa [Sv Sm]]]]]]]].
  cbn [Filter.r_date Filter.r_stock_id Filter.r_open_price Filter.r_high_price
       Filter.r_low_price Filter.r_closing_price Filter.r_change_flag
       Filter.r_change_amount Filter.r_volume Filter.r_amount].
  split; [reflexivity|].
  split.
  { exists (Filter.sid x).
    destruct (slice_bytes_shape _ 0 6 _ ltac:(lia) ltac:(lia) Ss) as [T L].
    repeat split; first [assumption | apply T | reflexivity]. }
  split.
  { destruct (close_rejected_false _ Hc) as [v [Ev [Hmin _]]].
    exists v. split; [exact Ev|]. split; [exact Hmin|].
    rewrite Filter_parse_9digit_price_eq in Ev.
    apply (parsed_price_at_most _ _ Ev). }
  split.
  { destruct (too_low_false _ _ Hvol) as [k [Ek Hk]].
    exists k. split; [exact Ek|]. split; [exact Hk|].
    destruct (slice_bytes_shape _ 77 86 _ ltac:(lia) ltac:(lia) Sv) as [_ L].
    pose proof (parse_volume_bound _ _ Ek) as [_ B].
    apply Z.lt_le_trans with (1 := B).
    apply Z.pow_le_mono_r; unfold len; lia. }
  split.
  { destruct (too_low_false _ _ Ham) as [k [Ek Hk]].
    exists k. split; [exact Ek|]. split; [exact Hk|].
    destruct (slice_bytes_shape _ 95 107 _ ltac:(lia) ltac:(lia) Sm) as [_ L].
    pose proof (parse_volume_bound _ _ Ek) as [_ B].
    apply Z.lt_le_trans with (1 := B).
    apply Z.pow_le_mono_r; unfold len; lia. }
  split.
  { intros p [K|[K|K]]; apply price_or_none_some in K as [K Hmin];
      (split; [exact Hmin|]);
      rewrite Filter_parse_9digit_price_eq in K;
      apply (parsed_price_at_most _ _ K). }
  destruct (slice_bytes_shape _ 58 59 _ ltac:(lia) ltac:(lia) Sf) as [T L].
  split; [exact T | exact L].
Qed.

Lemma filter_rows_well_formed_witness :
  exists st',
    @Filter.process_file ascii_only ascii_digits ascii_digit_values ml_file
      (lit "20200420") empty_filter_buffers = (Ok tt, st')
    /\ exists r, Filter.rows st' = [r]
                 /\ Filter.r_stock_id r = lit "1240"
                 /\ Filter.r_closing_price r = Some (398000 # 10000)
                 /\ Filter.r_volume r = Some 4567
                 /\ Filter.r_amount r = Some 181739.
Proof.
  destruct (@filter_rows_well_formed ascii_only ascii_digits ascii_digit_values
              ml_file (lit "20200420") empty_filter_buffers _ eq_refl)
    as [st' [nr [E _]]].
  exists st'. split; [exact E|].
  vm_compute in E. injection E as <-.
  eexists. repeat split.
Defined.

(** X12: for a file it can read, the filter appends exactly one row or one
    diagnostic for every line after the first that is not empty once its
    line end is stripped, and nothing else; for a file it cannot read, it
    appends one diagnostic, with line number 0 and reason [file_error], and
    no row.  It never raises. *)
Theorem filter_outcome_count `{Codec} `{DigitValues}
    (path : Path) (date_tag : pystr) (st : Filter.buffers) :
  exists st',
    Filter.process_file path date_tag st = (Ok tt, st')
    /\ match stored path with
       | Ok data =>
           filter_outcomes st'
           = (filter_outcomes st
              + count nonempty_bytes (tl (split_lines (Byte.eqb x0a) data)))%nat
           /\ (length (Filter.rows st) <= length (Filter.rows st'))%nat
           /\ (length (Filter.debug_rows st) <= length (Filter.debug_rows st'))%nat
       | Raise e =>
           st' = with_diag st {| Filter.d_file := path_name path;
                                 Filter.d_line_no := 0;
                                 Filter.d_reason := Filter.file_error e;
                                 Filter.d_preview := [] |}
       end.
Proof.
  destruct (stored path) as [data|e] eqn:Hs.
  - destruct (FL_process_file_readable path date_tag st data Hs)
      as [st' [nr [nd [E [Hr [Hd [_ [_ Hn]]]]]]]].
    exists st'. split; [exact E|]. unfold filter_outcomes.
    rewrite Hr, Hd, !length_app. lia.
  - eexists. split; [|reflexivity].
    unfold Filter.process_file, st_try, st_bind, st_lift, open_rb_readlines.
    rewrite Hs. reflexivity.
Qed.

(** X13: the diagnostics the filter appends for a readable file.  Each
    carries the name of the file and the number of a line from 2 on; its
    reason is one of [line_too_short], [invalid_stock_id], [invalid_close],
    [low_volume] and [low_amount], never [extraction_error] or [file_error];
    a rejected closing price is absent or below [MIN_PRICE], a rejected
    volume absent or below [MIN_VOLUME], a rejected amount absent or below
    [MIN_AMOUNT]; and the preview is the decoded start of a short line, at
    most 80 characters, or the text "stock_id=" followed by the identifier
    read. *)
Theorem filter_diagnostics_well_formed `{Codec} `{DigitValues}
    (path : Path) (date_tag : pystr) (st : Filter.buffers) (data : bytes)
    (Hreadable : stored path = Ok data) :
  exists st' new_diags,
    Filter.process_file path date_tag st = (Ok tt, st')
    /\ Filter.debug_rows st' = Filter.debug_rows st ++ new_diags
    /\ Forall (fun d =>
                 Filter.d_file d = path_name path
                 /\ 2 <= Filter.d_line_no d
                 /\ ((Filter.d_reason d = Filter.line_too_short
                      /\ (length (Filter.d_preview d) <= 80)%nat)
                     \/ (exists id,
                           (length id <= 6)%nat
                           /\ Filter.d_preview d = lit "stock_id=" ++ id
                           /\ ((Filter.d_reason d = Filter.invalid_stock_id
                                /\ Filter.is_valid_stock_id id = false)
                               \/ Filter.d_reason d = Filter.invalid_close None
                               \/ (exists v,
                                     Filter.d_reason d = Filter.invalid_close (Some v)
                                     /\ (0 <= v /\ v < Filter.MIN_PRICE)%Q)
                               \/ Filter.d_reason d = Filter.low_volume None
                               \/ (exists n,
                                     Filter.d_reason d = Filter.low_volume (Some n)
                                     /\ 0 <= n < Filter.MIN_VOLUME)
                               \/ Filter.d_reason d = Filter.low_amount None
                               \/ (exists m,
                                     Filter.d_reason d = Filter.low_amount (Some m)
                                     /\ 0 <= m < Filter.MIN_AMOUNT)))))
         new_diags.
Proof.
  destruct (FL_process_file_readable path date_tag st data Hreadable)
    as [st' [nr [nd [E [_ [Hd [_ [Fd _]]]]]]]].
  exists st', nd. repeat (split; [assumption|]).
  eapply Forall_impl; [|exact Fd]. intros d [i [raw [_ Hdg]]].
  destruct Hdg as [_ [Hf [Hno Hcase]]].
  split; [exact Hf|]. split; [lia|].
  destruct Hcase as [[_ [Hr Hp]] | [_ [x [Hx [Hp Hcase]]]]].
  - left. split; [exact Hr|].
    etransitivity; [exact (py_decode_length _ _ Hp)|].
    exact (py_slice_to_length _ 80 ltac:(lia)).
  - right. exists (Filter.sid x).
    destruct (FL_extract_fields_slices _ x Hx)
      as [Ss [_ [_ [_ [_ [_ [_ [_ _]]]]]]]].
    destruct (slice_bytes_shape _ 0 6 _ ltac:(lia) ltac:(lia) Ss) as [_ L].
    split; [exact L|]. split; [exact Hp|]. cbv zeta in Hcase.
    destruct Hcase as [[Hv Hr] | [[_ [Hc Hr]] | [[_ [_ [Hvol Hr]]] | [_ [_ [_ [Ham Hr]]]]]]].
    + left. split; assumption.
    + right. rewrite Hr.
      destruct (close_rejected_true _ Hc) as [->|[v [Ev Hb]]]; [now left|].
      right. left. exists v. rewrite Ev. split; [reflexivity|].
      rewrite Filter_parse_9digit_price_eq in Ev.
      destruct (parsed_price_at_most _ _ Ev) as [Hz Hmax].
      split; [exact Hz|]. destruct Hb as [Hb|Hb]; [exact Hb|].
      exfalso. apply (Qlt_not_le _ _ Hb).
      apply Qle_trans with (1 := Hmax). unfold Qle. cbn. lia.
    + right. right. right. rewrite Hr.
      destruct (too_low_true _ Filter.MIN_VOLUME ltac:(reflexivity) Hvol)
        as [->|[k [Ek Hk]]]; [now left|].
      right. left. exists k. rewrite Ek. split; [reflexivity|].
      pose proof (parse_volume_bound _ _ Ek). lia.
    + do 5 right. rewrite Hr.
      destruct (too_low_true _ Filter.MIN_AMOUNT ltac:(reflexivity) Ham)
        as [->|[k [Ek Hk]]]; [now left|].
      right. exists k. rewrite Ek. split; [reflexivity|].
      pose proof (parse_volume_bound _ _ Ek). lia.
Qed.

Lemma filter_diagnostics_well_formed_witness :
  exists st',
    @Filter.process_file ascii_only ascii_digits ascii_digit_values ml_file
      (lit "20200420") empty_filter_buffers = (Ok tt, st')
    /\ map Filter.d_reason (Filter.debug_rows st')
       = [Filter.low_volume (Some 99); Filter.line_too_short]
    /\ map Filter.d_line_no (Filter.debug_rows st') = [3; 4].
Proof.
  destruct (@filter_diagnostics_well_formed ascii_only ascii_digits
              ascii_digit_values ml_file (lit "20200420") empty_filter_buffers
              _ eq_refl)
    as [st' [nd [E _]]].
  exists st'. split; [exact E|].
  vm_compute in E. injection E as <-.
  split; reflexivity.
Defined.

(** * The filter against the byte-level script *)

Lemma slice_bytes_decode `{Codec} (line : bytes) (start stop : Z) (s f : pystr) :
  ByteLevel.slice_bytes line start stop = Ok s ->
  py_decode Replace (py_slice line (Some start) (Some stop)) = Ok f ->
  s = strip f.
Proof.
  unfold ByteLevel.slice_bytes. intros Hs Hf. rewrite Hf in Hs.
  cbn [rbind try_except] in Hs. congruence.
Qed.

(** X14: the filter keeps no line that the byte-level script drops.  If the
    filter appends a row for a line, the byte-level script appends a row for
    the same line too, with the same date and change flag, an identifier of
    which the filter's is the normalised form, and as closing price the text
    of the value the filter keeps. *)
Theorem filter_keeps_only_what_byte_level_keeps `{Codec} `{DigitValues}
    (fname date_tag : pystr) (verbose : bool) (lineno : Z) (sc : nat)
    (raw : bytes) (stF : Filter.buffers) (stB : buffers) (r : Filter.row)
    (Hkept : Filter.rows (snd (Filter.process_line fname date_tag lineno raw stF))
             = Filter.rows stF ++ [r]) :
  exists sc' stB' r' v,
    ByteLevel.process_line fname date_tag verbose lineno sc raw stB = (Ok sc', stB')
    /\ appended_row stB stB' r'
    /\ r_date r' = Filter.r_date r
    /\ r_line_no r' = lineno
    /\ r_change_flag r' = Filter.r_change_flag r
    /\ Filter.r_stock_id r = Filter.normalize_id (r_stock_id r')
    /\ Filter.r_closing_price r = Some v
    /\ r_closing_price r' = format_4f v.
Proof.
  destruct (FL_process_line_full fname date_tag lineno raw stF) as [stF' [EF CF]].
  rewrite EF in Hkept. cbn [snd] in Hkept.
  assert (Hrow : kept_row date_tag (rstrip_crlf_bytes raw) r).
  { destruct CF as [[_ ->] | [[r0 [-> Hrow]] | [d [-> _]]]].
    - exfalso. apply (f_equal (@length _)) in Hkept.
      rewrite length_app in Hkept. cbn in Hkept. lia.
    - cbn [with_row Filter.rows] in Hkept. apply app_inv_head in Hkept.
      injection Hkept as <-. exact Hrow.
    - exfalso. cbn [with_diag Filter.rows] in Hkept.
      apply (f_equal (@length _)) in Hkept.
      rewrite length_app in Hkept. cbn in Hkept. lia. }
  clear EF CF Hkept stF'.
  destruct Hrow as [Hlen [x [Hx [Hv [Hc [_ [_ ->]]]]]]].
  destruct (FL_extract_fields_slices _ x Hx)
    as [Ss [_ [_ [_ [Sc [Sf _]]]]]].
  assert (Hlong : 59 <= len (rstrip_crlf_bytes raw)) by lia.
  destruct (BL_extract_fields_eq (rstrip_crlf_bytes raw) stB)
    as [flds [Ex [Hs [_ [Hcl Hf]]]]].
  destruct (BL_process_line_long fname date_tag verbose lineno sc raw stB flds _
              Hlong Ex) as [sc' [st2 [stB' [p [EB [Hnothing [_ HB]]]]]]].
  assert (Es : sid flds = Filter.sid x) by congruence.
  assert (Ec : close_raw flds = Filter.close_raw x) by congruence.
  pose proof (slice_bytes_decode _ _ _ _ _ Sf Hf) as Ef.
  destruct (close_rejected_false _ Hc) as [v [Ev [Hmin Hmax]]].
  rewrite Filter_parse_9digit_price_eq in Ev.
  assert (Hne : Filter.sid x <> []).
  { intros E. rewrite E in Hv. discriminate Hv. }
  rewrite Es, Ec, Ev in HB.
  destruct (Filter.sid x) as [|c0 s0] eqn:Hsid; [contradiction|].
  assert (Hsane : ByteLevel.sane_price (Some v) = true).
  { apply sane_price_true_iff. split; assumption. }
  rewrite Hsane in HB.
  eexists sc', stB', _, v.
  split; [exact EB|].
  split; [exact (appended_row_after _ _ _ _ Hnothing HB)|].
  cbn [r_date r_line_no r_change_flag r_stock_id r_closing_price
       Filter.r_date Filter.r_change_flag Filter.r_stock_id Filter.r_closing_price].
  split; [reflexivity|]. split; [reflexivity|].
  split; [now rewrite Ef|]. split; [reflexivity|].
  split; [now rewrite Filter_parse_9digit_price_eq|]. reflexivity.
Qed.

Lemma filter_keeps_only_what_byte_level_keeps_witness :
  exists sc' stB' r',
    @ByteLevel.process_line ascii_only (lit "STKT2QUOTESN(0420)") (lit "20200420")
      false 2 0 (ml_line_1240 ++ [x0d; x0a]) empty_buffers = (Ok sc', stB')
    /\ appended_row empty_buffers stB' r'
    /\ r_stock_id r' = lit "001240"
    /\ r_closing_price r' = lit "39.8000".
Proof.
  destruct (@filter_keeps_only_what_byte_level_keeps ascii_only ascii_digits
              ascii_digit_values (lit "STKT2QUOTESN(0420)") (lit "20200420")
              false 2 0%nat (ml_line_1240 ++ [x0d; x0a]) empty_filter_buffers
              empty_buffers
              {| Filter.r_date := lit "20200420";
                 Filter.r_stock_id := lit "1240";
                 Filter.r_open_price := Some (398000 # 10000);
                 Filter.r_high_price := Some (400000 # 10000);
                 Filter.r_low_price := Some (390000 # 10000);
                 Filter.r_closing_price := Some (398000 # 10000);
                 Filter.r_change_flag := lit "+";
                 Filter.r_change_amount := Some (2000 # 10000);
                 Filter.r_volume := Some 4567;
                 Filter.r_amount := Some 181739 |} eq_refl)
    as [sc' [stB' [r' [v [E [Ha _]]]]]].
  exists sc', stB', r'. split; [exact E|]. split; [exact Ha|].
  vm_compute in E. injection E as <- <-.
  destruct Ha as [Hr _]. cbn in Hr. injection Hr as <-.
  split; reflexivity.
Defined.

(** * The loop of [main], byte-level script *)


Lemma count_permutation {A} (p : A -> bool) (l l' : list A) :
  Permutation l l' -> count p l = count p l'.
Proof.
  intros P. unfold count. induction P; cbn [filter].
  - reflexivity.
  - destruct (p x); cbn [length]; congruence.
  - destruct (p x), (p y); reflexivity.
  - congruence.
Qed.


Section ByteLevelMainFacts.
Context `{Codec} `{UnicodeDB} `{Platform}.





Lemma iterdir_dir (e : entry) :
  is_dir e = true -> iterdir e = Ok (dir_entries e).
Proof. destruct e; [discriminate | reflexivity | discriminate]. Qed.

Lemma iterdir_not_dir (e : entry) :
  is_dir e = false -> iterdir e = Raise OSError.
Proof. destruct e; [reflexivity | discriminate | reflexivity]. Qed.




Lemma BL_main_loop_not_a_folder (root : entry) (st : buffers) :
  is_dir root = false -> ByteLevelMain.main_loop root st = (Raise OSError, st).
Proof.
  intros Hroot. unfold ByteLevelMain.main_loop, bind, lift.
  now rewrite (iterdir_not_dir root Hroot).
Qed.
End ByteLevelMainFacts.



(** * The loop of [main], filter script *)

Lemma buffers_app_empty_r (a : Filter.buffers) :
  buffers_app a empty_filter_buffers = a.
Proof.
  destruct a. unfold buffers_app. cbn. now rewrite !app_nil_r.
Qed.

Lemma buffers_app_empty_l (a : Filter.buffers) :
  buffers_app empty_filter_buffers a = a.
Proof. now destruct a. Qed.

Lemma buffers_app_assoc (a b c : Filter.buffers) :
  buffers_app (buffers_app a b) c = buffers_app a (buffers_app b c).
Proof. unfold buffers_app. cbn. now rewrite !app_assoc. Qed.

Section FilterFrame.
Context `{Codec} `{DigitValues}.

Lemma FL_append_debug_frame (d : Filter.diag) (st : Filter.buffers) :
  Filter.append_debug d st
  = (Ok tt, buffers_app st (snd (Filter.append_debug d empty_filter_buffers))).
Proof.
  unfold Filter.append_debug, buffers_app. cbn. now rewrite app_nil_r.
Qed.

Lemma FL_append_row_frame (r : Filter.row) (st : Filter.buffers) :
  Filter.append_row r st
  = (Ok tt, buffers_app st (snd (Filter.append_row r empty_filter_buffers))).
Proof.
  unfold Filter.append_row, buffers_app. cbn. now rewrite app_nil_r.
Qed.

Lemma FL_reject_line_frame fname lineno why line (st : Filter.buffers) :
  Filter.reject_line fname lineno why line st
  = (Ok tt, buffers_app st
              (snd (Filter.reject_line fname lineno why line empty_filter_buffers))).
Proof.
  destruct (FL_reject_line_eq fname lineno why line st) as [p [Ep ->]].
  destruct (FL_reject_line_eq fname lineno why line empty_filter_buffers)
    as [p' [Ep' ->]].
  assert (p' = p) by congruence. subst p'.
  unfold with_diag, buffers_app. cbn. now rewrite app_nil_r.
Qed.

Lemma FL_validate_frame fname date_tag lineno x (st : Filter.buffers) :
  Filter.validate fname date_tag lineno x st
  = (Ok tt, buffers_app st
              (snd (Filter.validate fname date_tag lineno x empty_filter_buffers))).
Proof.
  unfold Filter.validate, Filter.reject_id. cbv zeta.
  repeat match goal with
         | |- context [if ?c then _ else _] => destruct c
         end;
    first [apply FL_append_debug_frame | apply FL_append_row_frame].
Qed.

Lemma FL_process_line_unfold fname date_tag lineno raw (st : Filter.buffers) :
  Filter.process_line fname date_tag lineno raw st
  = (let line := rstrip_crlf_bytes raw in
     if len line =? 0 then (Ok tt, st)
     else if len line <? 107 then
       Filter.reject_line fname lineno Filter.line_too_short line st
     else
       match Filter.extract_fields line with
       | Ok x => Filter.validate fname date_tag lineno x st
       | Raise e =>
           (Filter.reject_line fname lineno (Filter.extraction_error e) line ;;;
            st_ret tt)%St st
       end).
Proof.
  unfold Filter.process_line. cbv zeta.
  destruct (len (rstrip_crlf_bytes raw) =? 0); [reflexivity|].
  unfold st_bind at 1. unfold st_lift at 1. rewrite required_len_107.
  destruct (len (rstrip_crlf_bytes raw) <? 107); [reflexivity|].
  unfold st_bind at 1. unfold st_try. unfold st_bind at 1. unfold st_lift at 1.
  destruct (Filter.extract_fields (rstrip_crlf_bytes raw)) as [x|e].
  - reflexivity.
  - unfold st_bind, st_ret.
    destruct (Filter.reject_line fname lineno (Filter.extraction_error e)
                (rstrip_crlf_bytes raw) st) as [[[]|e'] st']; reflexivity.
Qed.

(** What the loop body appends depends on the line only, not on what the
    lists hold. *)
Lemma FL_process_line_frame fname date_tag lineno raw (st : Filter.buffers) :
  Filter.process_line fname date_tag lineno raw st
  = (Ok tt, buffers_app st
              (snd (Filter.process_line fname date_tag lineno raw
                      empty_filter_buffers))).
Proof.
  rewrite !FL_process_line_unfold. cbv zeta.
  destruct (len (rstrip_crlf_bytes raw) =? 0).
  { cbn [snd]. now rewrite buffers_app_empty_r. }
  destruct (len (rstrip_crlf_bytes raw) <? 107).
  { apply FL_reject_line_frame. }
  destruct (FL_extract_fields_total (rstrip_crlf_bytes raw)) as [x Hx].
  rewrite Hx. apply FL_validate_frame.
Qed.

Lemma FL_process_lines_frame fname date_tag lines :
  forall lineno (st : Filter.buffers),
  Filter.process_lines fname date_tag lineno lines st
  = (Ok tt, buffers_app st
              (snd (Filter.process_lines fname date_tag lineno lines
                      empty_filter_buffers))).
Proof.
  induction lines as [|raw rest IH]; intros lineno st.
  - cbn [Filter.process_lines]. unfold st_ret. cbn [snd].
    now rewrite buffers_app_empty_r.
  - cbn [Filter.process_lines]. unfold st_bind.
    rewrite (FL_process_line_frame fname date_tag lineno raw st).
    rewrite (FL_process_line_frame fname date_tag lineno raw empty_filter_buffers).
    rewrite IH. rewrite (IH (lineno + 1) (buffers_app empty_filter_buffers _)).
    cbn [snd]. now rewrite !buffers_app_assoc.
Qed.

Lemma FL_process_file_frame (path : Path) (date_tag : pystr) (st : Filter.buffers) :
  Filter.process_file path date_tag st
  = (Ok tt, buffers_app st
              (snd (Filter.process_file path date_tag empty_filter_buffers))).
Proof.
  unfold Filter.process_file, st_try, st_bind, st_lift.
  destruct (open_rb_readlines path) as [lines|e].
  - rewrite (FL_process_lines_frame _ _ _ _ st).
    rewrite (FL_process_lines_frame _ _ _ _ empty_filter_buffers).
    cbn [snd]. now rewrite buffers_app_empty_l.
  - apply FL_append_debug_frame.
Qed.
End FilterFrame.

Section FilterMainFacts.
Context `{Codec} `{DigitValues} `{Calendar} `{Platform}.

Lemma ML_derive_date_total (path : Path) (year_hint : option pystr) :
  exists d, ForML.derive_date_for_file path year_hint = Ok d.
Proof.
  destruct (ML_header_date_total path) as [found [Eh _]].
  unfold ForML.derive_date_for_file. rewrite Eh. cbn [rbind].
  destruct found as [g|]; [eexists; reflexivity|]. cbv zeta.
  destruct (re_search_paren_tag (path_name path)); [|eexists; reflexivity].
  destruct ((len (zfill 4 p) =? 4) && truthy year_hint).
  - destruct (ForML.checked_date _); eexists; reflexivity.
  - destruct (len (zfill 4 p) =? 8); [|eexists; reflexivity].
    destruct (ForML.checked_date _); eexists; reflexivity.
Qed.

Lemma re_match_4digits_truthy (s : pystr) :
  re_match_4digits s = true -> truthy (Some s) = true.
Proof.
  destruct s; [discriminate | reflexivity].
Qed.

(** One file more: the batch grows, or is written and emptied. *)
Lemma FM_process_one_spec (y : pystr) (f : entry) (s : FilterMain.state)
    (done : list Filter.row) :
  batch_invariant s done ->
  exists s',
    FilterMain.process_one (Some y) f s = Ok s'
    /\ batch_invariant s' (done ++ Filter.rows (yield (f, y)))
    /\ FilterMain.debug_rows s'
       = FilterMain.debug_rows s ++ Filter.debug_rows (yield (f, y))
    /\ FilterMain.files_processed s' = FilterMain.files_processed s + 1.
Proof.
  intros [written [Hdone [Htotal Hfile]]].
  destruct (ML_derive_date_total (as_path f) (Some y)) as [d Ed].
  unfold FilterMain.process_one, yield. cbn [fst snd]. rewrite Ed. cbn [rbind].
  rewrite FL_process_file_frame.
  set (new := snd (Filter.process_file (as_path f) d empty_filter_buffers)).
  cbn [rbind buffers_app Filter.rows Filter.debug_rows].
  destruct (Z.leb_spec Filter.BATCH_SIZE
              (len (FilterMain.batch_rows s ++ Filter.rows new))) as [Hfull|Hroom].
  - eexists. split; [reflexivity|].
    cbn [FilterMain.debug_rows FilterMain.files_processed].
    split; [|split; reflexivity].
    exists (written ++ FilterMain.batch_rows s ++ Filter.rows new).
    cbn [FilterMain.batch_rows FilterMain.total_records FilterMain.first_batch
         FilterMain.out_file].
    assert (Hne : FilterMain.batch_rows s ++ Filter.rows new <> []).
    { intros E. rewrite E in Hfull. unfold Filter.BATCH_SIZE, len in Hfull.
      cbn in Hfull. lia. }
    split; [now rewrite Hdone, app_nil_r, app_assoc|].
    split.
    { rewrite Htotal. unfold len. rewrite !length_app. lia. }
    split.
    { intros E. apply app_eq_nil in E as [_ E]. contradiction. }
    unfold FilterMain.write_batch_to_csv.
    apply is_empty_false in Hne. rewrite Hne.
    unfold FilterMain.to_csv.
    destruct (FilterMain.first_batch s).
    + destruct Hfile as [-> _]. reflexivity.
    + destruct Hfile as [_ ->]. cbn [app]. now rewrite !map_app.
  - eexists. split; [reflexivity|].
    cbn [FilterMain.debug_rows FilterMain.files_processed].
    split; [|split; reflexivity].
    exists written.
    cbn [FilterMain.batch_rows FilterMain.total_records FilterMain.first_batch
         FilterMain.out_file].
    split; [now rewrite Hdone, app_assoc|]. split; [exact Htotal | exact Hfile].
Qed.

Lemma FM_process_all_spec (y : pystr) (files : list entry) :
  forall (s : FilterMain.state) (done : list Filter.row),
  batch_invariant s done ->
  exists s',
    FilterMain.process_all (Some y) files s = Ok s'
    /\ batch_invariant s'
         (done ++ flat_map (fun fy => Filter.rows (yield fy))
                    (map (fun f => (f, y)) files))
    /\ FilterMain.debug_rows s'
       = FilterMain.debug_rows s
         ++ flat_map (fun fy => Filter.debug_rows (yield fy))
              (map (fun f => (f, y)) files)
    /\ FilterMain.files_processed s' = FilterMain.files_processed s + len files.
Proof.
  induction files as [|f rest IH]; intros s done Hinv.
  - exists s. cbn [FilterMain.process_all map flat_map]. unfold len. cbn [length].
    rewrite !app_nil_r, Z.add_0_r. repeat split; first [assumption | reflexivity].
  - destruct (FM_process_one_spec y f s done Hinv) as [s1 [E1 [I1 [D1 F1]]]].
    destruct (IH s1 _ I1) as [s' [E2 [I2 [D2 F2]]]].
    exists s'. cbn [FilterMain.process_all]. rewrite E1. cbn [rbind].
    split; [exact E2|]. cbn [map flat_map].
    split; [now rewrite app_assoc|].
    split; [now rewrite D2, D1, app_assoc|].
    rewrite F2, F1. unfold len. cbn [length]. lia.
Qed.

Lemma FM_visit_all_spec (subs : list entry) :
  forall (s : FilterMain.state) (done : list Filter.row),
  batch_invariant s done ->
  let files :=
    flat_map
      (fun sub =>
         if is_dir sub && re_match_4digits (entry_name sub)
         then map (fun f => (f, entry_name sub))
                (sorted (filter is_quote_file (dir_entries sub)))
         else []) subs in
  exists s',
    FilterMain.visit_all subs s = Ok s'
    /\ batch_invariant s' (done ++ flat_map (fun fy => Filter.rows (yield fy)) files)
    /\ FilterMain.debug_rows s'
       = FilterMain.debug_rows s
         ++ flat_map (fun fy => Filter.debug_rows (yield fy)) files
    /\ FilterMain.files_processed s' = FilterMain.files_processed s + len files.
Proof.
  induction subs as [|sub rest IH]; intros s done Hinv; cbv zeta.
  - exists s. cbn [FilterMain.visit_all flat_map]. unfold len. cbn [length].
    rewrite !app_nil_r, Z.add_0_r. repeat split; first [assumption | reflexivity].
  - cbn [flat_map].
    set (here := if is_dir sub && re_match_4digits (entry_name sub)
                 then map (fun f => (f, entry_name sub))
                        (sorted (filter is_quote_file (dir_entries sub)))
                 else []).
    assert (V : exists s1,
               FilterMain.visit sub s = Ok s1
               /\ batch_invariant s1
                    (done ++ flat_map (fun fy => Filter.rows (yield fy)) here)
               /\ FilterMain.debug_rows s1
                  = FilterMain.debug_rows s
                    ++ flat_map (fun fy => Filter.debug_rows (yield fy)) here
               /\ FilterMain.files_processed s1
                  = FilterMain.files_processed s + len here).
    { unfold FilterMain.visit, here.
      destruct (is_dir sub) eqn:Hdir; cbn [negb andb].
      2:{ exists s. cbn [flat_map]. unfold len. cbn [length].
          rewrite !app_nil_r, Z.add_0_r.
          repeat split; first [assumption | reflexivity]. }
      destruct (re_match_4digits (entry_name sub)) eqn:Hm; cbv zeta.
      2:{ exists s. cbn [truthy negb flat_map]. unfold len. cbn [length].
          rewrite !app_nil_r, Z.add_0_r.
          repeat split; first [assumption | reflexivity]. }
      rewrite (re_match_4digits_truthy _ Hm). cbn [negb].
      rewrite (iterdir_dir sub Hdir). cbn [rbind].
      destruct (FM_process_all_spec (entry_name sub)
                  (sorted (filter is_quote_file (dir_entries sub))) s done Hinv)
        as [s1 [E1 [I1 [D1 F1]]]].
      exists s1. split.
      { destruct (sorted (filter is_quote_file (dir_entries sub))); [|exact E1].
        cbn [is_empty]. exact E1. }
      split; [exact I1|]. split; [exact D1|].
      rewrite F1. unfold len. now rewrite length_map. }
    destruct V as [s1 [E1 [I1 [D1 F1]]]].
    destruct (IH s1 _ I1) as [s' [E2 [I2 [D2 F2]]]]. cbv zeta in I2, D2, F2.
    exists s'. cbn [FilterMain.visit_all]. rewrite E1. cbn [rbind].
    split; [exact E2|]. rewrite !flat_map_app.
    split; [now rewrite app_assoc|].
    split; [now rewrite D2, D1, app_assoc|].
    rewrite F2, F1. unfold len. rewrite length_app. lia.
Qed.
Lemma FM_main_loop_not_a_folder (root : entry) :
  is_dir root = false -> FilterMain.main_loop root = Raise OSError.
Proof.
  intros Hroot. unfold FilterMain.main_loop.
  now rewrite (iterdir_not_dir root Hroot).
Qed.
End FilterMainFacts.

(** X16: on a base folder, the loop of [main] in the filter script, with
    its batches, writes what an unbatched run would.  It never raises; it
    processes the quote
    files of every folder whose name passes [^\d{4}$], in order; when it
    ends, [files_processed] is their number, [total_records] the number of
    rows that [process_file] yields for them, [debug_rows] the diagnostics
    it yields, in order; and the output file is absent if there is no row,
    and otherwise holds the header once, first, followed by every row once,
    in order, whatever the batches were. *)
Theorem filter_main_loop_batches `{Codec} `{DigitValues} `{Calendar} `{Platform}
    (root : entry)
    (Hroot : is_dir root = true) :
  let files := selected root in
  let all_rows := flat_map (fun fy => Filter.rows (yield fy)) files in
  let all_diags := flat_map (fun fy => Filter.debug_rows (yield fy)) files in
  exists s,
    FilterMain.main_loop root = Ok s
    /\ FilterMain.files_processed s = len files
    /\ FilterMain.total_records s = len all_rows
    /\ FilterMain.debug_rows s = all_diags
    /\ FilterMain.out_file s
       = if is_empty all_rows then None
         else Some (FilterMain.Header :: map FilterMain.Record all_rows).
Proof.
  cbv zeta. unfold FilterMain.main_loop, selected.
  assert (I0 : batch_invariant FilterMain.initial []).
  { exists []. repeat split. }
  destruct (FM_visit_all_spec (sorted (dir_entries root)) FilterMain.initial [] I0)
    as [s [E [Hinv [D F]]]]. cbv zeta in Hinv, D, F.
  rewrite (iterdir_dir root Hroot). cbn [rbind]. rewrite E. cbn [rbind]. eexists. split; [reflexivity|].
  cbn [app FilterMain.debug_rows FilterMain.files_processed FilterMain.initial] in *.
  set (all_rows := flat_map (fun fy => Filter.rows (yield fy)) _) in *.
  destruct Hinv as [written [Hdone [Htotal Hfile]]].
  unfold FilterMain.write_last.
  destruct (FilterMain.batch_rows s) as [|r0 rest] eqn:Hb; cbn [is_empty].
  - split; [now rewrite F|]. split; [|split; [exact D|]].
    + rewrite Htotal, Hdone. now rewrite app_nil_r.
    + rewrite app_nil_r in Hdone. rewrite Hdone.
      destruct (FilterMain.first_batch s).
      * destruct Hfile as [-> ->]. reflexivity.
      * destruct Hfile as [Hne ->].
        destruct written; [contradiction | reflexivity].
  - cbn [FilterMain.files_processed FilterMain.total_records FilterMain.debug_rows
         FilterMain.out_file].
    split; [now rewrite F|]. split; [|split; [exact D|]].
    + rewrite Htotal, Hdone. unfold len. rewrite length_app. lia.
    + rewrite Hdone. unfold FilterMain.write_batch_to_csv, FilterMain.to_csv.
      cbn [is_empty].
      destruct (FilterMain.first_batch s).
      * destruct Hfile as [-> _]. reflexivity.
      * destruct Hfile as [Hne ->].
        destruct written as [|w0 ws]; [contradiction|].
        cbn [app is_empty map]. now rewrite !map_app.
Qed.

Lemma filter_main_loop_batches_witness :
  exists s,
    @FilterMain.main_loop ascii_only ascii_digits ascii_digit_values
      eight_digit_calendar plain_platform base_folder = Ok s
    /\ FilterMain.files_processed s = 1
    /\ FilterMain.total_records s = 1
    /\ exists r, FilterMain.out_file s
                 = Some [FilterMain.Header; FilterMain.Record r]
                 /\ Filter.r_date r = lit "20200420"
                 /\ Filter.r_stock_id r = lit "1240".
Proof.
  destruct (@filter_main_loop_batches ascii_only ascii_digits ascii_digit_values
              eight_digit_calendar plain_platform base_folder eq_refl)
    as [s [E [Hf [Ht [_ Ho]]]]].
  exists s. split; [exact E|]. split; [exact Hf|]. split; [exact Ht|].
  vm_compute in Ho. eexists. split; [exact Ho|]. split; reflexivity.
Defined.

(** Neither loop gets past a base path that is no folder. *)
Example main_loops_on_a_file :
  @ByteLevelMain.main_loop ascii_only ascii_digits plain_platform
    (FileEntry dated_file) empty_buffers = (Raise OSError, empty_buffers)
  /\ @FilterMain.main_loop ascii_only ascii_digits ascii_digit_values
       eight_digit_calendar plain_platform (FileEntry dated_file) = Raise OSError.
Proof. split; reflexivity. Qed.

(** * The two quote scripts on ASCII files *)

Lemma lstrip_with_snoc {A} (p : A -> bool) (m : list A) (a : A) :
  lstrip_with p (m ++ [a])
  = if is_empty (lstrip_with p m) then (if p a then [] else [a])
    else lstrip_with p m ++ [a].
Proof.
  induction m as [|b m IH]; [reflexivity|].
  cbn [app lstrip_with]. destruct (p b); [exact IH | reflexivity].
Qed.

Lemma rstrip_with_cons {A} (p : A -> bool) (a : A) (l : list A) :
  rstrip_with p (a :: l)
  = if is_empty (rstrip_with p l) then (if p a then [] else [a])
    else a :: rstrip_with p l.
Proof.
  unfold rstrip_with. cbn [rev]. rewrite lstrip_with_snoc.
  destruct (lstrip_with p (rev l)) as [|b t]; cbn [is_empty].
  - destruct (p a); reflexivity.
  - rewrite rev_app_distr. cbn [rev app].
    destruct (rev t ++ [b]) eqn:E; [|reflexivity].
    apply app_eq_nil in E as [_ E]. discriminate.
Qed.

Lemma to_N_eqb_13 (b : byte) : (Byte.to_N b =? 13)%N = Byte.eqb b x0d.
Proof. destruct b; reflexivity. Qed.

Lemma to_N_eqb_10 (b : byte) : (10 =? Byte.to_N b)%N = Byte.eqb x0a b.
Proof. destruct b; reflexivity. Qed.

Lemma byte_eqb_eq (b c : byte) : Byte.eqb b c = true -> b = c.
Proof. apply Byte.byte_dec_bl. Qed.

(** In a file of ASCII bytes whose carriage returns all come before a line
    feed, text mode yields as many lines as binary mode, and each, without
    its line end, is the binary line without its line end, decoded. *)
Lemma text_lines_of_ascii (n : nat) :
  forall data : bytes,
  (length data <= n)%nat -> crlf_only data = true ->
  map rstrip_crlf
    (split_lines (N.eqb 10) (universal_newlines (map Byte.to_N data)))
  = map (fun raw => map Byte.to_N (rstrip_crlf_bytes raw))
      (split_lines (Byte.eqb x0a) data).
Proof.
  induction n as [|n IH]; intros data Hn Hc.
  { destruct data; [reflexivity | cbn in Hn; lia]. }
  destruct data as [|b rest]; [reflexivity|].
  cbn [length] in Hn. cbn [crlf_only] in Hc.
  cbn [map universal_newlines]. rewrite to_N_eqb_13.
  destruct (Byte.eqb b x0d) eqn:Hcr.
  - apply byte_eqb_eq in Hcr. subst b.
    destruct rest as [|c rest2]; [discriminate|].
    apply andb_prop in Hc as [Hlf Hc]. apply byte_eqb_eq in Hlf. subst c.
    cbn [crlf_only] in Hc. change (Byte.eqb x0a x0d) with false in Hc. cbv iota in Hc.
    cbn [map]. change (Byte.to_N x0a =? 10)%N with true. cbv iota.
    cbn [split_lines]. change (10 =? 10)%N with true. cbv iota.
    change (Byte.eqb x0a x0d) with false. cbv iota.
    change (Byte.eqb x0a x0a) with true. cbv iota.
    cbn [map]. f_equal.
    apply IH; [cbn [length] in Hn; lia | exact Hc].
  - assert (IHr := IH rest ltac:(lia) Hc).
    cbn [split_lines]. rewrite to_N_eqb_10.
    destruct (Byte.eqb x0a b) eqn:Hlf.
    + apply byte_eqb_eq in Hlf. subst b. cbn [map].
      f_equal. exact IHr.
    + destruct (split_lines (N.eqb 10) (universal_newlines (map Byte.to_N rest)))
        as [|ln lns];
        destruct (split_lines (Byte.eqb x0a) rest) as [|lb lbs];
        cbn [map] in IHr; try discriminate.
      * cbn [map]. f_equal.
        unfold rstrip_crlf, rstrip_crlf_bytes.
        rewrite !rstrip_with_cons. cbn [rstrip_with rev lstrip_with is_empty].
        rewrite <- is_crlf_byte_char.
        destruct (is_crlf_byte b); reflexivity.
      * injection IHr as Hl Hls. cbn [map]. f_equal; [|exact Hls].
        unfold rstrip_crlf, rstrip_crlf_bytes in *.
        rewrite !rstrip_with_cons. rewrite Hl.
        rewrite <- is_crlf_byte_char.
        destruct (rstrip_with is_crlf_byte lb); cbn [map is_empty];
          [destruct (is_crlf_byte b)|]; reflexivity.
Qed.

Lemma split_lines_forallb {A} (is_nl p : A -> bool) (l : list A) :
  forallb p l = true -> Forall (fun ln => forallb p ln = true) (split_lines is_nl l).
Proof.
  induction l as [|a l IH]; intros Hl; [constructor|].
  cbn [forallb] in Hl. apply andb_prop in Hl as [Ha Hl].
  specialize (IH Hl). cbn [split_lines].
  destruct (is_nl a).
  - constructor; [cbn; now rewrite Ha | exact IH].
  - destruct (split_lines is_nl l) as [|ln lns].
    + constructor; [cbn; now rewrite Ha | constructor].
    + inversion IH as [|? ? Hln Hlns]; subst.
      constructor; [cbn [forallb]; now rewrite Ha, Hln | exact Hlns].
Qed.

Lemma forallb_rstrip_with {A} (p q : A -> bool) (l : list A) :
  forallb p l = true -> forallb p (rstrip_with q l) = true.
Proof.
  intros Hl. destruct (rstrip_with_split q l) as [suf [E _]].
  rewrite E, forallb_app in Hl. apply andb_prop in Hl. apply Hl.
Qed.

Section AsciiFiles.
Context `{Codec}.

Lemma blank_line_blank_id (L : pystr) (start stop : Z) :
  strip L = [] -> strip (py_slice L (Some start) (Some stop)) = [].
Proof.
  intros E. apply all_space_strip_nil, forallb_py_slice.
  now apply strip_nil_all_space.
Qed.

Lemma same_verdict_agrees (dB dD : diag) :
  same_verdict dB dD -> verdict_agrees dB dD.
Proof.
  intros [Hf [Hn [Hr Hc]]]. repeat split; try assumption. now left.
Qed.

(** One line, of any length: what the two loop bodies append for it. *)
Lemma agree_on_ascii_line
    (fname date_tag : pystr) (verbose : bool) (lineno : Z) (sc : nat)
    (raw : bytes) (text : pystr) (sB sD : buffers)
    (Hascii : forallb ascii_byte (rstrip_crlf_bytes raw) = true)
    (Htext : rstrip_crlf text = map Byte.to_N (rstrip_crlf_bytes raw)) :
  exists sc' stB stD,
    ByteLevel.process_line fname date_tag verbose lineno sc raw sB = (Ok sc', stB)
    /\ Diagnostic.process_line fname date_tag lineno text sD = (Ok tt, stD)
    /\ ((appended_nothing sB stB /\ appended_nothing sD stD)
        \/ (blank_bytes raw = true
            /\ appended_nothing sD stD
            /\ exists dB, appended_diag sB stB dB /\ d_line_no dB = lineno)
        \/ (blank_bytes raw = false
            /\ exists dB dD, appended_diag sB stB dB /\ appended_diag sD stD dD
                             /\ verdict_agrees dB dD /\ d_line_no dB = lineno)
        \/ (exists r, appended_row sB stB r /\ appended_row sD stD r)).
Proof.
  destruct (BL_process_line_full fname date_tag verbose lineno sc raw sB)
    as [sc' [stB [EB CB]]].
  destruct (DG_process_line_cases fname date_tag lineno text sD) as [stD [ED CD]].
  cbv zeta in CD. rewrite Htext in CD.
  unfold blank_bytes.
  set (line := rstrip_crlf_bytes raw) in *.
  set (L := map Byte.to_N line) in *.
  assert (HlenL : len L = len line) by (unfold L, len; now rewrite length_map).
  destruct (strip L) as [|c0 t0] eqn:Hstrip; cbn [is_empty] in CD.
  - (* nothing but white space *)
    subst stD.
    destruct CB as [[Hline Hn] | [[r [_ Hrow]] | [d [Hd Hdg]]]].
    + exists sc', stB, sD. split; [exact EB|]. split; [exact ED|].
      left. split; [exact Hn | split; reflexivity].
    + exfalso. destruct Hrow as [_ [_ [_ [_ [Hid [Hne _]]]]]].
      rewrite (slice_bytes_ascii line 0 6 Hascii) in Hid.
      pose proof (blank_line_blank_id L 0 6 Hstrip) as Hb. unfold L in Hb.
      unfold pystr, char in *. rewrite Hb in Hid.
      injection Hid as Hid. now symmetry in Hid.
    + exists sc', stB, sD. split; [exact EB|]. split; [exact ED|].
      right. left. destruct Hdg as [Hne [_ [Hno _]]].
      split; [|split; [split; reflexivity | exists d; split; assumption]].
      destruct line; [contradiction | reflexivity].
  - (* a character that is not white space *)
    unfold pystr, char in *. rewrite HlenL in CD.
    destruct (Z.ltb_spec (len line) 59) as [Hlt|Hge].
    + destruct CD as [_ HD].
      destruct CB as [[Hline _] | [[r [_ Hrow]] | [d [Hd Hdg]]]].
      * exfalso. unfold L in Hstrip. rewrite Hline in Hstrip. discriminate.
      * exfalso. destruct Hrow as [Hlong _]. lia.
      * exists sc', stB, stD. split; [exact EB|]. split; [exact ED|].
        right. right. left. split; [now rewrite andb_false_r|].
        eexists d, _. split; [exact Hd|]. split; [exact HD|].
        destruct Hdg as [_ [Hf [Hno [_ Hcase]]]].
        destruct Hcase as [[_ [Hr Hc]] | [Hlong _]]; [|lia].
        split; [|exact Hno].
        unfold verdict_agrees, mk_diag. cbn [d_file d_line_no d_reason d_close_raw].
        split; [exact Hf|]. split; [exact Hno|].
        split; [right; split; [exact Hr | reflexivity]|]. rewrite Hc. reflexivity.
    + clear EB CB ED CD sc' stB stD.
      assert (Hnonblank : nonblank_text text = true).
      { unfold nonblank_text. rewrite Htext. fold line. fold L.
        unfold pystr, char in *. now rewrite Hstrip. }
      destruct (agree_on_long_ascii_line fname date_tag verbose lineno sc raw text
                  sB sD Hascii Htext Hge Hnonblank)
        as [sc' [stB [stD [EB [ED C]]]]].
      exists sc', stB, stD. split; [exact EB|]. split; [exact ED|].
      destruct C as [[r Hr] | [dB [dD [HB [HD [Hv Hno]]]]]].
      * right. right. right. exists r. exact Hr.
      * right. right. left. split; [now rewrite andb_false_r|].
        exists dB, dD. apply same_verdict_agrees in Hv.
        split; [exact HB|]. split; [exact HD|]. split; [exact Hv | exact Hno].
Qed.

Lemma blank_at_head (lineno : Z) (raw : bytes) (rest : list bytes) :
  blank_at lineno (raw :: rest) lineno = blank_bytes raw.
Proof. unfold blank_at. now rewrite Z.sub_diag. Qed.

Lemma blank_at_tail (lineno : Z) (raw : bytes) (rest : list bytes) (k : Z) :
  lineno + 1 <= k ->
  blank_at lineno (raw :: rest) k = blank_at (lineno + 1) rest k.
Proof.
  intros Hk. unfold blank_at.
  replace (Z.to_nat (k - lineno)) with (S (Z.to_nat (k - (lineno + 1)))) by lia.
  reflexivity.
Qed.

Lemma filter_blank_tail (lineno : Z) (raw : bytes) (rest : list bytes)
    (ds : list diag) :
  Forall (fun d => lineno + 1 <= d_line_no d) ds ->
  filter (fun d => negb (blank_at lineno (raw :: rest) (d_line_no d))) ds
  = filter (fun d => negb (blank_at (lineno + 1) rest (d_line_no d))) ds.
Proof.
  intros F. apply filter_ext_in. intros d Hd.
  rewrite Forall_forall in F. now rewrite blank_at_tail by now apply F.
Qed.

(** The two loops, line by line: the same rows, and the diagnostics of the
    text-mode script are those of the byte-level script for the lines that
    are not blank. *)
Lemma agree_on_ascii_lines fname date_tag verbose
    (linesB : list bytes) (linesT : list pystr) :
  Forall2 (fun raw text =>
             forallb ascii_byte (rstrip_crlf_bytes raw) = true
             /\ rstrip_crlf text = map Byte.to_N (rstrip_crlf_bytes raw))
    linesB linesT ->
  forall lineno sc sB sD,
  exists stB stD new_rows newB newD,
    ByteLevel.process_lines fname date_tag verbose lineno sc linesB sB = (Ok tt, stB)
    /\ Diagnostic.process_lines fname date_tag lineno linesT sD = (Ok tt, stD)
    /\ rows stB = rows sB ++ new_rows
    /\ rows stD = rows sD ++ new_rows
    /\ debug_rows stB = debug_rows sB ++ newB
    /\ debug_rows stD = debug_rows sD ++ newD
    /\ Forall (fun d => lineno <= d_line_no d) newB
    /\ Forall2 verdict_agrees
         (filter (fun d => negb (blank_at lineno linesB (d_line_no d))) newB) newD.
Proof.
  induction 1 as [|raw text restB restT [Hascii Htext] Hrest IH];
    intros lineno sc sB sD.
  - exists sB, sD, [], [], [].
    cbn [ByteLevel.process_lines Diagnostic.process_lines]. unfold ret.
    rewrite !app_nil_r. repeat split; constructor.
  - destruct (agree_on_ascii_line fname date_tag verbose lineno sc raw text sB sD
                Hascii Htext) as [sc1 [sB1 [sD1 [EB [ED C]]]]].
    destruct (IH (lineno + 1) sc1 sB1 sD1)
      as [stB [stD [nr [nB [nD [EB2 [ED2 [HrB [HrD [HdB [HdD [Fno F2]]]]]]]]]]]].
    assert (Fno' : Forall (fun d => lineno <= d_line_no d) nB).
    { eapply Forall_impl; [|exact Fno]. intros d Hd. cbv beta in Hd. lia. }
    pose proof (filter_blank_tail lineno raw restB nB Fno) as Hfilter.
    cbn [ByteLevel.process_lines Diagnostic.process_lines]. unfold bind.
    rewrite EB, ED, EB2, ED2.
    destruct C as [[[HB1 HB2] [HD1 HD2]]
                  | [[Hblank [[HD1 HD2] [dB [[HB1 HB2] Hno]]]]
                    | [[Hblank [dB [dD [[HB1 HB2] [[HD1 HD2] [Hv Hno]]]]]]
                      | [r [[HB1 HB2] [HD1 HD2]]]]]].
    + exists stB, stD, nr, nB, nD.
      rewrite HrB, HrD, HdB, HdD, HB1, HB2, HD1, HD2, Hfilter.
      repeat split; assumption.
    + exists stB, stD, nr, (dB :: nB), nD.
      rewrite HrB, HrD, HdB, HdD, HB1, HB2, HD1, HD2, <- app_assoc.
      repeat (split; [reflexivity|]).
      split; [constructor; [lia | exact Fno']|].
      cbn [filter]. rewrite Hno, blank_at_head, Hblank. cbn [negb].
      rewrite Hfilter. exact F2.
    + exists stB, stD, nr, (dB :: nB), (dD :: nD).
      rewrite HrB, HrD, HdB, HdD, HB1, HB2, HD1, HD2, <- !app_assoc.
      repeat (split; [reflexivity|]).
      split; [constructor; [lia | exact Fno']|].
      cbn [filter]. rewrite Hno, blank_at_head, Hblank. cbn [negb].
      rewrite Hfilter. constructor; assumption.
    + exists stB, stD, (r :: nr), nB, nD.
      rewrite HrB, HrD, HdB, HdD, HB1, HB2, HD1, HD2, <- !app_assoc, Hfilter.
      repeat split; assumption.
Qed.
End AsciiFiles.

Lemma Forall2_of_maps {A B C} (f : A -> C) (g : B -> C) (P : B -> Prop)
    (la : list A) (lb : list B) :
  map f la = map g lb -> Forall P lb ->
  Forall2 (fun b a => P b /\ f a = g b) lb la.
Proof.
  revert la. induction lb as [|b lb IH]; intros [|a la] E F;
    try discriminate; [constructor|].
  cbn [map] in E. injection E as E1 E2. inversion F; subst.
  constructor; [split; assumption | now apply IH].
Qed.

Lemma Forall2_tl {A B} (R : A -> B -> Prop) (la : list A) (lb : list B) :
  Forall2 R la lb -> Forall2 R (tl la) (tl lb).
Proof. intros F. destruct F; [constructor | assumption]. Qed.

(** X8: on a readable file of ASCII bytes in which every carriage return is
    followed by a line feed, the byte-level script and the text-mode script
    see the same lines under the same numbers and collect the same rows.
    The diagnostics of the text-mode script are those of the byte-level
    script for the lines that are not blank, in the same order: the same
    file and line number, the same reason (the text-mode script writes
    [padded_short_line] where the byte-level one writes [line_too_short]),
    and closing-price texts that agree once trimmed. *)
Theorem quote_scripts_agree_on_ascii_file `{Codec}
    (path : Path) (date_tag : pystr) (verbose : bool) (st : buffers) (data : bytes)
    (Hreadable : stored path = Ok data)
    (Hascii : forallb ascii_byte data = true)
    (Hcrlf : crlf_only data = true) :
  let data_lines := tl (split_lines (Byte.eqb x0a) data) in
  exists stB stD new_rows newB newD,
    ByteLevel.process_file path date_tag verbose st = (Ok tt, stB)
    /\ Diagnostic.process_file path date_tag st = (Ok tt, stD)
    /\ rows stB = rows st ++ new_rows
    /\ rows stD = rows st ++ new_rows
    /\ debug_rows stB = debug_rows st ++ newB
    /\ debug_rows stD = debug_rows st ++ newD
    /\ Forall2 verdict_agrees
         (filter (fun d => negb (blank_at 2 data_lines (d_line_no d))) newB) newD.
Proof.
  cbv zeta.
  pose proof (text_lines_of_ascii (length data) data (Nat.le_refl _) Hcrlf) as Hlines.
  assert (Fa : Forall (fun raw => forallb ascii_byte (rstrip_crlf_bytes raw) = true)
                 (split_lines (Byte.eqb x0a) data)).
  { eapply Forall_impl; [|exact (split_lines_forallb _ _ data Hascii)].
    intros raw Hraw. now apply forallb_rstrip_with. }
  pose proof (Forall2_tl _ _ _ (Forall2_of_maps _ _ _ _ _ Hlines Fa)) as F2.
  destruct (agree_on_ascii_lines (path_name path) date_tag verbose _ _ F2 2 0%nat st st)
    as [stB [stD [nr [nB [nD [EB [ED [HrB [HrD [HdB [HdD [_ Hv]]]]]]]]]]]].
  exists stB, stD, nr, nB, nD.
  split.
  { unfold ByteLevel.process_file, try_M, bind, lift, open_rb_readlines.
    rewrite Hreadable. cbn [rbind]. rewrite py_slice_from_1.
    unfold bytes in *. now rewrite EB. }
  split.
  { unfold Diagnostic.process_file, try_M, bind, lift, open_text_lines.
    rewrite Hreadable. cbn [rbind]. rewrite (py_decode_ascii data Hascii).
    cbn [rbind]. cbv zeta. rewrite py_slice_from_1.
    unfold pystr, char in *. now rewrite ED. }
  repeat (split; [assumption|]). exact Hv.
Qed.

Lemma quote_scripts_agree_on_ascii_file_witness :
  exists stB stD,
    @ByteLevel.process_file ascii_only five_line_file (lit "20200420") false
      empty_buffers = (Ok tt, stB)
    /\ @Diagnostic.process_file ascii_only five_line_file (lit "20200420")
         empty_buffers = (Ok tt, stD)
    /\ rows stB = rows stD
    /\ map r_line_no (rows stB) = [2]
    /\ map d_reason (debug_rows stB) = [line_too_short; empty_stock_id]
    /\ map d_line_no (debug_rows stB) = [3; 5]
    /\ map d_reason (debug_rows stD) = [padded_short_line]
    /\ map d_line_no (debug_rows stD) = [3].
Proof.
  destruct (@quote_scripts_agree_on_ascii_file ascii_only five_line_file
              (lit "20200420") false empty_buffers _ eq_refl eq_refl eq_refl)
    as [stB [stD [nr [nB [nD [EB [ED [HrB [HrD _]]]]]]]]].
  exists stB, stD. split; [exact EB|]. split; [exact ED|].
  split; [now rewrite HrB, HrD|].
  vm_compute in EB. injection EB as <-.
  vm_compute in ED. injection ED as <-.
  repeat split.
Defined.

(** * Facts about binary floating point and the decoder in it *)

(** ** Rounding to an integer *)

Lemma round_half_even_Z (N : Z) (D : positive) :
  let m := round_half_even (N # D) in
  - Zpos D <= 2 * (N - m * Zpos D) <= Zpos D.
Proof.
  cbv zeta. unfold round_half_even. cbn [Qnum Qden].
  pose proof (Z.div_mod N (Zpos D) ltac:(lia)) as E.
  pose proof (Z.mod_pos_bound N (Zpos D) ltac:(lia)) as B.
  set (k := N / Zpos D) in *. set (r := N mod Zpos D) in *.
  destruct (Z.ltb_spec (2 * r) (Zpos D)); [nia|].
  destruct (Z.ltb_spec (Zpos D) (2 * r)); [nia|].
  destruct (Z.even k); nia.
Qed.

Lemma round_half_even_bound (q : Q) :
  (inject_Z (round_half_even q) - (1 # 2) <= q
   /\ q <= inject_Z (round_half_even q) + (1 # 2))%Q.
Proof.
  destruct q as [N D]. pose proof (round_half_even_Z N D) as H. cbv zeta in H.
  set (m := round_half_even (N # D)) in *.
  unfold Qle, Qminus, Qplus, Qopp, inject_Z. cbn [Qnum Qden].
  split; nia.
Qed.

Lemma round_half_even_unique (q : Q) (n : Z) :
  (inject_Z n - (1 # 2) < q)%Q -> (q < inject_Z n + (1 # 2))%Q ->
  round_half_even q = n.
Proof.
  destruct q as [N D]. pose proof (round_half_even_Z N D) as H. cbv zeta in H.
  set (m := round_half_even (N # D)) in *.
  unfold Qlt, Qminus, Qplus, Qopp, inject_Z. cbn [Qnum Qden].
  intros H1 H2. nia.
Qed.

(** ** The exponent of the leading bit *)

Lemma two_pos (k : Z) : (0 < 2 ^ k)%Q.
Proof. apply Qpower_0_lt. reflexivity. Qed.

Lemma two_power_Z (k : Z) : 0 <= k -> (2 ^ k == inject_Z (2 ^ k))%Q.
Proof. intros Hk. now rewrite Zpower_Qpower. Qed.

Lemma two_power_succ (k : Z) : (2 ^ (k + 1) == 2 * 2 ^ k)%Q.
Proof.
  rewrite Qpower_plus by discriminate. change (2 ^ 1)%Q with 2%Q. ring.
Qed.

Lemma ilog2_lower (a : Q) : (0 < a)%Q -> (2 ^ ilog2 a <= a)%Q.
Proof.
  intros Ha. unfold ilog2. destruct a as [N D]. cbn [Qnum Qden].
  set (A := Z.log2 N). set (B := Z.log2 (Zpos D)).
  destruct (Qle_bool (2 ^ (A - B)) (N # D)) eqn:E; [now apply Qle_bool_iff|].
  assert (Hn : 0 < N).
  { unfold Qlt in Ha. cbn in Ha. lia. }
  destruct (Z.log2_spec N Hn) as [HA _]. fold A in HA.
  destruct (Z.log2_spec (Zpos D) ltac:(lia)) as [_ HB]. fold B in HB.
  assert (A0 : 0 <= A) by apply Z.log2_nonneg.
  assert (B0 : 0 <= B) by apply Z.log2_nonneg.
  rewrite (Qmake_Qdiv N D).
  apply Qle_shift_div_l; [reflexivity|].
  apply Qle_trans with (2 ^ (A - B - 1) * 2 ^ (B + 1))%Q.
  - apply Qmult_le_l; [apply two_pos|].
    rewrite two_power_Z by lia. rewrite <- Zle_Qle.
    replace (Z.succ B) with (B + 1) in HB by lia. lia.
  - rewrite <- Qpower_plus by discriminate.
    replace (A - B - 1 + (B + 1)) with A by lia.
    rewrite two_power_Z by lia. now rewrite <- Zle_Qle.
Qed.

Lemma ilog2_upper (a : Q) : (0 < a)%Q -> (a < 2 ^ (ilog2 a + 1))%Q.
Proof.
  intros Ha. unfold ilog2. destruct a as [N D]. cbn [Qnum Qden].
  set (A := Z.log2 N). set (B := Z.log2 (Zpos D)).
  destruct (Qle_bool (2 ^ (A - B)) (N # D)) eqn:E.
  2:{ replace (A - B - 1 + 1) with (A - B) by lia.
      apply Qnot_le_lt. intros K. apply Qle_bool_iff in K. congruence. }
  assert (Hn : 0 < N).
  { unfold Qlt in Ha. cbn in Ha. lia. }
  destruct (Z.log2_spec N Hn) as [_ HA]. fold A in HA.
  destruct (Z.log2_spec (Zpos D) ltac:(lia)) as [HB _]. fold B in HB.
  assert (A0 : 0 <= A) by apply Z.log2_nonneg.
  assert (B0 : 0 <= B) by apply Z.log2_nonneg.
  rewrite (Qmake_Qdiv N D).
  apply Qlt_shift_div_r; [reflexivity|].
  apply Qlt_le_trans with (2 ^ (A - B + 1) * 2 ^ B)%Q.
  - rewrite <- Qpower_plus by discriminate.
    replace (A - B + 1 + B) with (A + 1) by lia.
    rewrite two_power_Z by lia. rewrite <- Zlt_Qlt.
    replace (Z.succ A) with (A + 1) in HA by lia. exact HA.
  - apply Qmult_le_l; [apply two_pos|].
    rewrite two_power_Z by lia. now rewrite <- Zle_Qle.
Qed.

(** The exponent is determined by the two bounds. *)
Lemma ilog2_unique (a : Q) (k : Z) :
  (2 ^ k <= a)%Q -> (a < 2 ^ (k + 1))%Q -> ilog2 a = k.
Proof.
  intros Hl Hu.
  assert (Ha : (0 < a)%Q) by (eapply Qlt_le_trans; [apply two_pos | exact Hl]).
  pose proof (ilog2_lower a Ha) as L. pose proof (ilog2_upper a Ha) as U.
  assert (ilog2 a < k + 1).
  { apply (Qpower_lt_compat_l_inv 2); [|reflexivity].
    eapply Qle_lt_trans; [exact L | exact Hu]. }
  assert (k < ilog2 a + 1).
  { apply (Qpower_lt_compat_l_inv 2); [|reflexivity].
    eapply Qle_lt_trans; [exact Hl | exact U]. }
  lia.
Qed.

(** ** Rounding to binary64 *)

Lemma binary64_compat (q q' : Q) : (q == q')%Q -> binary64 q = binary64 q'.
Proof. intros E. unfold binary64. now rewrite (Qred_complete _ _ E). Qed.

Lemma binary64_zero (q : Q) : (q == 0)%Q -> binary64 q = 0%Q.
Proof. intros E. now rewrite (binary64_compat _ _ E). Qed.

Lemma binary64_pos (q : Q) :
  (0 < q)%Q ->
  exists a,
    (a == q)%Q
    /\ (binary64 q
        == inject_Z (round_half_even (a / 2 ^ (ilog2 a - 52))) * 2 ^ (ilog2 a - 52))%Q.
Proof.
  intros Hq. unfold binary64.
  pose proof (Qred_correct q) as Hr.
  set (q' := Qred q) in *.
  assert (Hq' : (0 < q')%Q) by now rewrite Hr.
  assert (Hn : 0 < Qnum q').
  { unfold Qlt in Hq'. cbn in Hq'. lia. }
  destruct (Z.eqb_spec (Qnum q') 0) as [|_]; [lia|].
  destruct (Z.ltb_spec (Qnum q') 0) as [|_]; [lia|].
  cbv zeta. exists (Qabs q'). split.
  - rewrite Qabs_pos by now apply Qlt_le_weak. exact Hr.
  - apply Qred_correct.
Qed.

Lemma half_ulp (e : Z) : (2 ^ e == 2 * 2 ^ (e - 1))%Q.
Proof. rewrite <- two_power_succ. now replace (e - 1 + 1) with e by lia. Qed.

(** The error of rounding a number below [2^K]: half a unit in the last
    place, at most [2^(K-54)]. *)
Lemma binary64_error (q : Q) (K : Z) :
  (0 <= q)%Q -> (q < 2 ^ K)%Q ->
  (q - 2 ^ (K - 54) <= binary64 q /\ binary64 q <= q + 2 ^ (K - 54))%Q.
Proof.
  intros H0 HK. pose proof (two_pos (K - 54)) as Hp.
  destruct (Qlt_le_dec 0 q) as [Hq|Hq].
  2:{ assert (E : (q == 0)%Q) by now apply Qle_antisym.
      rewrite (binary64_zero q E). rewrite E. split; lra. }
  destruct (binary64_pos q Hq) as [a [Ea ->]].
  assert (Ha : (0 < a)%Q) by now rewrite Ea.
  set (e := ilog2 a - 52).
  pose proof (two_pos e) as Hu.
  pose proof (round_half_even_bound (a / 2 ^ e)) as [B1 B2].
  set (m := inject_Z (round_half_even (a / 2 ^ e))) in *.
  assert (Ex : (a == a / 2 ^ e * 2 ^ e)%Q).
  { rewrite Qmult_comm, Qmult_div_r; [reflexivity|].
    intros Z0. rewrite Z0 in Hu. discriminate. }
  assert (Hlog : ilog2 a < K).
  { apply (Qpower_lt_compat_l_inv 2); [|reflexivity].
    eapply Qle_lt_trans; [apply (ilog2_lower a Ha)|]. now rewrite Ea. }
  assert (Hhalf : (2 ^ (e - 1) <= 2 ^ (K - 54))%Q).
  { apply Qpower_le_compat_l; [unfold e; lia | discriminate]. }
  pose proof (half_ulp e) as Hh.
  assert (C1 : ((m - (1 # 2)) * 2 ^ e <= a / 2 ^ e * 2 ^ e)%Q)
    by (apply Qmult_le_compat_r; [exact B1 | now apply Qlt_le_weak]).
  assert (C2 : (a / 2 ^ e * 2 ^ e <= (m + (1 # 2)) * 2 ^ e)%Q)
    by (apply Qmult_le_compat_r; [exact B2 | now apply Qlt_le_weak]).
  rewrite <- Ex in C1, C2. rewrite <- Ea.
  set (u := (2 ^ e)%Q) in *. set (h := (2 ^ (e - 1))%Q) in *.
  set (d := (2 ^ (K - 54))%Q) in *.
  assert (D1 : ((m - (1 # 2)) * u == m * u - h)%Q) by (rewrite Hh; ring).
  assert (D2 : ((m + (1 # 2)) * u == m * u + h)%Q) by (rewrite Hh; ring).
  rewrite D1 in C1. rewrite D2 in C2.
  split; lra.
Qed.

Lemma binary64_nonneg (q : Q) : (0 <= q)%Q -> (0 <= binary64 q)%Q.
Proof.
  intros H0. destruct (Qlt_le_dec 0 q) as [Hq|Hq].
  2:{ assert (E : (q == 0)%Q) by now apply Qle_antisym.
      rewrite (binary64_zero q E). apply Qle_refl. }
  destruct (binary64_pos q Hq) as [a [Ea ->]].
  assert (Ha : (0 < a)%Q) by now rewrite Ea.
  set (e := ilog2 a - 52). pose proof (two_pos e) as Hu.
  pose proof (round_half_even_bound (a / 2 ^ e)) as [_ B2].
  assert (Hx : (0 < a / 2 ^ e)%Q).
  { apply Qlt_shift_div_l; [exact Hu|]. now rewrite Qmult_0_l. }
  assert (Hm : 0 <= round_half_even (a / 2 ^ e)).
  { destruct (Z.le_gt_cases 0 (round_half_even (a / 2 ^ e))) as [|Hneg]; [assumption|].
    exfalso. assert (K : (inject_Z (round_half_even (a / 2 ^ e)) <= -1)%Q).
    { change (-1)%Q with (inject_Z (-1)). rewrite <- Zle_Qle. lia. }
    lra. }
  apply Qmult_le_0_compat; [|now apply Qlt_le_weak].
  change 0%Q with (inject_Z 0). now rewrite <- Zle_Qle.
Qed.

(** A number with at most 53 significant bits is a binary64 number. *)
Lemma binary64_exact (q : Q) (M k : Z) :
  0 < M < 2 ^ 53 -> (q == inject_Z M * 2 ^ k)%Q -> (binary64 q == q)%Q.
Proof.
  intros HM Eq.
  assert (Hq : (0 < q)%Q).
  { rewrite Eq. apply Qmult_lt_0_compat; [|apply two_pos].
    change 0%Q with (inject_Z 0). rewrite <- Zlt_Qlt. lia. }
  destruct (binary64_pos q Hq) as [a [Ea ->]].
  set (L := Z.log2 M).
  destruct (Z.log2_spec M ltac:(lia)) as [L1 L2]. fold L in L1, L2.
  assert (L0 : 0 <= L) by apply Z.log2_nonneg.
  assert (L52 : L <= 52).
  { assert (2 ^ L < 2 ^ 53) by lia.
    apply Z.pow_lt_mono_r_iff in H; lia. }
  assert (Hlog : ilog2 a = L + k).
  { apply ilog2_unique; rewrite Ea, Eq.
    - rewrite Qpower_plus by discriminate.
      apply Qmult_le_compat_r; [|apply Qlt_le_weak, two_pos].
      rewrite two_power_Z by lia. now rewrite <- Zle_Qle.
    - replace (L + k + 1) with (L + 1 + k) by lia.
      rewrite Qpower_plus by discriminate.
      apply Qmult_lt_compat_r; [apply two_pos|].
      rewrite two_power_Z by lia. rewrite <- Zlt_Qlt.
      now replace (Z.succ L) with (L + 1) in L2 by lia. }
  rewrite Hlog. set (e := L + k - 52).
  pose proof (two_pos e) as Hu.
  assert (Hk : (2 ^ k == 2 ^ (52 - L) * 2 ^ e)%Q).
  { rewrite <- Qpower_plus by discriminate. unfold e.
    now replace (52 - L + (L + k - 52)) with k by lia. }
  assert (Hx : (a / 2 ^ e == inject_Z (M * 2 ^ (52 - L)))%Q).
  { rewrite Ea, Eq, Hk, inject_Z_mult, <- two_power_Z by lia.
    field. intros Z0. rewrite Z0 in Hu. discriminate. }
  assert (Hm : round_half_even (a / 2 ^ e) = M * 2 ^ (52 - L)).
  { apply round_half_even_unique; rewrite Hx; lra. }
  rewrite Hm, Eq, Hk, inject_Z_mult, <- two_power_Z by lia. ring.
Qed.

Lemma binary64_int (z : Z) : 0 <= z < 2 ^ 53 -> (binary64 (inject_Z z) == inject_Z z)%Q.
Proof.
  intros Hz. destruct (Z.eq_dec z 0) as [->|Hne]; [reflexivity|].
  apply (binary64_exact _ z 0); [lia|].
  change (2 ^ 0)%Q with 1%Q. ring.
Qed.

(** ** The decoder in floating point *)

Lemma py_round_nearest (q : Q) :
  py_round q 4 = round_half_even (q * inject_Z 10000) # 10000.
Proof.
  unfold py_round, round_half_even. cbn [Qnum Qden Qmult inject_Z].
  rewrite Pos.mul_1_r. reflexivity.
Qed.

Lemma float_lit_10000 : (float_lit (inject_Z 10000) == 10000)%Q.
Proof. reflexivity. Qed.

(** What the arithmetic of the decoder returns for the integers [w] and
    [f]: the float nearest to [w + f / 10000], because the two rounding
    errors before [round] stay below half a ten-thousandth. *)
Lemma float_decode (w f : Z) :
  0 <= w <= 99999 -> 0 <= f <= 9999 ->
  float_round
    (float_add (float_of_int w)
       (float_div (float_of_int f) (float_lit (inject_Z 10000)))) 4
  = binary64 ((w * 10000 + f) # 10000).
Proof.
  intros Hw Hf. unfold float_round, float_add, float_div, float_of_int.
  assert (Ef : (binary64 (inject_Z f) == inject_Z f)%Q)
    by (apply binary64_int; lia).
  assert (Ew : (binary64 (inject_Z w) == inject_Z w)%Q)
    by (apply binary64_int; lia).
  rewrite (binary64_compat (binary64 (inject_Z f) / float_lit (inject_Z 10000))
             (inject_Z f / 10000))
    by (rewrite Ef, float_lit_10000; reflexivity).
  set (x := (inject_Z f / 10000)%Q).
  assert (Hx : (0 <= x /\ x <= 9999 # 10000)%Q).
  { unfold x. split.
    - apply Qle_shift_div_l; [reflexivity|]. rewrite Qmult_0_l.
      change 0%Q with (inject_Z 0). rewrite <- Zle_Qle. lia.
    - apply Qle_shift_div_r; [reflexivity|].
      apply Qle_trans with (inject_Z 9999); [rewrite <- Zle_Qle; lia|].
      unfold Qle. cbn. lia. }
  destruct Hx as [Hx0 Hx1].
  pose proof (binary64_error x 0 Hx0 ltac:(change (2 ^ 0)%Q with 1%Q; lra)) as [G1 G2].
  pose proof (binary64_nonneg x Hx0) as G0.
  change (2 ^ (0 - 54))%Q with (1 # 18014398509481984)%Q in G1, G2.
  set (g := binary64 x) in *.
  rewrite (binary64_compat (binary64 (inject_Z w) + g) (inject_Z w + g))
    by (rewrite Ew; reflexivity).
  assert (Hw0 : (0 <= inject_Z w)%Q)
    by (change 0%Q with (inject_Z 0); rewrite <- Zle_Qle; lia).
  assert (Hw1 : (inject_Z w <= 99999)%Q)
    by (change 99999%Q with (inject_Z 99999); rewrite <- Zle_Qle; lia).
  pose proof (binary64_error (inject_Z w + g) 17 ltac:(lra)
                ltac:(change (2 ^ 17)%Q with 131072%Q; lra)) as [Y1 Y2].
  change (2 ^ (17 - 54))%Q with (1 # 137438953472)%Q in Y1, Y2.
  set (y := binary64 (inject_Z w + g)) in *.
  rewrite py_round_nearest.
  assert (En : (inject_Z (w * 10000 + f) == (inject_Z w + x) * 10000)%Q).
  { unfold x. rewrite inject_Z_plus, inject_Z_mult. field. }
  assert (Hn : round_half_even (y * inject_Z 10000) = w * 10000 + f).
  { apply round_half_even_unique; rewrite En;
      change (inject_Z 10000) with 10000%Q; lra. }
  now rewrite Hn.
Qed.

Lemma FloatPrice_split_9digit_ok (d : pystr) :
  length d = 9%nat -> forallb is_ascii_digit d = true ->
  FloatPrice.split_9digit d = Ok (binary64 (digits_value d # 10000))
  /\ exists whole frac,
       py_int (py_slice d None (Some (-4))) = Ok whole
       /\ py_int (py_slice d (Some (-4)) None) = Ok frac
       /\ 0 <= whole <= 99999 /\ 0 <= frac <= 9999
       /\ digits_value d = whole * 10000 + frac.
Proof.
  intros Hlen Hd. unfold FloatPrice.split_9digit.
  change (-4) with (- Z.of_nat 4).
  rewrite py_slice_but_last, py_slice_last by lia. rewrite Hlen.
  change (9 - 4)%nat with 5%nat.
  assert (L5 : length (firstn 5 d) = 5%nat) by (rewrite length_firstn; lia).
  assert (L4 : length (skipn 5 d) = 4%nat) by (rewrite length_skipn; lia).
  assert (H5 : forallb is_ascii_digit (firstn 5 d) = true)
    by now apply forallb_firstn.
  assert (H4 : forallb is_ascii_digit (skipn 5 d) = true)
    by now apply forallb_skipn.
  rewrite (py_int_digits (firstn 5 d)).
  2:{ intros E. rewrite E in L5. discriminate. }
  2:{ exact H5. }
  rewrite (py_int_digits (skipn 5 d)).
  2:{ intros E. rewrite E in L4. discriminate. }
  2:{ exact H4. }
  cbn [rbind]. cbv zeta.
  pose proof (digits_value_range _ H5) as R5. unfold len in R5. rewrite L5 in R5.
  pose proof (digits_value_range _ H4) as R4. unfold len in R4. rewrite L4 in R4.
  change (10 ^ Z.of_nat 5) with 100000 in R5.
  change (10 ^ Z.of_nat 4) with 10000 in R4.
  assert (Ev : digits_value d
               = digits_value (firstn 5 d) * 10000 + digits_value (skipn 5 d)).
  { rewrite <- (firstn_skipn 5 d) at 1. rewrite digits_value_app.
    unfold len. rewrite L4. reflexivity. }
  split.
  - rewrite float_decode by lia. now rewrite Ev.
  - eexists _, _. repeat split; try reflexivity; try lia.
Qed.

(** The decoder in floating point returns, for every input, the float
    nearest to the value that the exact decoder returns. *)
Lemma FloatPrice_rounds_exact (raw : pystr) :
  FloatPrice.parse_9digit_price raw
  = option_map binary64 (ByteLevel.parse_9digit_price raw).
Proof.
  unfold FloatPrice.parse_9digit_price.
  destruct (re_sub_non_digits raw) as [|c d] eqn:E.
  { rewrite (parse_9digit_price_no_digit raw E).
    destruct (is_empty raw); reflexivity. }
  assert (Hne : re_sub_non_digits raw <> []) by (rewrite E; discriminate).
  rewrite (parse_9digit_price_digits raw Hne).
  destruct raw as [|c0 raw0]; [discriminate E|]. cbn [is_empty option_map].
  rewrite E. cbn [is_empty]. rewrite <- E.
  destruct (pad_or_truncate_shape _ Hne (re_sub_non_digits_all (c0 :: raw0)))
    as [Hl Hd].
  destruct (FloatPrice_split_9digit_ok _ Hl Hd) as [-> _]. reflexivity.
Qed.

(** Ten thousand times a decoded price, computed in floating point, rounds
    to the integer the nine digits spell. *)
Lemma float_scaled_back (n : Z) :
  0 <= n < 10 ^ 9 ->
  let v := binary64 (n # 10000) in
  (inject_Z n / 10000 - (1 # 2 ^ 37) <= v /\ v <= inject_Z n / 10000 + (1 # 2 ^ 37))%Q
  /\ round_half_even (float_mul v (float_lit (inject_Z 10000))) = n.
Proof.
  intros Hn. cbv zeta. change (10 ^ 9) with 1000000000 in Hn.
  rewrite (binary64_compat (n # 10000) (inject_Z n / 10000))
    by (rewrite (Qmake_Qdiv n 10000); reflexivity).
  set (q := (inject_Z n / 10000)%Q).
  assert (Hn0 : (0 <= inject_Z n)%Q)
    by (change 0%Q with (inject_Z 0); rewrite <- Zle_Qle; lia).
  assert (Hn1 : (inject_Z n <= 999999999)%Q)
    by (change 999999999%Q with (inject_Z 999999999); rewrite <- Zle_Qle; lia).
  assert (Eq : (inject_Z n == q * 10000)%Q) by (unfold q; field).
  assert (Hq0 : (0 <= q)%Q) by lra.
  assert (Hq1 : (q <= 999999999 # 10000)%Q) by lra.
  pose proof (binary64_error q 17 Hq0
                ltac:(change (2 ^ 17)%Q with 131072%Q; lra)) as [V1 V2].
  change (2 ^ (17 - 54))%Q with (1 # 137438953472)%Q in V1, V2.
  pose proof (binary64_nonneg q Hq0) as V0.
  set (v := binary64 q) in *.
  change (1 # 2 ^ 37)%Q with (1 # 137438953472)%Q.
  split; [split; assumption|].
  unfold float_mul.
  rewrite (binary64_compat (v * float_lit (inject_Z 10000)) (v * 10000))
    by (rewrite float_lit_10000; reflexivity).
  pose proof (binary64_error (v * 10000) 30 ltac:(lra)
                ltac:(change (2 ^ 30)%Q with 1073741824%Q; lra)) as [T1 T2].
  change (2 ^ (30 - 54))%Q with (1 # 16777216)%Q in T1, T2.
  apply round_half_even_unique; rewrite Eq; lra.
Qed.

(** C4: a string of exactly nine decimal digits splits into [whole], its
    first five digits, and [fraction], its last four, and writing
    [whole * 10000 + fraction] zero-padded to nine digits gives the string
    back.  What [parse_9digit_price] returns for it is a float: the binary64
    number nearest to [whole + fraction / 10000], within [2^-37] of it.
    The integer nearest to 10000 times that float is
    [whole * 10000 + fraction], so that re-encoding the decoded value by
    rounding to the nearest integer gives the string back. *)
Theorem parse_9digit_price_roundtrip
    (s : pystr)
    (Hlen : length s = 9%nat)
    (Hdigits : forallb is_ascii_digit s = true) :
  exists whole frac v,
    py_int (py_slice s None (Some (-4))) = Ok whole
    /\ py_int (py_slice s (Some (-4)) None) = Ok frac
    /\ 0 <= whole <= 99999
    /\ 0 <= frac <= 9999
    /\ zfill 9 (str_of_int (whole * 10000 + frac)) = s
    /\ FloatPrice.parse_9digit_price s = Some v
    /\ v = binary64 (inject_Z whole + inject_Z frac / inject_Z 10000)
    /\ (inject_Z whole + inject_Z frac / inject_Z 10000 - (1 # 2 ^ 37) <= v)%Q
    /\ (v <= inject_Z whole + inject_Z frac / inject_Z 10000 + (1 # 2 ^ 37))%Q
    /\ round_half_even (float_mul v (float_lit (inject_Z 10000)))
       = whole * 10000 + frac
    /\ reencode_nearest v = s.
Proof.
  assert (Hne : s <> []) by (intros E; rewrite E in Hlen; discriminate).
  assert (Hf : re_sub_non_digits s = s).
  { unfold re_sub_non_digits. apply forallb_filter_id. exact Hdigits. }
  destruct (FloatPrice_split_9digit_ok s Hlen Hdigits)
    as [Hsplit [whole [frac [Hw [Hfr [Rw [Rf Ev]]]]]]].
  pose proof (digits_value_range s Hdigits) as R. unfold len in R.
  rewrite Hlen in R. change (10 ^ Z.of_nat 9) with (10 ^ 9) in R.
  destruct (float_scaled_back (digits_value s) R) as [[B1 B2] Hback].
  assert (Eq : (inject_Z (digits_value s) / 10000
                == inject_Z whole + inject_Z frac / inject_Z 10000)%Q).
  { rewrite Ev, inject_Z_plus, inject_Z_mult. field. }
  assert (Eb : binary64 (digits_value s # 10000)
               = binary64 (inject_Z whole + inject_Z frac / inject_Z 10000)).
  { apply binary64_compat. rewrite (Qmake_Qdiv (digits_value s) 10000).
    exact Eq. }
  assert (Hstr : zfill 9 (str_of_int (digits_value s)) = s).
  { rewrite str_of_int_zfill by (change (Z.of_nat 9) with 9; lia).
    rewrite <- Hlen. apply fixed_digits_value. exact Hdigits. }
  exists whole, frac, (binary64 (digits_value s # 10000)).
  split; [exact Hw|]. split; [exact Hfr|].
  split; [exact Rw|]. split; [exact Rf|].
  split; [rewrite <- Ev; exact Hstr|].
  split.
  { unfold FloatPrice.parse_9digit_price. rewrite Hf.
    destruct s as [|c s']; [now elim Hne|]. cbn [is_empty].
    rewrite pad_or_truncate_long by (rewrite Hlen; lia).
    rewrite Hlen. change (skipn (9 - 9) (c :: s')) with (c :: s').
    rewrite Hsplit. reflexivity. }
  split; [exact Eb|].
  split; [rewrite <- Eq; exact B1|].
  split; [rewrite <- Eq; exact B2|].
  split; [rewrite Hback; exact Ev|].
  unfold reencode_nearest. rewrite Hback. exact Hstr.
Qed.

Lemma parse_9digit_price_roundtrip_witness :
  exists v,
    FloatPrice.parse_9digit_price (lit "000398000") = Some v
    /\ round_half_even (float_mul v (float_lit (inject_Z 10000))) = 398000
    /\ reencode_nearest v = lit "000398000".
Proof.
  destruct (parse_9digit_price_roundtrip (lit "000398000") eq_refl eq_refl)
    as [whole [frac [v [Hw [Hfr [_ [_ [_ [Hp [_ [_ [_ [Hr He]]]]]]]]]]]]].
  exists v. split; [exact Hp|]. split; [|exact He].
  rewrite Hr.
  assert (Ew : whole = 39) by (vm_compute in Hw; congruence).
  assert (Ef : frac = 8000) by (vm_compute in Hfr; congruence).
  rewrite Ew, Ef. reflexivity.
Defined.

(** The float decoded from [000398000] is not [39 + 8000 / 10000], which no
    binary64 number is, but a little less: its integer part is 39 and the
    rest times 10000, in exact or in float arithmetic, has integer part
    7999, so that taking the two parts by truncation writes [000397999]. *)
Lemma parse_9digit_price_roundtrip_counterexample :
  exists v,
    FloatPrice.parse_9digit_price (lit "000398000") = Some v
    /\ v = (2800676018271027 # 70368744177664)%Q
    /\ ~ (v == inject_Z 39 + inject_Z 8000 / inject_Z 10000)%Q
    /\ whole_part v = 39
    /\ fraction_part v = 7999
    /\ Qfloor (float_mul (float_add v (- float_of_int (whole_part v)))
                 (float_lit (inject_Z 10000))) = 7999
    /\ reencode_9digit v = lit "000397999"
    /\ reencode_9digit v <> lit "000398000".
Proof.
  exists (2800676018271027 # 70368744177664)%Q.
  split; [vm_compute; reflexivity|].
  split; [reflexivity|].
  split; [intros E; vm_compute in E; discriminate E|].
  split; [vm_compute; reflexivity|].
  split; [vm_compute; reflexivity|].
  split; [vm_compute; reflexivity|].
  split; [vm_compute; reflexivity|].
  intros E. vm_compute in E. discriminate E.
Qed.
